(** * Assignment submission portal (app.py): model and verified properties

    A shallow embedding of the request handlers of [app.py]: the relational
    store is a record of tables (row lists in rowid order with their
    AUTOINCREMENT counters), the upload directory is a finite map from file
    names to contents, and each handler is a function from the session, the
    request and the current state to a response and the next state.

    Text is modelled as strings over the code points 0..255; the clock, the
    random token of [uuid4] and the salt of the password hash are inputs of a
    request. *)

From Stdlib Require Import ZArith List String Ascii Bool Lia.
From Stdlib Require Import Sorting.Permutation Sorting.Sorted DecimalString.
From stdpp Require Import base option list gmap strings.
Import ListNotations.

Local Open Scope string_scope.
Local Open Scope list_scope.
Local Open Scope Z_scope.

(** ** Python string operations used by the handlers *)

Module PyStr.

Definition code (c : ascii) : Z := Z.of_N (N_of_ascii c).

(** [str.isspace] on one character (code points below 256). *)
Definition isspace (c : ascii) : bool :=
  let n := code c in
  ((9 <=? n) && (n <=? 13)) || ((28 <=? n) && (n <=? 32))
  || (n =? 133) || (n =? 160).

Fixpoint lstrip (s : string) : string :=
  match s with
  | EmptyString => EmptyString
  | String c r => if isspace c then lstrip r else s
  end.

Fixpoint rstrip (s : string) : string :=
  match s with
  | EmptyString => EmptyString
  | String c r =>
      match rstrip r with
      | EmptyString => if isspace c then EmptyString else String c EmptyString
      | r' => String c r'
      end
  end.

(** [s.strip()] *)
Definition strip (s : string) : string := rstrip (lstrip s).

Definition lower_char (c : ascii) : ascii :=
  let n := code c in
  if ((65 <=? n) && (n <=? 90)) || ((192 <=? n) && (n <=? 214))
     || ((216 <=? n) && (n <=? 222))
  then ascii_of_N (Z.to_N (n + 32)) else c.

(** [s.lower()] *)
Fixpoint lower (s : string) : string :=
  match s with
  | EmptyString => EmptyString
  | String c r => String (lower_char c) (lower r)
  end.

(** [c in s] for a one-character needle. *)
Fixpoint contains (c : ascii) (s : string) : bool :=
  match s with
  | EmptyString => false
  | String d r => Ascii.eqb c d || contains c r
  end.

(** [s.rsplit(c, 1)]: [None] when [c] does not occur (the result has one
    element only), otherwise the text before and after the last [c]. *)
Fixpoint rsplit1 (c : ascii) (s : string) : option (string * string) :=
  match s with
  | EmptyString => None
  | String d r =>
      match rsplit1 c r with
      | Some (a, b) => Some (String d a, b)
      | None => if Ascii.eqb c d then Some (EmptyString, r) else None
      end
  end.

(** [s.startswith(p)] *)
Definition startswith (p s : string) : bool := String.prefix p s.

(** Truth value of a string: [not s] holds for the empty string only. *)
Definition truthy (s : string) : bool := negb (String.eqb s "").

End PyStr.

(** ** [datetime]: parsing, formatting and comparison *)

Module DateTime.

Record datetime : Type := mkDT {
  year : Z; month : Z; day : Z; hour : Z; minute : Z; second : Z
}.

(** The directives of the three format strings of the program. [DLit] is
    a literal character, [DSpace] a blank of the format (which [strptime]
    turns into the pattern [\s+]). *)
Inductive directive : Type :=
| DYear | DMonth | DDay | DHour | DMinute | DSecond
| DLit (c : ascii)
| DSpace.

(** ["%Y-%m-%d %H:%M:%S"] *)
Definition FMT_SECONDS : list directive :=
  [DYear; DLit "-"; DMonth; DLit "-"; DDay; DSpace;
   DHour; DLit ":"; DMinute; DLit ":"; DSecond].

(** ["%Y-%m-%d %H:%M"] *)
Definition FMT_MINUTES : list directive :=
  [DYear; DLit "-"; DMonth; DLit "-"; DDay; DSpace; DHour; DLit ":"; DMinute].

(** ["%Y-%m-%dT%H:%M"] *)
Definition FMT_LOCAL : list directive :=
  [DYear; DLit "-"; DMonth; DLit "-"; DDay; DLit "T"; DHour; DLit ":"; DMinute].

Definition charclass : Type := ascii -> bool.

Definition digit : charclass :=
  fun c => (48 <=? PyStr.code c) && (PyStr.code c <=? 57).

Definition range (lo hi : ascii) : charclass :=
  fun c => (PyStr.code lo <=? PyStr.code c) && (PyStr.code c <=? PyStr.code hi).

Definition chr (a : ascii) : charclass := fun c => Ascii.eqb a c.

(** A literal of the format under [re.IGNORECASE]. *)
Definition is_ci (a : ascii) : charclass :=
  fun c => Ascii.eqb (PyStr.lower_char a) (PyStr.lower_char c).

(** The alternatives of the regular expression of a directive, in the
    order in which the regex engine tries them. *)
Definition alternatives (d : directive) : list (list charclass) :=
  match d with
  | DYear => [[digit; digit; digit; digit]]
  | DMonth => [[chr "1"; range "0" "2"]; [chr "0"; range "1" "9"]; [range "1" "9"]]
  | DDay => [[chr "3"; range "0" "1"]; [range "1" "2"; digit];
             [chr "0"; range "1" "9"]; [range "1" "9"]; [chr " "; range "1" "9"]]
  | DHour => [[chr "2"; range "0" "3"]; [range "0" "1"; digit]; [digit]]
  | DMinute => [[range "0" "5"; digit]; [digit]]
  | DSecond => [[chr "6"; range "0" "1"]; [range "0" "5"; digit]; [digit]]
  | DLit c => [[is_ci c]]
  | DSpace => []
  end.

(** Match a sequence of character classes at the head of [s]; the result
    is the matched text and the rest. *)
Fixpoint match_classes (cs : list charclass) (s : string) : option (string * string) :=
  match cs, s with
  | [], _ => Some (EmptyString, s)
  | p :: cs', String c r =>
      if p c then
        match match_classes cs' r with
        | Some (m, rest) => Some (String c m, rest)
        | None => None
        end
      else None
  | _ :: _, EmptyString => None
  end.

(** [int(text)] for a matched group: decimal digits, a leading blank of
    the day pattern is skipped. *)
Fixpoint int_of_acc (acc : Z) (s : string) : Z :=
  match s with
  | EmptyString => acc
  | String c r =>
      if digit c then int_of_acc (10 * acc + (PyStr.code c - 48)) r
      else int_of_acc acc r
  end.

Definition int_of (s : string) : Z := int_of_acc 0 s.

(** The ways [\s+] can match at the head of [s], longest first. *)
Fixpoint space_candidates (s : string) : list string :=
  match s with
  | String c r => if PyStr.isspace c then space_candidates r ++ [r] else []
  | EmptyString => []
  end.

(** The results of [f] on the elements of a list on which it has one. *)
Fixpoint filter_map {A B : Type} (f : A -> option B) (l : list A) : list B :=
match l with
| [] => []
| x :: l' =>
    match f x with
    | Some y => y :: filter_map f l'
    | None => filter_map f l'
    end
end.

(** All ways a directive can match at the head of [s], in the order of the
    regex engine: the value of the group and the text that remains. *)
Definition candidates (d : directive) (s : string) : list (Z * string) :=
  match d with
  | DSpace => map (fun r => (0, r)) (space_candidates s)
  | _ =>
      filter_map (fun cs => match match_classes cs s with
                      | Some (m, rest) => Some (int_of m, rest)
                      | None => None
                      end) (alternatives d)
  end.

(** [found_dict] of [_strptime], with its defaults. *)
Definition DEFAULTS : datetime := mkDT 1900 1 1 0 0 0.

Definition set_field (d : directive) (v : Z) (t : datetime) : datetime :=
  match d with
  | DYear => mkDT v (month t) (day t) (hour t) (minute t) (second t)
  | DMonth => mkDT (year t) v (day t) (hour t) (minute t) (second t)
  | DDay => mkDT (year t) (month t) v (hour t) (minute t) (second t)
  | DHour => mkDT (year t) (month t) (day t) v (minute t) (second t)
  | DMinute => mkDT (year t) (month t) (day t) (hour t) v (second t)
  | DSecond => mkDT (year t) (month t) (day t) (hour t) (minute t) v
  | DLit _ | DSpace => t
  end.

Definition first_some {A B : Type} (f : A -> option B) : list A -> option B :=
  fix go (l : list A) : option B :=
    match l with
    | [] => None
    | x :: l' => match f x with Some y => Some y | None => go l' end
    end.

(** [format_regex.match(data_string)]: the first match of the whole
    pattern at the head of the text, by backtracking over the candidates
    of each directive; the result is the fields and the unconverted rest. *)
Fixpoint re_match (fmt : list directive) (s : string) (t : datetime)
  : option (datetime * string) :=
  match fmt with
  | [] => Some (t, s)
  | d :: fmt' =>
      first_some (fun '(v, rest) => re_match fmt' rest (set_field d v t))
                 (candidates d s)
  end.

Definition is_leap (y : Z) : bool :=
  ((y mod 4 =? 0) && negb (y mod 100 =? 0)) || (y mod 400 =? 0).

Definition days_in_month (y m : Z) : Z :=
  if m =? 2 then (if is_leap y then 29 else 28)
  else if (m =? 4) || (m =? 6) || (m =? 9) || (m =? 11) then 30
  else 31.

(** The range checks of the [datetime] constructor. *)
Definition valid (t : datetime) : bool :=
  (1 <=? year t) && (year t <=? 9999)
  && (1 <=? month t) && (month t <=? 12)
  && (1 <=? day t) && (day t <=? days_in_month (year t) (month t))
  && (0 <=? hour t) && (hour t <=? 23)
  && (0 <=? minute t) && (minute t <=? 59)
  && (0 <=? second t) && (second t <=? 59).

(** [datetime.strptime(value, fmt)]; [None] stands for [ValueError]. *)
Definition strptime (value : string) (fmt : list directive) : option datetime :=
  match re_match fmt value DEFAULTS with
  | Some (t, EmptyString) => if valid t then Some t else None
  | _ => None
  end.

(** [a < b] on naive datetimes. *)
Definition ltb (a b : datetime) : bool :=
  match year a ?= year b with
  | Lt => true | Gt => false
  | Eq =>
    match month a ?= month b with
    | Lt => true | Gt => false
    | Eq =>
      match day a ?= day b with
      | Lt => true | Gt => false
      | Eq =>
        match hour a ?= hour b with
        | Lt => true | Gt => false
        | Eq =>
          match minute a ?= minute b with
          | Lt => true | Gt => false
          | Eq => second a <? second b
          end
        end
      end
    end
  end.

(** [a > b] *)
Definition gtb (a b : datetime) : bool := ltb b a.

Definition digit_char (n : Z) : ascii := ascii_of_N (Z.to_N (48 + n mod 10)).

Definition pad2 (n : Z) : string :=
  String (digit_char (n / 10)) (String (digit_char n) EmptyString).

Definition pad4 (n : Z) : string :=
  String (digit_char (n / 1000)) (String (digit_char (n / 100)) (pad2 n)).

(** [%Y] as [strftime] prints it on the platform of the portal: the year
    in decimal, without padding, so a year below 1000 has fewer than four
    digits. *)
Definition year_text (y : Z) : string :=
  DecimalString.NilZero.string_of_int (Z.to_int y).

(** [t.strftime("%Y-%m-%d %H:%M")] *)
Definition strftime_minutes (t : datetime) : string :=
  year_text (year t) +:+ "-" +:+ pad2 (month t) +:+ "-" +:+ pad2 (day t) +:+ " "
  +:+ pad2 (hour t) +:+ ":" +:+ pad2 (minute t).

(** [t.strftime("%Y-%m-%d %H:%M:%S")] *)
Definition strftime_seconds (t : datetime) : string :=
  strftime_minutes t +:+ ":" +:+ pad2 (second t).

End DateTime.

(** ** Library functions the program calls *)

(** werkzeug's [secure_filename], [generate_password_hash] (whose fresh salt
    is made an argument) and [check_password_hash]; and the integer, if any,
    that a text parameter denotes when SQLite compares it with, or stores it
    in, a column of INTEGER affinity. *)
Class Library : Type := {
  secure_filename : string -> string;
  generate_password_hash : string -> string -> string;
  check_password_hash : string -> string -> bool;
  sql_integer : string -> option Z
}.

(** ** The relational store *)

Record user : Type := mkUser {
  user_id : Z;
  user_name : string;
  user_email : string;
  user_password : string;
  user_role : string
}.

Record assignment : Type := mkAssignment {
  asg_id : Z;
  asg_title : string;
  asg_description : string;
  asg_deadline : string
}.

Record submission : Type := mkSubmission {
  sub_id : Z;
  sub_student_id : Z;
  sub_assignment_id : Z;
  sub_file_name : string;
  sub_submitted_at : string;
  sub_status : string;
  sub_faculty_comment : string;
  sub_reviewed_at : string;
  sub_reviewed_by : option Z
}.

Record login_log : Type := mkLoginLog {
  log_id : Z;
  log_user_id : Z;
  log_login_time : string
}.

(** A table is its rows in rowid order; the [seq_] fields are the
    [sqlite_sequence] entries of the AUTOINCREMENT keys (the largest rowid
    ever given out). *)
Record database : Type := mkDb {
  users : list user;
  seq_users : Z;
  assignments : list assignment;
  seq_assignments : Z;
  submissions : list submission;
  seq_submissions : Z;
  login_logs : list login_log;
  seq_login_logs : Z
}.

Definition empty_db : database := mkDb [] 0 [] 0 [] 0 [] 0.

Definition set_users (us : list user) (sq : Z) (d : database) : database :=
  mkDb us sq (assignments d) (seq_assignments d) (submissions d)
       (seq_submissions d) (login_logs d) (seq_login_logs d).

Definition set_assignments (l : list assignment) (sq : Z) (d : database) : database :=
  mkDb (users d) (seq_users d) l sq (submissions d) (seq_submissions d)
       (login_logs d) (seq_login_logs d).

Definition set_submissions (l : list submission) (sq : Z) (d : database) : database :=
  mkDb (users d) (seq_users d) (assignments d) (seq_assignments d) l sq
       (login_logs d) (seq_login_logs d).

Definition set_login_logs (l : list login_log) (sq : Z) (d : database) : database :=
  mkDb (users d) (seq_users d) (assignments d) (seq_assignments d)
       (submissions d) (seq_submissions d) l sq.

(** [cursor.fetchone()] of a [SELECT ... WHERE p]: the first row, in rowid
    order, that satisfies the condition. *)
Definition fetchone {A : Type} (p : A -> bool) (rows : list A) : option A :=
  List.find p rows.

(** [DELETE FROM submissions WHERE id = ?] *)
Definition delete_submission_row (i : Z) (d : database) : database :=
  set_submissions (List.filter (fun r => negb (sub_id r =? i)) (submissions d))
                  (seq_submissions d) d.

(** [INSERT INTO submissions (student_id, assignment_id, file_name,
    submitted_at)]: the other columns take their defaults. *)
Definition insert_submission (student aid : Z) (file_name submitted_at : string)
    (d : database) : database :=
  let i := seq_submissions d + 1 in
  set_submissions
    (submissions d ++
       [mkSubmission i student aid file_name submitted_at "Pending" "" "" None])
    i d.

(** [UPDATE submissions SET status, faculty_comment, reviewed_at,
    reviewed_by WHERE ...] *)
Definition update_review (cond : submission -> bool)
    (status comment reviewed_at : string) (reviewer : Z) (d : database) : database :=
  set_submissions
    (map (fun r =>
            if cond r then
              mkSubmission (sub_id r) (sub_student_id r) (sub_assignment_id r)
                (sub_file_name r) (sub_submitted_at r)
                status comment reviewed_at (Some reviewer)
            else r)
         (submissions d))
    (seq_submissions d) d.

(** [INSERT INTO assignments (title, description, deadline)]; [None] is
    the [sqlite3.IntegrityError] of the UNIQUE constraint on the title. *)
Definition insert_assignment (title description deadline : string)
    (d : database) : option database :=
  if existsb (fun a => String.eqb (asg_title a) title) (assignments d) then None
  else
    let i := seq_assignments d + 1 in
    Some (set_assignments (assignments d ++ [mkAssignment i title description deadline])
                          i d).

(** [INSERT INTO users (name, email, password, role)]; [None] is the
    [sqlite3.IntegrityError] of the UNIQUE constraint on the email. *)
Definition insert_user (name email password role : string)
    (d : database) : option database :=
  if existsb (fun u => String.eqb (user_email u) email) (users d) then None
  else
    let i := seq_users d + 1 in
    Some (set_users (users d ++ [mkUser i name email password role]) i d).

(** [INSERT OR IGNORE]: a row that conflicts is skipped.  The skipped row
    has used up a rowid all the same: the counter of the table advances
    ([skipped]). *)
Definition or_ignore (ins : database -> option database)
    (skipped : database -> database) (d : database) : database :=
  match ins d with
  | Some d' => d'
  | None => skipped d
  end.

Definition skip_user (d : database) : database :=
  set_users (users d) (seq_users d + 1) d.

Definition skip_assignment (d : database) : database :=
  set_assignments (assignments d) (seq_assignments d + 1) d.

(** [UPDATE users SET password = ? WHERE id = ?] *)
Definition update_password (i : Z) (password : string) (d : database) : database :=
  set_users
    (map (fun u =>
            if user_id u =? i then
              mkUser (user_id u) (user_name u) (user_email u) password (user_role u)
            else u)
         (users d))
    (seq_users d) d.

(** [INSERT INTO login_logs (user_id, login_time)] *)
Definition insert_login_log (uid : Z) (login_time : string) (d : database) : database :=
  let i := seq_login_logs d + 1 in
  set_login_logs (login_logs d ++ [mkLoginLog i uid login_time]) i d.

(** [ORDER BY key ASC] on a TEXT column (binary collation), as a stable
    insertion sort. *)
Section OrderBy.
Context {A : Type} (key : A -> string).

Fixpoint insert_asc (x : A) (l : list A) : list A :=
  match l with
  | [] => [x]
  | y :: l' =>
      if String.leb (key y) (key x) then y :: insert_asc x l' else x :: l
  end.

Definition order_by_asc (rows : list A) : list A :=
  fold_left (fun acc x => insert_asc x acc) rows [].

Fixpoint insert_desc (x : A) (l : list A) : list A :=
  match l with
  | [] => [x]
  | y :: l' =>
      if String.leb (key x) (key y) then y :: insert_desc x l' else x :: l
  end.

Definition order_by_desc (rows : list A) : list A :=
  fold_left (fun acc x => insert_desc x acc) rows [].
End OrderBy.

(** ** The upload directory *)

Definition bytes : Type := list Byte.byte.

(** The files under [UPLOAD_DIR], by name. *)
Abbreviation uploads := (gmap string bytes).

(** [os.remove(os.path.join(UPLOAD_DIR, name))]; [None] is
    [FileNotFoundError]. *)
Definition os_remove (name : string) (fs : uploads) : option uploads :=
  match fs !! name with
  | Some _ => Some (delete name fs)
  | None => None
  end.

(** [try: os.remove(...) except FileNotFoundError: pass] *)
Definition remove_if_present (name : string) (fs : uploads) : uploads :=
  match os_remove name fs with
  | Some fs' => fs'
  | None => fs
  end.

Record state : Type := mkState {
  db : database;
  files : uploads
}.

(** ** Requests, sessions and responses *)

Record file_storage : Type := mkFile {
  filename : string;
  stream : bytes
}.

Inductive http_method : Type := GET | POST.

(** [request.method], [request.form], [request.files] and
    [request.content_length], the length of the body in bytes. *)
Record request : Type := mkRequest {
  method : http_method;
  form : gmap string string;
  upload : gmap string file_storage;
  content_length : Z
}.



(** The integers that [sqlite3] binds to a statement are the signed 64-bit
    ones; a larger Python [int] raises [OverflowError] at the bind. *)
Definition sqlite_int (n : Z) : Prop := - 2 ^ 63 <= n < 2 ^ 63.

(** [request.form.get(key, "")] *)
Definition form_get (key : string) (req : request) : string :=
  default "" (form req !! key).

(** [request.form.get(key, "").strip()] *)
Definition field (key : string) (req : request) : string :=
  PyStr.strip (form_get key req).

(** The keys [user_id], [name] and [role] of the session, set together at
    login and cleared together at logout. *)
Record session_data : Type := mkSession {
  s_user_id : Z;
  s_name : string;
  s_role : string
}.

Definition session : Type := option session_data.

(** What a request reads from outside the store: the clock, the token of
    [uuid4().hex] and the salt of a new password hash. *)
Record env : Type := mkEnv {
  clock : DateTime.datetime;
  uuid_hex : string;
  salt : string
}.

(** [now_text()] *)
Definition now_text (e : env) : string := DateTime.strftime_seconds (clock e).

Inductive endpoint : Type :=
| ep_login | ep_register | ep_dashboard | ep_student_dashboard | ep_faculty_dashboard.

(** A row of [submissions_view] of the student dashboard. *)
Record view_row : Type := mkViewRow {
  v_id : Z;
  v_file_name : string;
  v_submitted_at : string;
  v_status : string;
  v_faculty_comment : string;
  v_reviewed_at : string;
  v_title : string;
  v_deadline : string;
  v_late : bool
}.

Inductive page : Type :=
| page_form (name : string)
| page_student (assignments : list assignment) (submissions_view : list view_row)
| page_faculty (submissions : list (submission * user * assignment))
               (logs : list (login_log * user))
               (assignments : list assignment).

(** A response: a redirect after at most one [flash(message, category)], a
    rendered page, or the outcome of [send_from_directory]. *)
Inductive response : Type :=
| Redirect (flashed : option (string * string)) (target : endpoint)
| Render (p : page)
| SendFile (name : string) (content : bytes)
| Abort404.

Definition flash_redirect (message category : string) (target : endpoint) : response :=
  Redirect (Some (message, category)) target.

(** The error taxonomy of the specification, and the class of each error
    message the handlers flash. *)
Inductive error_kind : Type :=
| ValidationError | ConflictError | NotFoundError | AuthError | AuthorizationError.

Definition ERROR_CLASSES : list (string * error_kind) :=
  [ ("All fields are required.", ValidationError);
    ("Email already exists.", ConflictError);
    ("Invalid credentials or wrong role selected.", AuthError);
    ("Access denied for your role.", AuthorizationError);
    ("Please select an assignment.", ValidationError);
    ("Please choose a PDF file.", ValidationError);
    ("Only PDF files are allowed.", ValidationError);
    ("Invalid file content. Please upload a valid PDF.", ValidationError);
    ("Assignment not found.", NotFoundError);
    ("Submission not found.", NotFoundError);
    ("You can delete only pending submissions.", AuthorizationError);
    ("Invalid action.", ValidationError);
    ("All assignment fields are required.", ValidationError);
    ("Deadline format is invalid.", ValidationError);
    ("Assignment title already exists.", ConflictError);
    ("File not found.", NotFoundError);
    ("You are not allowed to access this file.", AuthorizationError) ].

Definition error_of (r : response) : option error_kind :=
  match r with
  | Redirect (Some (message, category)) _ =>
      if String.eqb category "error" then
        option_map snd (List.find (fun p => String.eqb (fst p) message) ERROR_CLASSES)
      else None
  | _ => None
  end.

(** A request that went through: no error was flashed. *)
Definition succeeded (r : response) : bool :=
  match r with
  | Redirect (Some (_, category)) _ => negb (String.eqb category "error")
  | Redirect None _ => true
  | Render _ => true
  | SendFile _ _ => true
  | Abort404 => false
  end.

(** [login_required(role)]: the wrapped view runs only with a session, and
    with a session of the given role when one is given. *)
Definition login_required {A : Type} (role : option string) (sess : session)
    (deny : response -> A) (view : session_data -> A) : A :=
  match sess with
  | None => deny (Redirect None ep_login)
  | Some sd =>
      match role with
      | Some r =>
          if PyStr.truthy r && negb (String.eqb (s_role sd) r)
          then deny (flash_redirect "Access denied for your role." "error" ep_dashboard)
          else view sd
      | None => view sd
      end
  end.

(** ** The helpers of [app.py] *)

Definition ALLOWED_EXTENSIONS : list string := ["pdf"].

(** ["." in filename and filename.rsplit(".", 1)[1].lower() in
    ALLOWED_EXTENSIONS] *)
Definition allowed_file (filename : string) : bool :=
  PyStr.contains "." filename &&
  match PyStr.rsplit1 "." filename with
  | Some (_, ext) => existsb (String.eqb (PyStr.lower ext)) ALLOWED_EXTENSIONS
  | None => false
  end.

(** [b"%PDF"] *)
Definition PDF_MAGIC : bytes := [Byte.x25; Byte.x50; Byte.x44; Byte.x46].

Fixpoint bytes_eqb (a b : bytes) : bool :=
  match a, b with
  | [], [] => true
  | x :: a', y :: b' => Byte.eqb x y && bytes_eqb a' b'
  | _, _ => false
  end.

(** [head = stream.read(4); stream.seek(0); return head == b"%PDF"] *)
Definition is_pdf_content (f : file_storage) : bool :=
  let head := firstn 4 (stream f) in
  bytes_eqb head PDF_MAGIC.

(** [parse_dt]: the first of the two formats that parses. *)
Definition parse_dt (value : string) : option DateTime.datetime :=
  DateTime.first_some (DateTime.strptime value)
    [DateTime.FMT_SECONDS; DateTime.FMT_MINUTES].

(** [bool(dead and sub and sub > dead)] *)
Definition late_flag (deadline submitted_at : string) : bool :=
  match parse_dt deadline, parse_dt submitted_at with
  | Some dead, Some sub => DateTime.gtb sub dead
  | _, _ => false
  end.

(** [str(n)] for an integer. *)
Definition str_of_int (n : Z) : string :=
  DecimalString.NilZero.string_of_int (Z.to_int n).

Section Handlers.
Context {L : Library}.

Definition hash_password (salt password : string) : string :=
  generate_password_hash salt password.

(** [verify_password]: the verdict, and whether the stored credential is
    to be upgraded. *)
Definition verify_password (raw_password stored_password : string) : bool * bool :=
  if PyStr.startswith "pbkdf2:" stored_password
     || PyStr.startswith "scrypt:" stored_password
  then (check_password_hash stored_password raw_password, false)
  else (String.eqb raw_password stored_password, true).

(** An INTEGER column compared with a bound text parameter. *)
Definition int_eq_text (column : Z) (param : string) : bool :=
  match sql_integer param with
  | Some n => column =? n
  | None => false
  end.

(** *** /register *)
Definition register (e : env) (req : request) (st : state) : response * state :=
  match method req with
  | POST =>
      let name := field "name" req in
      let email := PyStr.lower (field "email" req) in
      let password := field "password" req in
      if negb (PyStr.truthy name) || negb (PyStr.truthy email)
         || negb (PyStr.truthy password)
      then (flash_redirect "All fields are required." "error" ep_register, st)
      else
        match insert_user name email (hash_password (salt e) password) "student" (db st) with
        | Some d =>
            (flash_redirect "Student account created. Login now." "success" ep_login,
             mkState d (files st))
        | None => (flash_redirect "Email already exists." "error" ep_register, st)
        end
  | GET => (Render (page_form "register"), st)
  end.

(** *** /login *)
Definition login (e : env) (sess : session) (req : request) (st : state)
  : response * session * state :=
  match method req with
  | POST =>
      let email := PyStr.lower (field "email" req) in
      let password := field "password" req in
      let role := field "role" req in
      match fetchone (fun u => String.eqb (user_email u) email
                               && String.eqb (user_role u) role)
                     (users (db st)) with
      | None =>
          (flash_redirect "Invalid credentials or wrong role selected." "error" ep_login,
           sess, st)
      | Some u =>
          let '(valid, should_upgrade) := verify_password password (user_password u) in
          if negb valid then
            (flash_redirect "Invalid credentials or wrong role selected." "error" ep_login,
             sess, st)
          else
            let d1 :=
              if should_upgrade
              then update_password (user_id u) (hash_password (salt e) password) (db st)
              else db st in
            let d2 := insert_login_log (user_id u) (now_text e) d1 in
            (flash_redirect ("Welcome, " +:+ user_name u +:+ "!") "success" ep_dashboard,
             Some (mkSession (user_id u) (user_name u) (user_role u)),
             mkState d2 (files st))
      end
  | GET => (Render (page_form "login"), sess, st)
  end.

(** *** /logout *)
Definition logout (sess : session) : response * session :=
  (flash_redirect "Logged out successfully." "success" ep_login, None).

(** *** /student, POST: the upload of a submission *)

(** The replacement of a Pending submission of the same student and
    assignment: its file is removed if present, then its row deleted. *)
Definition replace_pending (student_id : Z) (assignment_id : string) (st : state)
  : state :=
  match fetchone (fun r => (sub_student_id r =? student_id)
                           && int_eq_text (sub_assignment_id r) assignment_id
                           && String.eqb (sub_status r) "Pending")
                 (submissions (db st)) with
  | Some old =>
      mkState (delete_submission_row (sub_id old) (db st))
              (remove_if_present (sub_file_name old) (files st))
  | None => st
  end.

(** [f"{student_id}_{assignment_id}_{uuid4().hex}_{safe_name}"] *)
Definition final_name (e : env) (student_id : Z) (assignment_id : string)
    (f : file_storage) : string :=
  str_of_int student_id +:+ "_" +:+ assignment_id +:+ "_" +:+ uuid_hex e
  +:+ "_" +:+ secure_filename (filename f).

(** [file.save(save_path)] and the INSERT of the new row; [aid] is the
    integer that the column takes from the text [assignment_id]. *)
Definition store_new (e : env) (student_id aid : Z) (assignment_id : string)
    (f : file_storage) (st : state) : state :=
  let name := final_name e student_id assignment_id f in
  mkState (insert_submission student_id aid name (now_text e) (db st))
          (<[name := stream f]> (files st)).

(** The text [assignment_id] is bound to INTEGER columns three times: in
    the lookup of the assignment, in the query for the Pending row and in
    the INSERT, which stores the integer it denotes, the id of the
    assignment just found.  This is the view on a request whose body is
    read: above [MAX_CONTENT_LENGTH] the first read of [request.form]
    raises, and none of it runs. *)
Definition student_post (e : env) (student_id : Z) (req : request) (st : state)
  : response * state :=
  let assignment_id := field "assignment_id" req in
  let file := upload req !! "pdf_file" in
  if negb (PyStr.truthy assignment_id) then
    (flash_redirect "Please select an assignment." "error" ep_student_dashboard, st)
  else
    match file with
    | None => (flash_redirect "Please choose a PDF file." "error" ep_student_dashboard, st)
    | Some f =>
        if String.eqb (filename f) "" then
          (flash_redirect "Please choose a PDF file." "error" ep_student_dashboard, st)
        else if negb (allowed_file (filename f)) then
          (flash_redirect "Only PDF files are allowed." "error" ep_student_dashboard, st)
        else if negb (is_pdf_content f) then
          (flash_redirect "Invalid file content. Please upload a valid PDF." "error"
                          ep_student_dashboard, st)
        else
          match fetchone (fun a => int_eq_text (asg_id a) assignment_id)
                         (assignments (db st)) with
          | None =>
              (flash_redirect "Assignment not found." "error" ep_student_dashboard, st)
          | Some a =>
              let aid := asg_id a in
              let st1 := replace_pending student_id assignment_id st in
              let st2 := store_new e student_id aid assignment_id f st1 in
              (flash_redirect "Assignment submitted successfully." "success"
                              ep_student_dashboard, st2)
          end
    end.

(** *** /student, GET: the dashboard *)

(** [SELECT id, title, description, deadline FROM assignments ORDER BY
    deadline ASC] *)
Definition list_assignments (d : database) : list assignment :=
  order_by_asc asg_deadline (assignments d).

(** The join of the student's submissions with their assignments,
    [ORDER BY s.submitted_at DESC]. *)
Definition student_rows (student_id : Z) (d : database)
  : list (submission * assignment) :=
  order_by_desc (fun p => sub_submitted_at (fst p))
    (flat_map (fun s =>
                 if sub_student_id s =? student_id then
                   map (fun a => (s, a))
                       (List.filter (fun a => asg_id a =? sub_assignment_id s)
                                    (assignments d))
                 else [])
              (submissions d)).

(** [row = dict(s); row["late"] = ...] *)
Definition view_of (p : submission * assignment) : view_row :=
  let '(s, a) := p in
  mkViewRow (sub_id s) (sub_file_name s) (sub_submitted_at s) (sub_status s)
            (sub_faculty_comment s) (sub_reviewed_at s) (asg_title a)
            (asg_deadline a)
            (late_flag (asg_deadline a) (sub_submitted_at s)).

Definition submissions_view (student_id : Z) (d : database) : list view_row :=
  map view_of (student_rows student_id d).

Definition student_dashboard (e : env) (sess : session) (req : request) (st : state)
  : response * state :=
  login_required (Some "student") sess (fun r => (r, st))
    (fun sd =>
       let student_id := s_user_id sd in
       match method req with
       | POST => student_post e student_id req st
       | GET =>
           (Render (page_student (list_assignments (db st))
                                 (submissions_view student_id (db st))), st)
       end).

(** *** /delete-submission/<int:submission_id> *)

(** The view for an id that SQLite binds ([sqlite_int]); the route passes
    larger integers too, and for those the bind of the SELECT raises. *)
Definition delete_submission (sess : session) (submission_id : Z) (st : state)
  : response * state :=
  login_required (Some "student") sess (fun r => (r, st))
    (fun sd =>
       match fetchone (fun r => (sub_id r =? submission_id)
                                && (sub_student_id r =? s_user_id sd))
                      (submissions (db st)) with
       | None =>
           (flash_redirect "Submission not found." "error" ep_student_dashboard, st)
       | Some row =>
           if negb (String.eqb (sub_status row) "Pending") then
             (flash_redirect "You can delete only pending submissions." "error"
                             ep_student_dashboard, st)
           else
             (flash_redirect "Submission deleted." "success" ep_student_dashboard,
              mkState (delete_submission_row submission_id (db st))
                      (remove_if_present (sub_file_name row) (files st)))
       end).

(** *** /faculty, POST with [form_type = "review"] *)
Definition faculty_review (e : env) (faculty_id : Z) (req : request) (st : state)
  : response * state :=
  let submission_id := field "submission_id" req in
  let action := field "action" req in
  let comment := field "comment" req in
  if negb (existsb (String.eqb action) ["Approved"; "Rejected"]) then
    (flash_redirect "Invalid action." "error" ep_faculty_dashboard, st)
  else
    match fetchone (fun r => int_eq_text (sub_id r) submission_id)
                   (submissions (db st)) with
    | None => (flash_redirect "Submission not found." "error" ep_faculty_dashboard, st)
    | Some row =>
        (flash_redirect ("Submission " +:+ PyStr.lower action +:+ " successfully.")
                        "success" ep_faculty_dashboard,
         mkState (update_review (fun r => int_eq_text (sub_id r) submission_id)
                                action comment (now_text e) faculty_id (db st))
                 (files st))
    end.

(** *** /faculty, POST with [form_type = "assignment"] *)
Definition faculty_create (req : request) (st : state) : response * state :=
  let title := field "title" req in
  let description := field "description" req in
  let deadline := field "deadline" req in
  if negb (PyStr.truthy title) || negb (PyStr.truthy description)
     || negb (PyStr.truthy deadline)
  then (flash_redirect "All assignment fields are required." "error"
                       ep_faculty_dashboard, st)
  else
    match DateTime.strptime deadline DateTime.FMT_LOCAL with
    | None =>
        (flash_redirect "Deadline format is invalid." "error" ep_faculty_dashboard, st)
    | Some t =>
        let normalized_deadline := DateTime.strftime_minutes t in
        match insert_assignment title description normalized_deadline (db st) with
        | Some d =>
            (flash_redirect "Assignment created successfully." "success"
                            ep_faculty_dashboard,
             mkState d (files st))
        | None =>
            (flash_redirect "Assignment title already exists." "error"
                            ep_faculty_dashboard, st)
        end
    end.

(** *** /faculty, GET: the dashboard *)
Definition faculty_rows (d : database) : list (submission * user * assignment) :=
  order_by_desc (fun p => sub_submitted_at (fst (fst p)))
    (flat_map (fun s =>
       flat_map (fun u =>
         map (fun a => (s, u, a))
             (List.filter (fun a => asg_id a =? sub_assignment_id s) (assignments d)))
         (List.filter (fun u => user_id u =? sub_student_id s) (users d)))
       (submissions d)).

Definition recent_logs (d : database) : list (login_log * user) :=
  firstn 50
    (order_by_desc (fun p => log_login_time (fst p))
       (flat_map (fun l =>
          map (fun u => (l, u))
              (List.filter (fun u => user_id u =? log_user_id l) (users d)))
          (login_logs d))).

Definition faculty_page (d : database) : response :=
  Render (page_faculty (faculty_rows d) (recent_logs d) (list_assignments d)).

Definition faculty_dashboard (e : env) (sess : session) (req : request) (st : state)
  : response * state :=
  login_required (Some "faculty") sess (fun r => (r, st))
    (fun sd =>
       match method req with
       | POST =>
           let form_type := field "form_type" req in
           if String.eqb form_type "review" then
             faculty_review e (s_user_id sd) req st
           else if String.eqb form_type "assignment" then
             faculty_create req st
           else (faculty_page (db st), st)
       | GET => (faculty_page (db st), st)
       end).

(** *** /uploads/<path:filename> *)

(** [send_from_directory(UPLOAD_DIR, filename)] *)
Definition send_from_directory (fs : uploads) (filename : string) : response :=
  match fs !! filename with
  | Some content => SendFile filename content
  | None => Abort404
  end.

Definition download_file (sess : session) (filename : string) (st : state) : response :=
  login_required None sess (fun r => r)
    (fun sd =>
       match fetchone (fun r => String.eqb (sub_file_name r) filename)
                      (submissions (db st)) with
       | None => flash_redirect "File not found." "error" ep_dashboard
       | Some submission =>
           if String.eqb (s_role sd) "student"
              && negb (sub_student_id submission =? s_user_id sd)
           then flash_redirect "You are not allowed to access this file." "error"
                               ep_student_dashboard
           else send_from_directory (files st) filename
       end).



(** *** [init_db]: the seed rows, each inserted unless it conflicts *)
Definition SEED_USERS : list (string * string * string * string) :=
  [ ("Dr. Priya Faculty", "faculty@college.edu", "faculty123", "faculty");
    ("Arun Student", "arun@student.edu", "student123", "student");
    ("Meena Student", "meena@student.edu", "student123", "student");
    ("Rahul Student", "rahul@student.edu", "student123", "student") ].

Definition SEED_ASSIGNMENTS : list (string * string * string) :=
  [ ("Data Structures - Week 1",
     "Implement stack and queue operations with test cases.",
     "2026-03-05 23:59");
    ("Database Systems - Mini Project",
     "Design schema and SQL queries for library management.",
     "2026-03-10 23:59");
    ("Operating Systems - Report",
     "Write report on process scheduling algorithms.",
     "2026-03-14 23:59") ].

Definition seed_data (salt : string) (d : database) : database :=
  let d1 :=
    fold_left (fun acc '(name, email, password, role) =>
                 or_ignore (insert_user name email (hash_password salt password) role) skip_user acc)
              SEED_USERS d in
  fold_left (fun acc '(title, description, deadline) =>
               or_ignore (insert_assignment title description deadline) skip_assignment acc)
            SEED_ASSIGNMENTS d1.

Definition init_db (salt : string) (st : state) : state :=
  mkState (seed_data salt (db st)) (files st).

(** The store of a first start: empty tables, then the seed rows. *)
Definition initial_state (salt : string) : state :=
  init_db salt (mkState empty_db ∅).

(** *** The portal as a transition system *)
Inductive call : Type :=
| c_register (req : request)
| c_login (req : request)
| c_logout
| c_student (req : request)
| c_delete (submission_id : Z)
| c_faculty (req : request)
| c_download (filename : string).

(** One request made with the session [sess]. *)
Definition handle (e : env) (sess : session) (c : call) (st : state)
  : response * session * state :=
  match c with
  | c_register req => let '(r, st') := register e req st in (r, sess, st')
  | c_login req => login e sess req st
  | c_logout => let '(r, sess') := logout sess in (r, sess', st)
  | c_student req => let '(r, st') := student_dashboard e sess req st in (r, sess, st')
  | c_delete i => let '(r, st') := delete_submission sess i st in (r, sess, st')
  | c_faculty req => let '(r, st') := faculty_dashboard e sess req st in (r, sess, st')
  | c_download name => (download_file sess name st, sess, st)
  end.

(** The states the portal can be in: the initial one, and those that
    requests under any sessions and restarts (which run [init_db] again)
    lead to. *)
Inductive reachable : state -> Prop :=
| reach_init (salt : string) : reachable (initial_state salt)
| reach_step (e : env) (sess : session) (c : call) (st : state) :
    reachable st -> reachable (snd (handle e sess c st))
| reach_restart (salt : string) (st : state) :
    reachable st -> reachable (init_db salt st).

End Handlers.

(** ** Instants

    What "before" and "after" mean for two datetimes: the day number of a
    date in the proleptic Gregorian calendar, counted as [datetime] does
    ([_days_before_year], [_days_before_month], [toordinal]), and from it
    the seconds from the start of year 1. *)

Definition days_in_year (y : Z) : Z := if DateTime.is_leap y then 366 else 365.

Definition days_before_year (y : Z) : Z :=
  let n := y - 1 in n * 365 + n / 4 - n / 100 + n / 400.

Fixpoint days_in_months (y : Z) (n : nat) : Z :=
  match n with
  | O => 0
  | S k => days_in_months y k + DateTime.days_in_month y (Z.of_nat n)
  end.

Definition days_before_month (y m : Z) : Z := days_in_months y (Z.to_nat (m - 1)).

Definition toordinal (t : DateTime.datetime) : Z :=
  days_before_year (DateTime.year t)
  + days_before_month (DateTime.year t) (DateTime.month t) + DateTime.day t.

Definition timestamp (t : DateTime.datetime) : Z :=
  ((toordinal t * 24 + DateTime.hour t) * 60 + DateTime.minute t) * 60
  + DateTime.second t.

(** The text [YYYY-MM-DD HH:MM] of a time, with the year in four digits,
    and the same with the seconds; this is what [strftime] prints for a
    year from 1000 on. *)
Definition text_minutes (t : DateTime.datetime) : string :=
  DateTime.pad4 (DateTime.year t) +:+ "-" +:+ DateTime.pad2 (DateTime.month t)
  +:+ "-" +:+ DateTime.pad2 (DateTime.day t) +:+ " "
  +:+ DateTime.pad2 (DateTime.hour t) +:+ ":" +:+ DateTime.pad2 (DateTime.minute t).

Definition text_seconds (t : DateTime.datetime) : string :=
  text_minutes t +:+ ":" +:+ DateTime.pad2 (DateTime.second t).

(** Counting colons: a match of a format uses up one colon of the text for
    each colon of the format. *)
Fixpoint colons (s : string) : nat :=
  match s with
  | EmptyString => O
  | String c r => (if Ascii.eqb ":" c then 1 else 0) + colons r
  end.

Definition is_colon (d : DateTime.directive) : bool :=
  match d with
  | DateTime.DLit c => Ascii.eqb ":" c
  | _ => false
  end.

(** ** Notions the properties are stated with *)

(** The file name ends in an extension that reads [pdf] when lower-cased:
    it is [base.ext] where [ext] has no dot. *)
Definition has_pdf_extension (name : string) : Prop :=
  exists base ext : string,
    name = base +:+ String "." ext
    /\ PyStr.contains "." ext = false
    /\ PyStr.lower ext = "pdf".

(** The upload passes the four checks on the form of the request. *)
Definition well_formed_upload (req : request) (f : file_storage) : Prop :=
  field "assignment_id" req <> ""
  /\ upload req !! "pdf_file" = Some f
  /\ filename f <> ""
  /\ has_pdf_extension (filename f)
  /\ firstn 4 (stream f) = PDF_MAGIC.

(** The submission is a Pending one of student [stu] for assignment [asg]. *)
Definition is_pending_for (stu asg : Z) (r : submission) : bool :=
  (sub_student_id r =? stu) && (sub_assignment_id r =? asg)
  && String.eqb (sub_status r) "Pending".


Definition pending_count (stu asg : Z) (d : database) : nat :=
  length (List.filter (is_pending_for stu asg) (submissions d)).


(** What the schema and the handlers maintain: the primary keys of the
    submissions are distinct and were given out by the AUTOINCREMENT
    counter, the emails of the users are distinct (UNIQUE), and no student
    has two Pending submissions for one assignment. *)
Record store_ok (d : database) : Prop := mkStoreOk {
  ok_sub_ids : List.NoDup (map sub_id (submissions d));
  ok_sub_seq : Forall (fun r => sub_id r <= seq_submissions d) (submissions d);
  ok_emails : List.NoDup (map user_email (users d));
  ok_pending : forall stu asg : Z, (pending_count stu asg d <= 1)%nat
}.








(** A deadline as the portal stores it: a valid time with no seconds,
    printed to the minute. *)
Definition canonical_deadline (s : string) : Prop :=
  exists t : DateTime.datetime,
    DateTime.valid t = true /\ DateTime.second t = 0
    /\ s = DateTime.strftime_minutes t.

Definition deadlines_canonical (d : database) : Prop :=
  Forall (fun a => canonical_deadline (asg_deadline a)) (assignments d).


Definition is_second (d : DateTime.directive) : bool :=
  match d with
  | DateTime.DSecond => true
  | _ => false
  end.

(** The response of an upload that went through. *)
Definition SUBMITTED : response :=
  flash_redirect "Assignment submitted successfully." "success" ep_student_dashboard.

Section Outcomes.
Context {L : Library}.

(** The six ways [student_post] can end, each with the condition under
    which it is taken. *)
Inductive upload_outcome (e : env) (student_id : Z) (req : request) (st : state)
  : response * state -> Prop :=
| uo_no_assignment :
    field "assignment_id" req = "" ->
    upload_outcome e student_id req st
      (flash_redirect "Please select an assignment." "error" ep_student_dashboard, st)
| uo_no_file :
    field "assignment_id" req <> "" ->
    (upload req !! "pdf_file" = None
     \/ exists f, upload req !! "pdf_file" = Some f /\ filename f = "") ->
    upload_outcome e student_id req st
      (flash_redirect "Please choose a PDF file." "error" ep_student_dashboard, st)
| uo_extension (f : file_storage) :
    field "assignment_id" req <> "" ->
    upload req !! "pdf_file" = Some f -> filename f <> "" ->
    ~ has_pdf_extension (filename f) ->
    upload_outcome e student_id req st
      (flash_redirect "Only PDF files are allowed." "error" ep_student_dashboard, st)
| uo_content (f : file_storage) :
    field "assignment_id" req <> "" ->
    upload req !! "pdf_file" = Some f -> filename f <> "" ->
    has_pdf_extension (filename f) ->
    firstn 4 (stream f) <> PDF_MAGIC ->
    upload_outcome e student_id req st
      (flash_redirect "Invalid file content. Please upload a valid PDF." "error"
                      ep_student_dashboard, st)
| uo_unknown_assignment (f : file_storage) :
    well_formed_upload req f ->
    fetchone (fun a => int_eq_text (asg_id a) (field "assignment_id" req))
             (assignments (db st)) = None ->
    upload_outcome e student_id req st
      (flash_redirect "Assignment not found." "error" ep_student_dashboard, st)
| uo_stored (f : file_storage) (a : assignment) :
    well_formed_upload req f ->
    fetchone (fun a => int_eq_text (asg_id a) (field "assignment_id" req))
             (assignments (db st)) = Some a ->
    upload_outcome e student_id req st
      (SUBMITTED,
       store_new e student_id (asg_id a) (field "assignment_id" req) f
         (replace_pending student_id (field "assignment_id" req) st)).

End Outcomes.

(** ** Further notions *)

(** The columns of an account that no request changes. *)
Definition account_identity (u : user) : Z * string * string * string :=
  (user_id u, user_name u, user_email u, user_role u).

(** The columns of a submission that are written once, at the upload. *)
Definition upload_columns (r : submission) : Z * Z * Z * string * string :=
  (sub_id r, sub_student_id r, sub_assignment_id r, sub_file_name r,
   sub_submitted_at r).

(** The review columns of a row agree with its status: a Pending row has
    the defaults of the schema, a reviewed one has a reviewer and a time. *)
Definition review_consistent (r : submission) : Prop :=
  (sub_status r = "Pending" /\ sub_faculty_comment r = ""
   /\ sub_reviewed_at r = "" /\ sub_reviewed_by r = None)
  \/ ((sub_status r = "Approved" \/ sub_status r = "Rejected")
      /\ sub_reviewed_at r <> ""
      /\ exists who : Z, sub_reviewed_by r = Some who).

Definition reviews_consistent (d : database) : Prop :=
  Forall review_consistent (submissions d).

(** The keys of the users, the assignments and the login logs are distinct
    and were given out by their counters, the titles are distinct (UNIQUE),
    every role is one of the two of the CHECK constraint, and the
    references of the submissions to their assignments and of the login
    logs to their users resolve. *)
Record store_refs (d : database) : Prop := mkStoreRefs {
  refs_user_ids : List.NoDup (map user_id (users d));
  refs_user_seq : Forall (fun u => user_id u <= seq_users d) (users d);
  refs_roles : Forall (fun u => user_role u = "student" \/ user_role u = "faculty")
                      (users d);
  refs_asg_ids : List.NoDup (map asg_id (assignments d));
  refs_asg_seq : Forall (fun a => asg_id a <= seq_assignments d) (assignments d);
  refs_titles : List.NoDup (map asg_title (assignments d));
  refs_sub_asg : Forall (fun r => In (sub_assignment_id r) (map asg_id (assignments d)))
                        (submissions d);
  refs_log_ids : List.NoDup (map log_id (login_logs d));
  refs_log_seq : Forall (fun l => log_id l <= seq_login_logs d) (login_logs d);
  refs_log_user : Forall (fun l => In (log_user_id l) (map user_id (users d)))
                         (login_logs d)
}.

(** The order of [ORDER BY ... DESC] on a TEXT column: the first text is
    not below the second. *)
Definition text_ge (a b : string) : Prop := String.leb b a = true.


(** Every file of the upload directory is the file of a submission. *)
Definition files_have_rows (st : state) : Prop :=
  forall (name : string) (content : bytes),
    files st !! name = Some content ->
    exists r : submission, In r (submissions (db st)) /\ sub_file_name r = name.

(** ** The effect of a request *)

Section Effects.
Context {L : Library}.

(** What one request does to the store: nothing, or the one change of the
    handler that accepted it. *)
Inductive effect (e : env) (sess : session) (st : state)
  : call -> session -> state -> Prop :=
| eff_none (c : call) (sess' : session) :
    effect e sess st c sess' st
| eff_register (req : request) (d : database) :
    insert_user (field "name" req) (PyStr.lower (field "email" req))
                (hash_password (salt e) (field "password" req)) "student" (db st)
    = Some d ->
    effect e sess st (c_register req) sess (mkState d (files st))
| eff_login (req : request) (u : user) (upgrade : bool) :
    fetchone (fun u => String.eqb (user_email u) (PyStr.lower (field "email" req))
                       && String.eqb (user_role u) (field "role" req))
             (users (db st)) = Some u ->
    verify_password (field "password" req) (user_password u) = (true, upgrade) ->
    effect e sess st (c_login req)
      (Some (mkSession (user_id u) (user_name u) (user_role u)))
      (mkState
         (insert_login_log (user_id u) (now_text e)
            (if upgrade
             then update_password (user_id u)
                    (hash_password (salt e) (field "password" req)) (db st)
             else db st))
         (files st))
| eff_upload (sd : session_data) (req : request) (f : file_storage) (a : assignment) :
    sess = Some sd -> s_role sd = "student" ->
    well_formed_upload req f ->
    fetchone (fun a => int_eq_text (asg_id a) (field "assignment_id" req))
             (assignments (db st)) = Some a ->
    effect e sess st (c_student req) sess
      (store_new e (s_user_id sd) (asg_id a) (field "assignment_id" req) f
         (replace_pending (s_user_id sd) (field "assignment_id" req) st))
| eff_delete (sd : session_data) (i : Z) (row : submission) :
    sess = Some sd -> s_role sd = "student" ->
    fetchone (fun r => (sub_id r =? i) && (sub_student_id r =? s_user_id sd))
             (submissions (db st)) = Some row ->
    sub_status row = "Pending" ->
    effect e sess st (c_delete i) sess
      (mkState (delete_submission_row i (db st))
               (remove_if_present (sub_file_name row) (files st)))
| eff_review (sd : session_data) (req : request) (row : submission) :
    sess = Some sd -> s_role sd = "faculty" ->
    field "action" req = "Approved" \/ field "action" req = "Rejected" ->
    fetchone (fun r => int_eq_text (sub_id r) (field "submission_id" req))
             (submissions (db st)) = Some row ->
    effect e sess st (c_faculty req) sess
      (mkState (update_review (fun r => int_eq_text (sub_id r) (field "submission_id" req))
                  (field "action" req) (field "comment" req) (now_text e)
                  (s_user_id sd) (db st))
               (files st))
| eff_create (sd : session_data) (req : request) (t : DateTime.datetime)
    (d : database) :
    sess = Some sd -> s_role sd = "faculty" ->
    DateTime.strptime (field "deadline" req) DateTime.FMT_LOCAL = Some t ->
    insert_assignment (field "title" req) (field "description" req)
                      (DateTime.strftime_minutes t) (db st) = Some d ->
    effect e sess st (c_faculty req) sess (mkState d (files st)).

End Effects.

(** ** A concrete library, for running the handlers on examples *)

Module Demo.

Fixpoint all_digits (s : string) : bool :=
  match s with
  | EmptyString => true
  | String c r => DateTime.digit c && all_digits r
  end.

(** Decimal texts denote their integer; nothing else is numeric. *)
Definition demo_integer (s : string) : option Z :=
  if PyStr.truthy s && all_digits s then Some (DateTime.int_of s) else None.

Definition demo_hash (salt password : string) : string :=
  "scrypt:" +:+ salt +:+ "$" +:+ password.

Definition demo_check (pwhash password : string) : bool :=
  match PyStr.rsplit1 "$" pwhash with
  | Some (_, p) => String.eqb p password
  | None => false
  end.

#[export] Instance demo_library : Library := {|
  secure_filename := fun s => s;
  generate_password_hash := demo_hash;
  check_password_hash := demo_check;
  sql_integer := demo_integer
|}.

Definition demo_env : env :=
  mkEnv (DateTime.mkDT 2026 3 5 23 59 1) "0123456789abcdef0123456789abcdef" "na".

Definition pdf_bytes : bytes := (PDF_MAGIC ++ [Byte.x2d; Byte.x31])%list.

Definition form_of (l : list (string * string)) : gmap string string :=
  list_to_map l.

(** A POST of the upload form; the body is the file and some hundred
    bytes of multipart framing. *)
Definition upload_request (assignment_id name : string) (content : bytes) : request :=
  mkRequest POST (form_of [("assignment_id", assignment_id)])
            {[ "pdf_file" := mkFile name content ]}
            (Z.of_nat (length content) + 400).

Definition post (l : list (string * string)) : request :=
  mkRequest POST (form_of l) ∅ 200.

Definition student (i : Z) : session := Some (mkSession i "Arun Student" "student").
Definition faculty : session := Some (mkSession 1 "Dr. Priya Faculty" "faculty").

Definition st0 : state := initial_state "na".

(** Arun (user 2) uploads a PDF for assignment 1, and then another. *)
Definition up1 : request := upload_request "1" "hw.pdf" pdf_bytes.
Definition up2 : request := upload_request "1" "hw-final.PDF" pdf_bytes.
Definition arun : session_data := mkSession 2 "Arun Student" "student".
Definition meena : session_data := mkSession 3 "Meena Student" "student".
Definition priya : session_data := mkSession 1 "Dr. Priya Faculty" "faculty".

Definition st1 : state := snd (handle demo_env (Some arun) (c_student up1) st0).
Definition st2 : state := snd (student_dashboard demo_env (Some arun) up2 st1).

(** The row and the file of the first upload. *)
Definition name1 : string := "2_1_0123456789abcdef0123456789abcdef_hw.pdf".
Definition row1 : submission :=
  mkSubmission 1 2 1 name1 "2026-03-05 23:59:01" "Pending" "" "" None.

(** Uploads that are refused: a text file named as a PDF, and a PDF for an
    assignment that does not exist. *)
Definition up_text : request :=
  upload_request "1" "notes.pdf" [Byte.x68; Byte.x69; Byte.x21; Byte.x0a; Byte.x2e].
Definition up_unknown : request := upload_request "99" "hw.pdf" pdf_bytes.

(** A review of submission 1, with a comment typed with blanks around it. *)
Definition review1 : request :=
  post [("form_type", "review"); ("submission_id", "1");
        ("action", "Approved"); ("comment", " ok ")].


(** An assignment with a deadline in the year 999. *)
Definition create_old : request :=
  post [("form_type", "assignment"); ("title", "Annals");
        ("description", "Copy the annals."); ("deadline", "0999-01-01T00:00")].


(** The file of Arun's second upload, and the store after Dr. Priya's review. *)
Definition name2 : string := "2_1_0123456789abcdef0123456789abcdef_hw-final.PDF".
Definition st_reviewed : state :=
  snd (handle demo_env (Some priya) (c_faculty review1) st1).

Definition get_page : request := mkRequest GET ∅ ∅ 0.

(** The store after Dr. Priya has created the assignment whose deadline is
    in the year 999. *)
Definition st_old : state :=
  snd (handle demo_env (Some priya) (c_faculty create_old) st0).


End Demo.

(** ** Proof automation *)

(** A property of the numbers [lo .. lo + n - 1], stated for [lo + k] with
    [k < n], is proved by running it on each of them. *)
Ltac one_case k :=
  destruct k as [|k]; [intros r; vm_compute; eexists; reflexivity|].

Tactic Notation "by_cases" integer(n) :=
  let k := fresh "k" in
  let Hk := fresh "Hk" in
  intros k Hk; do n (one_case k); exfalso; lia.

(** A case in which a table gets no new row. *)
Ltac nothing_added :=
  exists []; rewrite app_nil_r;
  split; [reflexivity|split; [simpl; lia|congruence]].

(** * Properties *)

(** ** The helpers on examples *)

Example strip_blanks : PyStr.strip "  a b  " = "a b".
Proof. reflexivity. Qed.

Example strip_only_blanks : PyStr.strip "   " = "".
Proof. reflexivity. Qed.

Example rsplit_last_dot : PyStr.rsplit1 "." "a.b.PdF" = Some ("a.b", "PdF").
Proof. reflexivity. Qed.

Example allowed_upper_case : allowed_file "report.final.PDF" = true.
Proof. reflexivity. Qed.

Example not_allowed_without_dot : allowed_file "pdf" = false.
Proof. reflexivity. Qed.

Example parse_seconds :
  DateTime.strptime "2026-03-05 23:59:00" DateTime.FMT_SECONDS
  = Some (DateTime.mkDT 2026 3 5 23 59 0).
Proof. vm_compute. reflexivity. Qed.

Example parse_seconds_needs_seconds :
  DateTime.strptime "2026-03-05 23:59" DateTime.FMT_SECONDS = None.
Proof. vm_compute. reflexivity. Qed.

Example parse_short_fields :
  DateTime.strptime "2026-3-5   9:5" DateTime.FMT_MINUTES
  = Some (DateTime.mkDT 2026 3 5 9 5 0).
Proof. vm_compute. reflexivity. Qed.

Example parse_no_such_day :
  DateTime.strptime "2026-02-30 23:59" DateTime.FMT_MINUTES = None.
Proof. vm_compute. reflexivity. Qed.

Example parse_leap_day :
  DateTime.strptime "2028-02-29T08:00" DateTime.FMT_LOCAL
  = Some (DateTime.mkDT 2028 2 29 8 0 0).
Proof. vm_compute. reflexivity. Qed.

Example parse_rest_remains :
  DateTime.strptime "2026-03-05T23:59:30" DateTime.FMT_LOCAL = None.
Proof. vm_compute. reflexivity. Qed.

Example print_seconds :
  DateTime.strftime_seconds (DateTime.mkDT 2026 3 5 9 5 0) = "2026-03-05 09:05:00".
Proof. vm_compute. reflexivity. Qed.

Example pdf_magic_checked :
  is_pdf_content (mkFile "x.pdf" [Byte.x25; Byte.x50; Byte.x44]) = false.
Proof. reflexivity. Qed.

(** ** Strings and bytes *)

Lemma truthy_false (s : string) : PyStr.truthy s = false <-> s = "".
Proof.
  unfold PyStr.truthy. rewrite negb_false_iff. apply String.eqb_eq.
Qed.

Lemma truthy_true (s : string) : PyStr.truthy s = true <-> s <> "".
Proof.
  unfold PyStr.truthy. rewrite negb_true_iff. apply String.eqb_neq.
Qed.

Lemma bytes_eqb_eq (a b : bytes) : bytes_eqb a b = true <-> a = b.
Proof.
  revert b. induction a as [|x a IH]; intros [|y b]; simpl;
    try (split; [reflexivity || discriminate | reflexivity || discriminate]).
  rewrite andb_true_iff, IH. split.
  - intros [Hx ->]. apply Byte.byte_dec_bl in Hx. congruence.
  - intros H. injection H as -> ->. split; [now apply Byte.byte_dec_lb | reflexivity].
Qed.

Lemma rsplit1_none (c : ascii) (s : string) :
  PyStr.rsplit1 c s = None <-> PyStr.contains c s = false.
Proof.
  induction s as [|d r IH]; simpl; [tauto|].
  destruct (PyStr.rsplit1 c r) as [[a b]|] eqn:E.
  - split; [discriminate|]. intros H. apply orb_false_iff in H as [_ H].
    apply IH in H. discriminate.
  - destruct (Ascii.eqb c d); simpl; split; try discriminate; tauto.
Qed.

Lemma rsplit1_some (c : ascii) (s a b : string) :
  PyStr.rsplit1 c s = Some (a, b) <->
  s = a +:+ String c b /\ PyStr.contains c b = false.
Proof.
  revert a. induction s as [|d r IH]; intros a; simpl.
  - split; [discriminate|]. intros [H _]. destruct a; discriminate.
  - destruct (PyStr.rsplit1 c r) as [[a' b']|] eqn:E.
    + split.
      * intros H. injection H as <- <-.
        destruct (proj1 (IH a') eq_refl) as [-> Hb]. simpl. tauto.
      * intros [H Hb]. destruct a as [|x a]; simpl in H.
        -- injection H as -> ->. apply rsplit1_none in Hb. congruence.
        -- injection H as -> H. assert (Some (a', b') = Some (a, b)) as Heq
             by (apply IH; tauto).
           congruence.
    + apply rsplit1_none in E. destruct (Ascii.eqb_spec c d) as [<-|Hne].
      * split.
        -- intros H. injection H as <- <-. simpl. tauto.
        -- intros [H Hb]. destruct a as [|x a]; simpl in H.
           ++ injection H as ->. reflexivity.
           ++ injection H as -> H. exfalso. subst r.
              clear -E. induction a as [|y a IHa]; simpl in E.
              ** rewrite Ascii.eqb_refl in E. discriminate.
              ** apply orb_false_iff in E as [_ E]. auto.
      * split; [discriminate|]. intros [H Hb]. destruct a as [|x a]; simpl in H.
        -- injection H as ->. congruence.
        -- injection H as -> H. exfalso. subst r.
           clear -E. induction a as [|y a IHa]; simpl in E.
           ++ rewrite Ascii.eqb_refl in E. discriminate.
           ++ apply orb_false_iff in E as [_ E]. auto.
Qed.

(** [allowed_file] accepts exactly the names with a [pdf] extension. *)
Lemma allowed_file_spec (name : string) :
  allowed_file name = true <-> has_pdf_extension name.
Proof.
  unfold allowed_file, has_pdf_extension. split.
  - intros H. apply andb_true_iff in H as [_ H].
    destruct (PyStr.rsplit1 "." name) as [[a b]|] eqn:E; [|discriminate].
    apply rsplit1_some in E as [-> Hb]. exists a, b. repeat split; auto.
    simpl in H. rewrite orb_false_r in H. apply String.eqb_eq in H. auto.
  - intros (a & b & -> & Hb & Hl).
    assert (PyStr.rsplit1 "." (a +:+ String "." b) = Some (a, b)) as E
      by (apply rsplit1_some; auto).
    rewrite E. apply andb_true_iff. split.
    + destruct (PyStr.contains "." (a +:+ String "." b)) eqn:C; [reflexivity|].
      apply rsplit1_none in C. congruence.
    + simpl. rewrite Hl. reflexivity.
Qed.

Lemma is_pdf_content_spec (f : file_storage) :
  is_pdf_content f = true <-> firstn 4 (stream f) = PDF_MAGIC.
Proof. unfold is_pdf_content. apply bytes_eqb_eq. Qed.

(** ** Dates: the comparison, the printed forms and their parsing *)

Section Calendar.

Lemma div_step (y k : Z) :
  0 < k -> y / k = (y - 1) / k + (if y mod k =? 0 then 1 else 0).
Proof.
  intros Hk. pose proof (Z.div_mod y k ltac:(lia)).
  pose proof (Z.div_mod (y - 1) k ltac:(lia)).
  pose proof (Z.mod_pos_bound (y - 1) k Hk). pose proof (Z.mod_pos_bound y k Hk).
  destruct (y mod k =? 0) eqn:E; rewrite ?Z.eqb_eq, ?Z.eqb_neq in E; nia.
Qed.

Lemma mod_multiple (y a b : Z) : 0 < a -> 0 < b -> y mod (a * b) = 0 -> y mod b = 0.
Proof.
  intros Ha Hb H. pose proof (Z.div_mod y (a * b) ltac:(lia)) as E. rewrite H in E.
  rewrite E. replace (a * b * (y / (a * b)) + 0) with (a * (y / (a * b)) * b) by lia.
  apply Z.mod_mul. lia.
Qed.

Lemma days_before_year_succ (y : Z) :
  days_before_year (y + 1) = days_before_year y + days_in_year y.
Proof.
  unfold days_before_year, days_in_year, DateTime.is_leap. cbv zeta.
  replace (y + 1 - 1) with y by lia.
  rewrite (div_step y 4), (div_step y 100), (div_step y 400) by lia.
  pose proof (mod_multiple y 25 4 ltac:(lia) ltac:(lia)) as H100.
  pose proof (mod_multiple y 4 100 ltac:(lia) ltac:(lia)) as H400.
  change (25 * 4) with 100 in H100. change (4 * 100) with 400 in H400.
  destruct (y mod 4 =? 0) eqn:E4; destruct (y mod 100 =? 0) eqn:E100;
    destruct (y mod 400 =? 0) eqn:E400; simpl;
    rewrite ?Z.eqb_eq, ?Z.eqb_neq in *; lia.
Qed.

Lemma days_before_year_mono (a b : Z) :
  a <= b -> days_before_year a <= days_before_year b.
Proof.
  intros H. unfold days_before_year. cbv zeta.
  pose proof (Z.div_le_mono (a - 1) (b - 1) 400 ltac:(lia) ltac:(lia)).
  pose proof (Z.div_mod (a - 1) 4 ltac:(lia)). pose proof (Z.div_mod (b - 1) 4 ltac:(lia)).
  pose proof (Z.div_mod (a - 1) 100 ltac:(lia)).
  pose proof (Z.div_mod (b - 1) 100 ltac:(lia)).
  pose proof (Z.mod_pos_bound (a - 1) 4 ltac:(lia)).
  pose proof (Z.mod_pos_bound (b - 1) 4 ltac:(lia)).
  pose proof (Z.mod_pos_bound (a - 1) 100 ltac:(lia)).
  pose proof (Z.mod_pos_bound (b - 1) 100 ltac:(lia)).
  lia.
Qed.

Lemma days_before_month_table (y : Z) :
  let l := days_in_year y - 365 in
  days_before_month y 1 = 0 /\ days_before_month y 2 = 31
  /\ days_before_month y 3 = 59 + l /\ days_before_month y 4 = 90 + l
  /\ days_before_month y 5 = 120 + l /\ days_before_month y 6 = 151 + l
  /\ days_before_month y 7 = 181 + l /\ days_before_month y 8 = 212 + l
  /\ days_before_month y 9 = 243 + l /\ days_before_month y 10 = 273 + l
  /\ days_before_month y 11 = 304 + l /\ days_before_month y 12 = 334 + l
  /\ (0 <= l <= 1).
Proof.
  unfold days_before_month, days_in_year. simpl.
  unfold DateTime.days_in_month. simpl.
  destruct (DateTime.is_leap y); simpl; repeat split; lia.
Qed.

Lemma valid_bounds (t : DateTime.datetime) :
  DateTime.valid t = true ->
  1 <= DateTime.year t <= 9999 /\ 1 <= DateTime.month t <= 12
  /\ 1 <= DateTime.day t <= DateTime.days_in_month (DateTime.year t) (DateTime.month t)
  /\ 0 <= DateTime.hour t <= 23 /\ 0 <= DateTime.minute t <= 59
  /\ 0 <= DateTime.second t <= 59.
Proof.
  unfold DateTime.valid. rewrite !andb_true_iff, !Z.leb_le. tauto.
Qed.

Lemma month_cases (m : Z) :
  1 <= m <= 12 ->
  m = 1 \/ m = 2 \/ m = 3 \/ m = 4 \/ m = 5 \/ m = 6 \/ m = 7 \/ m = 8 \/ m = 9
  \/ m = 10 \/ m = 11 \/ m = 12.
Proof. lia. Qed.

Lemma days_in_month_table (y : Z) :
  let l := days_in_year y - 365 in
  DateTime.days_in_month y 1 = 31 /\ DateTime.days_in_month y 2 = 28 + l
  /\ DateTime.days_in_month y 3 = 31 /\ DateTime.days_in_month y 4 = 30
  /\ DateTime.days_in_month y 5 = 31 /\ DateTime.days_in_month y 6 = 30
  /\ DateTime.days_in_month y 7 = 31 /\ DateTime.days_in_month y 8 = 31
  /\ DateTime.days_in_month y 9 = 30 /\ DateTime.days_in_month y 10 = 31
  /\ DateTime.days_in_month y 11 = 30 /\ DateTime.days_in_month y 12 = 31.
Proof.
  unfold DateTime.days_in_month, days_in_year. simpl.
  destruct (DateTime.is_leap y); simpl; repeat split; lia.
Qed.

(** Within a year, the day of the year grows with the month and the day. *)
Lemma day_of_year_mono (y m1 d1 m2 d2 : Z) :
  1 <= m1 <= 12 -> 1 <= m2 <= 12 ->
  1 <= d1 <= DateTime.days_in_month y m1 -> 1 <= d2 <= DateTime.days_in_month y m2 ->
  (m1 < m2 -> days_before_month y m1 + d1 < days_before_month y m2 + d2)
  /\ 1 <= days_before_month y m1 + d1 <= days_in_year y.
Proof.
  intros H1 H2 Hd1 Hd2.
  pose proof (days_before_month_table y) as T. pose proof (days_in_month_table y) as D.
  cbv zeta in T, D.
  destruct T as (T1 & T2 & T3 & T4 & T5 & T6 & T7 & T8 & T9 & T10 & T11 & T12 & Tl).
  destruct D as (D1 & D2 & D3 & D4 & D5 & D6 & D7 & D8 & D9 & D10 & D11 & D12).
  destruct (month_cases m1 H1) as [->|[->|[->|[->|[->|[->|[->|[->|[->|[->|[->| ->]]]]]]]]]]];
    destruct (month_cases m2 H2) as [->|[->|[->|[->|[->|[->|[->|[->|[->|[->|[->| ->]]]]]]]]]]];
    lia.
Qed.

Lemma toordinal_mono (a b : DateTime.datetime) :
  DateTime.valid a = true -> DateTime.valid b = true ->
  (DateTime.year a < DateTime.year b -> toordinal a < toordinal b)
  /\ (DateTime.year a = DateTime.year b -> DateTime.month a < DateTime.month b ->
      toordinal a < toordinal b)
  /\ (DateTime.year a = DateTime.year b -> DateTime.month a = DateTime.month b ->
      toordinal a - toordinal b = DateTime.day a - DateTime.day b).
Proof.
  intros Ha Hb. apply valid_bounds in Ha as (Hy & Hm & Hd & _).
  apply valid_bounds in Hb as (Hy' & Hm' & Hd' & _). unfold toordinal.
  split; [|split].
  - intros Hlt.
    pose proof (days_before_year_mono (DateTime.year a + 1) (DateTime.year b) ltac:(lia)) as M.
    rewrite days_before_year_succ in M.
    pose proof (day_of_year_mono _ _ _ _ _ Hm Hm Hd Hd) as [_ Ba].
    pose proof (day_of_year_mono _ _ _ _ _ Hm' Hm' Hd' Hd') as [_ Bb]. lia.
  - intros Hy2 Hlt. rewrite Hy2 in *.
    pose proof (day_of_year_mono _ _ _ _ _ Hm Hm' Hd Hd') as [M _]. specialize (M Hlt). lia.
  - intros -> ->. lia.
Qed.

(** On valid datetimes the comparison is the order of the instants. *)
Lemma ltb_timestamp (a b : DateTime.datetime) :
  DateTime.valid a = true -> DateTime.valid b = true ->
  (DateTime.ltb a b = true <-> timestamp a < timestamp b).
Proof.
  intros Ha Hb. destruct (toordinal_mono a b Ha Hb) as (O1 & O2 & O3).
  destruct (toordinal_mono b a Hb Ha) as (P1 & P2 & _).
  apply valid_bounds in Ha as (_ & _ & _ & Hh & Hmi & Hs).
  apply valid_bounds in Hb as (_ & _ & _ & Hh' & Hmi' & Hs').
  unfold DateTime.ltb, timestamp.
  destruct (Z.compare_spec (DateTime.year a) (DateTime.year b)) as [Ey|Ey|Ey].
  2:{ specialize (O1 Ey). split; [lia|reflexivity]. }
  2:{ specialize (P1 Ey). split; [discriminate|lia]. }
  destruct (Z.compare_spec (DateTime.month a) (DateTime.month b)) as [Em|Em|Em].
  2:{ specialize (O2 Ey Em). split; [lia|reflexivity]. }
  2:{ specialize (P2 (eq_sym Ey) Em). split; [discriminate|lia]. }
  specialize (O3 Ey Em).
  destruct (Z.compare_spec (DateTime.day a) (DateTime.day b)) as [Ed|Ed|Ed].
  2:{ split; [lia|reflexivity]. }
  2:{ split; [discriminate|lia]. }
  destruct (Z.compare_spec (DateTime.hour a) (DateTime.hour b)) as [Eh|Eh|Eh].
  2:{ split; [lia|reflexivity]. }
  2:{ split; [discriminate|lia]. }
  destruct (Z.compare_spec (DateTime.minute a) (DateTime.minute b)) as [En|En|En].
  2:{ split; [lia|reflexivity]. }
  2:{ split; [discriminate|lia]. }
  rewrite Z.ltb_lt. lia.
Qed.

Import DateTime.

Lemma code_digit_char (k : Z) : PyStr.code (digit_char k) = 48 + k mod 10.
Proof.
  unfold PyStr.code, digit_char.
  pose proof (Z.mod_pos_bound k 10 ltac:(lia)).
  rewrite N_ascii_embedding; [lia|]. lia.
Qed.

Lemma digit_digit_char (k : Z) : digit (digit_char k) = true.
Proof.
  unfold digit. rewrite code_digit_char.
  pose proof (Z.mod_pos_bound k 10 ltac:(lia)).
  apply andb_true_iff. rewrite !Z.leb_le. lia.
Qed.

Lemma isspace_digit_char (k : Z) : PyStr.isspace (digit_char k) = false.
Proof.
  unfold PyStr.isspace. cbv zeta. rewrite code_digit_char.
  pose proof (Z.mod_pos_bound k 10 ltac:(lia)).
  rewrite !orb_false_iff, !andb_false_iff, !Z.leb_gt, !Z.eqb_neq. lia.
Qed.

Lemma re_match_step (d : directive) (fmt : list directive) (s rest : string) (v : Z)
    (t : datetime) (res : datetime * string) :
  (exists tl, candidates d s = (v, rest) :: tl) ->
  re_match fmt rest (set_field d v t) = Some res ->
  re_match (d :: fmt) s t = Some res.
Proof. intros [tl H] Hr. simpl. rewrite H. simpl. now rewrite Hr. Qed.

Lemma range_cases (P : Z -> Prop) (lo : Z) (k : nat) :
  (forall n : nat, (n < k)%nat -> P (lo + Z.of_nat n)) ->
  forall z, lo <= z < lo + Z.of_nat k -> P z.
Proof.
  intros H z Hz. replace z with (lo + Z.of_nat (Z.to_nat (z - lo))) by lia.
  apply H. lia.
Qed.

Lemma candidates_month (m : Z) :
  1 <= m <= 12 ->
  forall r, exists tl,
    candidates DMonth (String (digit_char (m / 10)) (String (digit_char m) r))
    = (m, r) :: tl.
Proof.
  intros H. pattern m. apply (range_cases _ 1 12); [|lia]. by_cases 12.
Qed.

Lemma candidates_day (d : Z) :
  1 <= d <= 31 ->
  forall r, exists tl,
    candidates DDay (String (digit_char (d / 10)) (String (digit_char d) r))
    = (d, r) :: tl.
Proof.
  intros H. pattern d. apply (range_cases _ 1 31); [|lia]. by_cases 31.
Qed.

Lemma candidates_hour (h : Z) :
  0 <= h <= 23 ->
  forall r, exists tl,
    candidates DHour (String (digit_char (h / 10)) (String (digit_char h) r))
    = (h, r) :: tl.
Proof.
  intros H. pattern h. apply (range_cases _ 0 24); [|lia]. by_cases 24.
Qed.

Lemma candidates_minute (n : Z) :
  0 <= n <= 59 ->
  forall r, exists tl,
    candidates DMinute (String (digit_char (n / 10)) (String (digit_char n) r))
    = (n, r) :: tl.
Proof.
  intros H. pattern n. apply (range_cases _ 0 60); [|lia]. by_cases 60.
Qed.

Lemma candidates_second (n : Z) :
  0 <= n <= 59 ->
  forall r, exists tl,
    candidates DSecond (String (digit_char (n / 10)) (String (digit_char n) r))
    = (n, r) :: tl.
Proof.
  intros H. pattern n. apply (range_cases _ 0 60); [|lia]. by_cases 60.
Qed.

Lemma candidates_year (y : Z) (r : string) :
  0 <= y <= 9999 ->
  candidates DYear
    (String (digit_char (y / 1000)) (String (digit_char (y / 100))
       (String (digit_char (y / 10)) (String (digit_char y) r))))
  = [(y, r)].
Proof.
  intros H. unfold candidates. simpl. rewrite !digit_digit_char. simpl.
  unfold int_of. simpl. rewrite !digit_digit_char, !code_digit_char.
  do 2 f_equal.
  pose proof (Z.div_mod y 10 ltac:(lia)). pose proof (Z.mod_pos_bound y 10 ltac:(lia)).
  pose proof (Z.div_mod (y / 10) 10 ltac:(lia)).
  pose proof (Z.mod_pos_bound (y / 10) 10 ltac:(lia)).
  pose proof (Z.div_mod (y / 100) 10 ltac:(lia)).
  pose proof (Z.mod_pos_bound (y / 100) 10 ltac:(lia)).
  pose proof (Z.div_mod (y / 1000) 10 ltac:(lia)).
  pose proof (Z.mod_pos_bound (y / 1000) 10 ltac:(lia)).
  assert (y / 100 = y / 10 / 10) by (rewrite Z.div_div by lia; reflexivity).
  assert (y / 1000 = y / 100 / 10) by (rewrite Z.div_div by lia; reflexivity).
  assert (y / 1000 / 10 = 0) by (rewrite Z.div_div by lia; apply Z.div_small; lia).
  lia.
Qed.

Lemma days_in_month_le (y m : Z) : days_in_month y m <= 31.
Proof.
  unfold days_in_month.
  destruct (m =? 2); [destruct (is_leap y)|destruct (_ || _)]; lia.
Qed.

Lemma candidates_lit (c : ascii) (r : string) :
  is_ci c c = true ->
  candidates (DLit c) (String c r) = [(int_of (String c EmptyString), r)].
Proof. intros H. unfold candidates. simpl. rewrite H. reflexivity. Qed.

Lemma candidates_space (k : Z) (r : string) :
  candidates DSpace (String " " (String (digit_char k) r))
  = [(0, String (digit_char k) r)].
Proof.
  unfold candidates. simpl space_candidates.
  change (PyStr.isspace " ") with true. cbv iota.
  rewrite isspace_digit_char. reflexivity.
Qed.

Lemma text_minutes_chars (t : datetime) (r : string) :
  text_minutes t +:+ r
  = String (digit_char (year t / 1000)) (String (digit_char (year t / 100))
      (String (digit_char (year t / 10)) (String (digit_char (year t))
    (String "-" (String (digit_char (month t / 10)) (String (digit_char (month t))
    (String "-" (String (digit_char (day t / 10)) (String (digit_char (day t))
    (String " " (String (digit_char (hour t / 10)) (String (digit_char (hour t))
    (String ":" (String (digit_char (minute t / 10)) (String (digit_char (minute t))
      r))))))))))))))).
Proof. reflexivity. Qed.

(** The text printed to the minute, followed by anything, matches the
    format to the minute and leaves what follows. *)
Lemma re_match_minutes (t : datetime) (r : string) :
  valid t = true ->
  re_match FMT_MINUTES (text_minutes t +:+ r) DEFAULTS
  = Some (mkDT (year t) (month t) (day t) (hour t) (minute t) 0, r).
Proof.
  intros Hv. apply valid_bounds in Hv as (Hy & Hm & Hd & Hh & Hn & Hs).
  pose proof (days_in_month_le (year t) (month t)) as Hd31.
  rewrite text_minutes_chars. unfold FMT_MINUTES.
  eapply re_match_step; [eexists; apply candidates_year; lia|].
  eapply re_match_step; [eexists; apply candidates_lit; reflexivity|].
  eapply re_match_step; [apply candidates_month; lia|].
  eapply re_match_step; [eexists; apply candidates_lit; reflexivity|].
  eapply re_match_step; [apply candidates_day; lia|].
  eapply re_match_step; [eexists; apply candidates_space|].
  eapply re_match_step; [apply candidates_hour; lia|].
  eapply re_match_step; [eexists; apply candidates_lit; reflexivity|].
  eapply re_match_step; [apply candidates_minute; lia|].
  reflexivity.
Qed.

Lemma strptime_text_minutes (t : datetime) :
  valid t = true -> second t = 0 ->
  strptime (text_minutes t) FMT_MINUTES = Some t.
Proof.
  intros Hv Hs. unfold strptime.
  change (text_minutes t) with (text_minutes t +:+ "").
  rewrite (re_match_minutes t "" Hv).
  destruct t as [y m d h n s]. simpl in *. subst s. now rewrite Hv.
Qed.

Lemma strptime_text_seconds (t : datetime) :
  valid t = true -> strptime (text_seconds t) FMT_SECONDS = Some t.
Proof.
  intros Hv. unfold strptime.
  assert (re_match FMT_SECONDS (text_seconds t) DEFAULTS = Some (t, "")) as ->.
  2:{ now rewrite Hv. }
  pose proof Hv as Hb. apply valid_bounds in Hb as (Hy & Hm & Hd & Hh & Hn & Hs).
  pose proof (days_in_month_le (year t) (month t)) as Hd31.
  unfold text_seconds. rewrite text_minutes_chars. unfold FMT_SECONDS.
  eapply re_match_step; [eexists; apply candidates_year; lia|].
  eapply re_match_step; [eexists; apply candidates_lit; reflexivity|].
  eapply re_match_step; [apply candidates_month; lia|].
  eapply re_match_step; [eexists; apply candidates_lit; reflexivity|].
  eapply re_match_step; [apply candidates_day; lia|].
  eapply re_match_step; [eexists; apply candidates_space|].
  eapply re_match_step; [apply candidates_hour; lia|].
  eapply re_match_step; [eexists; apply candidates_lit; reflexivity|].
  eapply re_match_step; [apply candidates_minute; lia|].
  eapply re_match_step; [eexists; apply candidates_lit; reflexivity|].
  eapply re_match_step; [apply (candidates_second (second t)); lia|].
  destruct t. reflexivity.
Qed.

Lemma colons_app (a b : string) : colons (a +:+ b) = (colons a + colons b)%nat.
Proof. induction a as [|c a IH]; simpl; [reflexivity|]. rewrite IH. lia. Qed.

Lemma match_classes_split (cs : list charclass) (s m rest : string) :
  match_classes cs s = Some (m, rest) ->
  s = m +:+ rest /\ Forall2 (fun p c => p c = true) cs (list_ascii_of_string m).
Proof.
  revert s m rest. induction cs as [|p cs IH]; intros s m rest; simpl.
  - intros H. injection H as <- <-. split; [reflexivity|constructor].
  - destruct s as [|c s]; [discriminate|]. destruct (p c) eqn:Ep; [|discriminate].
    destruct (match_classes cs s) as [[m' rest']|] eqn:E; [|discriminate].
    intros H. injection H as <- <-. destruct (IH _ _ _ E) as [-> HF].
    split; [reflexivity|]. simpl. constructor; auto.
Qed.

Lemma is_ci_colon (c : ascii) : is_ci ":" c = true -> c = ":"%char.
Proof.
  destruct c as [[] [] [] [] [] [] [] []]; vm_compute; intros H;
    first [reflexivity | discriminate H].
Qed.

Lemma space_candidates_colons (s r : string) :
  In r (space_candidates s) -> (colons r <= colons s)%nat.
Proof.
  revert r. induction s as [|c s IH]; simpl; intros r; [tauto|].
  destruct (PyStr.isspace c); [|intros []].
  intros H. apply in_app_or in H as [H|[<-|[]]]; [specialize (IH r H)|]; lia.
Qed.

Lemma candidates_colons (d : directive) (s rest : string) (v : Z) :
  In (v, rest) (candidates d s) ->
  ((if is_colon d then 1 else 0) + colons rest <= colons s)%nat.
Proof.
  assert (forall alts,
            In (v, rest)
               (filter_map (fun cs => match match_classes cs s with
                                | Some (m, rest) => Some (int_of m, rest)
                                | None => None
                                end) alts) ->
            exists cs m, In cs alts /\ match_classes cs s = Some (m, rest)) as Hin.
  { induction alts as [|cs alts IH]; simpl; [intros []|].
    destruct (match_classes cs s) as [[m r]|] eqn:E; simpl.
    - intros [H|H].
      + injection H as _ <-. eauto.
      + destruct (IH H) as (cs' & m' & ? & ?). eauto.
    - intros H. destruct (IH H) as (cs' & m' & ? & ?). eauto. }
  assert (forall cs m, match_classes cs s = Some (m, rest) ->
                       (colons rest <= colons s)%nat) as Hle.
  { intros cs m E. apply match_classes_split in E as [-> _]. rewrite colons_app. lia. }
  destruct d; unfold is_colon;
    try (intros H; apply Hin in H as (cs & m & _ & E); simpl; eauto; fail).
  - (* a literal *)
    intros H. apply Hin in H as (cs & m & Hcs & E).
    destruct Hcs as [<-|[]].
    apply match_classes_split in E as [-> HF]. rewrite colons_app.
    destruct (Ascii.eqb_spec ":" c) as [<-|]; [|lia].
    destruct m as [|c' m]; simpl in HF; inversion HF as [|? ? ? ? Hc HF']; subst.
    apply is_ci_colon in Hc. subst c'. simpl. lia.
  - (* blanks *)
    unfold candidates. intros H. apply in_map_iff in H as (r & Hr & Hin').
    injection Hr as _ <-. simpl. now apply space_candidates_colons.
Qed.

Lemma first_some_in {A B : Type} (f : A -> option B) (l : list A) (y : B) :
  first_some f l = Some y -> exists x, In x l /\ f x = Some y.
Proof.
  induction l as [|x l IH]; simpl; [discriminate|].
  destruct (f x) eqn:E.
  - intros H. injection H as <-. eauto.
  - intros H. destruct (IH H) as (x' & ? & ?). eauto.
Qed.

Lemma re_match_colons (fmt : list directive) (s rest : string) (t t' : datetime) :
  re_match fmt s t = Some (t', rest) ->
  (length (List.filter is_colon fmt) + colons rest <= colons s)%nat.
Proof.
  revert s t. induction fmt as [|d fmt IH]; intros s t; simpl.
  - intros H. injection H as _ <-. lia.
  - intros H. apply first_some_in in H as ([v r] & Hin & Hr).
    apply candidates_colons in Hin. apply IH in Hr.
    destruct (is_colon d); simpl; lia.
Qed.

Lemma colon_digit_char (k : Z) : Ascii.eqb ":" (digit_char k) = false.
Proof.
  apply Ascii.eqb_neq. intros H.
  assert (PyStr.code ":" = 48 + k mod 10) as C by (rewrite H; apply code_digit_char).
  pose proof (Z.mod_pos_bound k 10 ltac:(lia)).
  change (PyStr.code ":") with 58 in C. lia.
Qed.

Lemma strptime_minutes_text_seconds (t : datetime) :
  strptime (text_minutes t) FMT_SECONDS = None.
Proof.
  unfold strptime.
  destruct (re_match FMT_SECONDS (text_minutes t) DEFAULTS) as [[t' rest]|] eqn:E;
    [|reflexivity].
  exfalso. apply re_match_colons in E.
  change (text_minutes t) with (text_minutes t +:+ "") in E.
  rewrite text_minutes_chars in E.
  assert (forall c r, colons (String c r)
                      = ((if Ascii.eqb ":" c then 1 else 0) + colons r)%nat) as Hc
    by reflexivity.
  rewrite !Hc, !colon_digit_char in E.
  change (length (List.filter is_colon FMT_SECONDS)) with 2%nat in E.
  change (Ascii.eqb ":" "-") with false in E.
  change (Ascii.eqb ":" " ") with false in E.
  change (Ascii.eqb ":" ":") with true in E.
  change (colons "") with 0%nat in E. cbv beta iota in E. lia.
Qed.

Lemma parse_dt_text_minutes (t : datetime) :
  valid t = true -> second t = 0 -> parse_dt (text_minutes t) = Some t.
Proof.
  intros Hv Hs. unfold parse_dt. simpl.
  now rewrite strptime_minutes_text_seconds, strptime_text_minutes.
Qed.

Lemma parse_dt_text_seconds (t : datetime) :
  valid t = true -> parse_dt (text_seconds t) = Some t.
Proof.
  intros Hv. unfold parse_dt. simpl. now rewrite strptime_text_seconds.
Qed.

(** ** The text order of stored deadlines is the order of time *)








Lemma strptime_valid (s : string) (fmt : list directive) (t : datetime) :
  strptime s fmt = Some t -> valid t = true.
Proof.
  unfold strptime. destruct (re_match fmt s DEFAULTS) as [[t' [|c r]]|]; try discriminate.
  destruct (valid t') eqn:E; [|discriminate]. now intros [= <-].
Qed.

Lemma parse_dt_valid (s : string) (t : datetime) :
  parse_dt s = Some t -> valid t = true.
Proof.
  unfold parse_dt. simpl.
  destruct (strptime s FMT_SECONDS) as [t1|] eqn:E1.
  - intros [= <-]. eapply strptime_valid; eauto.
  - destruct (strptime s FMT_MINUTES) as [t2|] eqn:E2; [|discriminate].
    intros [= <-]. eapply strptime_valid; eauto.
Qed.

(** A format without [%S] leaves the seconds as they were. *)
Lemma re_match_second (fmt : list directive) (s rest : string) (t t' : datetime) :
  forallb (fun d => negb (is_second d)) fmt = true ->
  re_match fmt s t = Some (t', rest) -> second t' = second t.
Proof.
  revert s t. induction fmt as [|d fmt IH]; intros s t; simpl.
  - intros _ [= <- _]. reflexivity.
  - intros Hf H. apply andb_true_iff in Hf as [Hd Hf].
    apply first_some_in in H as ([v r] & _ & Hr).
    rewrite (IH _ _ Hf Hr). now destruct d.
Qed.

Lemma strptime_local_second (s : string) (t : datetime) :
  strptime s FMT_LOCAL = Some t -> second t = 0.
Proof.
  unfold strptime.
  destruct (re_match FMT_LOCAL s DEFAULTS) as [[t' [|c r]]|] eqn:E; try discriminate.
  destruct (valid t'); [|discriminate]. intros [= <-].
  apply re_match_second in E; [exact E|reflexivity].
Qed.

(** *** The texts that [strftime] prints *)

Lemma append_assoc (a b c : string) : (a +:+ b) +:+ c = a +:+ (b +:+ c).
Proof.
  induction a as [|x a IH]; [reflexivity|].
  change (String x ((a +:+ b) +:+ c) = String x (a +:+ (b +:+ c))).
  now rewrite IH.
Qed.

(** From the year 1000 on the year is printed with its four digits. *)
Lemma year_text_four (y : Z) : 1000 <= y <= 9999 -> year_text y = pad4 y.
Proof.
  intros H.
  assert (forallb (fun k => String.eqb (year_text (1000 + Z.of_nat k))
                                       (pad4 (1000 + Z.of_nat k)))
                  (seq 0 (Z.to_nat 9000)) = true) as Hall by (vm_compute; reflexivity).
  rewrite forallb_forall in Hall. specialize (Hall (Z.to_nat (y - 1000))).
  rewrite Z2Nat.id in Hall by lia.
  replace (1000 + (y - 1000)) with y in Hall by lia.
  apply String.eqb_eq, Hall, in_seq. lia.
Qed.

(** Below it the year is printed with fewer digits. *)
Lemma year_text_short (y : Z) :
  1 <= y < 1000 -> (String.length (year_text y) <= 3)%nat.
Proof.
  intros H.
  assert (forallb (fun k => Nat.leb (String.length (year_text (1 + Z.of_nat k))) 3)
                  (seq 0 (Z.to_nat 999)) = true) as Hall by (vm_compute; reflexivity).
  rewrite forallb_forall in Hall. specialize (Hall (Z.to_nat (y - 1))).
  rewrite Z2Nat.id in Hall by lia.
  replace (1 + (y - 1)) with y in Hall by lia.
  apply Nat.leb_le, Hall, in_seq. lia.
Qed.

Lemma strftime_minutes_text (t : datetime) :
  valid t = true -> 1000 <= year t -> strftime_minutes t = text_minutes t.
Proof.
  intros Hv Hy. apply valid_bounds in Hv as (Hb & _).
  unfold strftime_minutes, text_minutes. rewrite year_text_four by lia. reflexivity.
Qed.

Lemma strftime_seconds_text (t : datetime) :
  valid t = true -> 1000 <= year t -> strftime_seconds t = text_seconds t.
Proof.
  intros Hv Hy. unfold strftime_seconds, text_seconds.
  now rewrite strftime_minutes_text.
Qed.

Lemma parse_dt_strftime_minutes (t : datetime) :
  valid t = true -> 1000 <= year t -> second t = 0 ->
  parse_dt (strftime_minutes t) = Some t.
Proof.
  intros Hv Hy Hs. rewrite strftime_minutes_text by assumption.
  now apply parse_dt_text_minutes.
Qed.

Lemma parse_dt_strftime_seconds (t : datetime) :
  valid t = true -> 1000 <= year t -> parse_dt (strftime_seconds t) = Some t.
Proof.
  intros Hv Hy. rewrite strftime_seconds_text by assumption.
  now apply parse_dt_text_seconds.
Qed.

(** [%Y] reads four digits: a text with a dash among its first four
    characters matches none of the formats. *)
Lemma match_year_short (y rest : string) :
  (String.length y <= 3)%nat ->
  match_classes [digit; digit; digit; digit] (y +:+ String "-" rest) = None.
Proof.
  assert (digit "-"%char = false) as Hd by reflexivity.
  assert (forall c a b, String c a +:+ b = String c (a +:+ b)) as Hc by reflexivity.
  assert (forall b, "" +:+ b = b) as Hn by reflexivity.
  intros Hl.
  destruct y as [|c1 [|c2 [|c3 [|c4 y]]]]; simpl in Hl; try lia;
    rewrite ?Hc, ?Hn; cbn [match_classes];
    repeat match goal with
           | |- context [if digit ?c then _ else _] =>
               first [rewrite Hd | destruct (digit c)]
           end; reflexivity.
Qed.

Lemma strptime_short_year (fmt : list directive) (y rest : string) :
  (String.length y <= 3)%nat ->
  strptime (y +:+ String "-" rest) (DYear :: fmt) = None.
Proof.
  intros Hl. unfold strptime. cbn [re_match]. unfold candidates.
  cbn [alternatives filter_map]. rewrite (match_year_short y rest Hl). reflexivity.
Qed.

Lemma parse_dt_short_year (y rest : string) :
  (String.length y <= 3)%nat -> parse_dt (y +:+ String "-" rest) = None.
Proof.
  intros Hl. unfold parse_dt. cbn [first_some].
  unfold FMT_SECONDS, FMT_MINUTES. now rewrite !strptime_short_year.
Qed.

(** A time of a year below 1000 is printed in a form that [parse_dt] does
    not read. *)
Lemma parse_dt_strftime_short (t : datetime) :
  valid t = true -> year t < 1000 ->
  parse_dt (strftime_minutes t) = None /\ parse_dt (strftime_seconds t) = None.
Proof.
  intros Hv Hy. apply valid_bounds in Hv as (Hb & _).
  assert (String.length (year_text (year t)) <= 3)%nat as Hl
    by (apply year_text_short; lia).
  split.
  - apply (parse_dt_short_year _ _ Hl).
  - unfold strftime_seconds, strftime_minutes. rewrite append_assoc.
    apply (parse_dt_short_year _ _ Hl).
Qed.

(** The flag on the texts the portal itself writes: a stored deadline and
    the time of an upload, of years that are printed with four digits. *)
Lemma late_flag_stored (dead sub : datetime) :
  valid dead = true -> second dead = 0 -> 1000 <= year dead ->
  valid sub = true -> 1000 <= year sub ->
  (late_flag (strftime_minutes dead) (strftime_seconds sub) = true
   <-> timestamp dead < timestamp sub).
Proof.
  intros Hd Hs Hyd Hv Hys. unfold late_flag.
  rewrite (parse_dt_strftime_minutes dead Hd Hyd Hs),
          (parse_dt_strftime_seconds sub Hv Hys).
  unfold gtb. now apply ltb_timestamp.
Qed.



Lemma StronglySorted_weaken {A : Type} (R R' : A -> A -> Prop) (l : list A) :
  (forall a b, In a l -> In b l -> R a b -> R' a b) ->
  StronglySorted R l -> StronglySorted R' l.
Proof.
  intros H Hs. induction Hs as [|x l Hs IH Hx]; [constructor|].
  constructor.
  - apply IH. intros a b Ha Hb. apply H; now right.
  - rewrite List.Forall_forall in *. intros y Hy. apply H; [now left|now right|auto].
Qed.

End Calendar.

Section Properties.
Context {L : Library}.

(** ** The upload handler, case by case *)

Lemma student_dashboard_post (e : env) (sd : session_data) (req : request) (st : state) :
  s_role sd = "student" -> method req = POST ->
  student_dashboard e (Some sd) req st = student_post e (s_user_id sd) req st.
Proof.
  intros Hr Hm. unfold student_dashboard, login_required.
  rewrite Hr, Hm. reflexivity.
Qed.

Lemma student_post_outcome (e : env) (student_id : Z) (req : request) (st : state) :
  upload_outcome e student_id req st (student_post e student_id req st).
Proof.
  unfold student_post.
  destruct (PyStr.truthy (field "assignment_id" req)) eqn:Ha; simpl.
  2:{ apply uo_no_assignment. now apply truthy_false. }
  apply truthy_true in Ha.
  destruct (upload req !! "pdf_file") as [f|] eqn:Hf.
  2:{ apply uo_no_file; auto. }
  destruct (String.eqb_spec (filename f) "") as [Hn|Hn].
  { apply uo_no_file; eauto. }
  destruct (allowed_file (filename f)) eqn:Hx; simpl.
  2:{ apply (uo_extension _ _ _ _ f); auto.
      rewrite <- allowed_file_spec. congruence. }
  apply allowed_file_spec in Hx.
  destruct (is_pdf_content f) eqn:Hc; simpl.
  2:{ apply (uo_content _ _ _ _ f); auto.
      rewrite <- is_pdf_content_spec. congruence. }
  apply is_pdf_content_spec in Hc.
  assert (well_formed_upload req f) as Hw by (unfold well_formed_upload; auto).
  destruct (fetchone _ (assignments (db st))) as [a|] eqn:Hq.
  - now apply uo_stored.
  - now apply (uo_unknown_assignment _ _ _ _ f).
Qed.

Lemma fetchone_none {A : Type} (p : A -> bool) (rows : list A) :
  fetchone p rows = None <-> forall r, In r rows -> p r = false.
Proof.
  unfold fetchone. split.
  - intros H r. now apply find_none.
  - intros H. destruct (List.find p rows) as [r|] eqn:E; [|reflexivity].
    apply find_some in E as [Hin Hp]. rewrite (H r Hin) in Hp. discriminate.
Qed.

Lemma fetchone_some {A : Type} (p : A -> bool) (rows : list A) (x : A) :
  fetchone p rows = Some x -> In x rows /\ p x = true.
Proof. apply find_some. Qed.

(** C3. A POST to the student dashboard is refused with a validation
    error when the assignment id is missing, when the file is missing or
    has an empty name, when its name has no [pdf] extension (compared in
    lower case), or when its first four bytes are not [%PDF]; an upload
    that passes these checks is refused with a not-found error when the
    assignment id names no assignment.  In every such case the state, and
    so the submission table, is the one before the request. *)
Theorem submit_refusals (e : env) (sd : session_data) (req : request) (st : state) :
  s_role sd = "student" -> method req = POST ->
  let assignment_id := field "assignment_id" req in
  let file := upload req !! "pdf_file" in
  let out := student_dashboard e (Some sd) req st in
  ((assignment_id = ""
    \/ file = None
    \/ (exists f, file = Some f
                  /\ (filename f = ""
                      \/ ~ has_pdf_extension (filename f)
                      \/ firstn 4 (stream f) <> PDF_MAGIC)))
   -> error_of (fst out) = Some ValidationError /\ snd out = st)
  /\ ((exists f, well_formed_upload req f)
      -> (forall a, In a (assignments (db st))
                    -> int_eq_text (asg_id a) assignment_id = false)
      -> fst out = flash_redirect "Assignment not found." "error" ep_student_dashboard
         /\ error_of (fst out) = Some NotFoundError /\ snd out = st).
Proof.
  intros Hr Hm assignment_id file out. subst out.
  rewrite (student_dashboard_post e sd req st Hr Hm).
  pose proof (student_post_outcome e (s_user_id sd) req st) as Ho.
  split.
  - intros Hbad.
    inversion Ho as [Ha Heq|Ha Hf Heq|f Ha Hf Hn Hx Heq|f Ha Hf Hn Hx Hc Heq
                    |f Hw Hq Heq|f a Hw Hq Heq]; simpl; try (split; reflexivity).
    + exfalso. destruct Hw as (Ha & Hf & Hn & Hx & Hc).
      destruct Hbad as [Hb|[Hb|(g & Hg & Hb)]]; subst assignment_id file;
        try congruence.
      assert (g = f) as -> by congruence. tauto.
    + exfalso. destruct Hw as (Ha & Hf & Hn & Hx & Hc).
      destruct Hbad as [Hb|[Hb|(g & Hg & Hb)]]; subst assignment_id file;
        try congruence.
      assert (g = f) as -> by congruence. tauto.
  - intros [f Hw] Hnone.
    assert (fetchone (fun a => int_eq_text (asg_id a) (field "assignment_id" req))
                     (assignments (db st)) = None) as Hq
      by (apply fetchone_none; exact Hnone).
    destruct Hw as (Ha & Hf & Hn & Hx & Hc).
    apply allowed_file_spec in Hx. apply is_pdf_content_spec in Hc.
    apply truthy_true in Ha. apply String.eqb_neq in Hn.
    unfold student_post. rewrite Ha, Hf, Hn, Hx, Hc, Hq. simpl. auto.
Qed.

(** C10. An upload that does not end in the success response leaves the
    whole state as it was, so every submission row (a Pending one of the
    same student and assignment included) and every stored file is
    untouched; and the state changes only when the request comes from a
    student session, is a POST, passes the four checks on its form and
    names an existing assignment. *)
Theorem failed_submit_keeps_state (e : env) (sess : session) (req : request)
    (st : state) :
  let out := student_dashboard e sess req st in
  (fst out <> SUBMITTED -> snd out = st)
  /\ (fst out <> SUBMITTED ->
      forall r, In r (submissions (db st)) ->
                In r (submissions (db (snd out)))
                /\ files (snd out) !! sub_file_name r = files st !! sub_file_name r)
  /\ (snd out <> st ->
      exists sd f a,
        sess = Some sd /\ s_role sd = "student" /\ method req = POST
        /\ well_formed_upload req f
        /\ fetchone (fun a => int_eq_text (asg_id a) (field "assignment_id" req))
                    (assignments (db st)) = Some a).
Proof.
  intros out.
  assert (snd out = st
          \/ (fst out = SUBMITTED /\
              exists sd f a,
                sess = Some sd /\ s_role sd = "student" /\ method req = POST
                /\ well_formed_upload req f
                /\ fetchone (fun a => int_eq_text (asg_id a) (field "assignment_id" req))
                            (assignments (db st)) = Some a)) as Hcases.
  { subst out. unfold student_dashboard, login_required.
    destruct sess as [sd|]; [|left; reflexivity]. simpl.
    destruct (String.eqb_spec (s_role sd) "student") as [Hr|Hr]; simpl;
      [|left; reflexivity].
    destruct (method req) eqn:Hm; [left; reflexivity|].
    pose proof (student_post_outcome e (s_user_id sd) req st) as Ho.
    inversion Ho; simpl; try (left; reflexivity).
    right. split; [reflexivity|]. eauto 10. }
  repeat split.
  - intros Hne. destruct Hcases as [H|[H _]]; [exact H|contradiction].
  - destruct Hcases as [H'|[H' _]]; [rewrite H'; assumption|contradiction].
  - destruct Hcases as [H'|[H' _]]; [rewrite H'; reflexivity|contradiction].
  - intros Hne. destruct Hcases as [H|[_ H]]; [contradiction|exact H].
Qed.

(** ** What every reachable store satisfies *)

Lemma NoDup_map_filter {A B : Type} (f : A -> B) (p : A -> bool) (l : list A) :
  List.NoDup (map f l) -> List.NoDup (map f (List.filter p l)).
Proof.
  induction l as [|x l IH]; simpl; intros H; [constructor|].
  apply List.NoDup_cons_iff in H as [Hx Hl].
  destruct (p x); simpl; auto.
  apply List.NoDup_cons_iff. split; auto.
  intros Hin. apply Hx.
  apply in_map_iff in Hin as (y & <- & Hy). apply List.filter_In in Hy as [Hy _].
  now apply in_map.
Qed.

Lemma NoDup_map_snoc {A B : Type} (f : A -> B) (l : list A) (x : A) :
  List.NoDup (map f l) -> ~ In (f x) (map f l) -> List.NoDup (map f (l ++ [x])).
Proof.
  intros Hl Hx. rewrite map_app. simpl.
  apply List.NoDup_rev in Hl. rewrite <- (rev_involutive (map f l ++ [f x])).
  apply List.NoDup_rev. rewrite rev_app_distr. simpl.
  apply List.NoDup_cons_iff. split; auto.
  intros Hin. apply Hx. now apply in_rev.
Qed.

Lemma filter_length_le {A : Type} (p : A -> bool) (l : list A) :
  (length (List.filter p l) <= length l)%nat.
Proof. induction l as [|x l IH]; simpl; [lia|]. destruct (p x); simpl; lia. Qed.

Lemma filter_filter_le {A : Type} (p q : A -> bool) (l : list A) :
  (length (List.filter p (List.filter q l)) <= length (List.filter p l))%nat.
Proof.
  induction l as [|x l IH]; simpl; [lia|].
  destruct (q x); simpl; destruct (p x); simpl; lia.
Qed.

Lemma existsb_false_not_in (us : list user) (email : string) :
  existsb (fun u => String.eqb (user_email u) email) us = false ->
  ~ In email (map user_email us).
Proof.
  intros H Hin. apply in_map_iff in Hin as (u & <- & Hu).
  assert (existsb (fun v => String.eqb (user_email v) (user_email u)) us = true) as C.
  { apply existsb_exists. exists u. split; auto. apply String.eqb_refl. }
  congruence.
Qed.

Lemma insert_user_ok (name email password role : string) (d d' : database) :
  store_ok d -> insert_user name email password role d = Some d' -> store_ok d'.
Proof.
  intros [H1 H2 H3 H4]. unfold insert_user.
  destruct (existsb _ (users d)) eqn:E; [discriminate|].
  intros H. injection H as <-. constructor; simpl; auto.
  apply NoDup_map_snoc; auto. simpl. now apply existsb_false_not_in.
Qed.

Lemma insert_assignment_ok (title description deadline : string) (d d' : database) :
  store_ok d -> insert_assignment title description deadline d = Some d' ->
  store_ok d'.
Proof.
  intros [H1 H2 H3 H4]. unfold insert_assignment.
  destruct (existsb _ (assignments d)); [discriminate|].
  intros H. injection H as <-. constructor; simpl; auto.
Qed.

Lemma skip_user_ok (d : database) : store_ok d -> store_ok (skip_user d).
Proof. intros [H1 H2 H3 H4]. constructor; simpl; auto. Qed.

Lemma skip_assignment_ok (d : database) : store_ok d -> store_ok (skip_assignment d).
Proof. intros [H1 H2 H3 H4]. constructor; simpl; auto. Qed.

Lemma or_ignore_ok (ins : database -> option database) (skipped : database -> database)
    (d : database) :
  (forall d', ins d = Some d' -> store_ok d') -> store_ok (skipped d) ->
  store_ok (or_ignore ins skipped d).
Proof. unfold or_ignore. intros H Hd. destruct (ins d); auto. Qed.

Lemma seed_data_ok (salt : string) (d : database) :
  store_ok d -> store_ok (seed_data salt d).
Proof.
  intros Hd. unfold seed_data.
  assert (forall (l : list (string * string * string)) d0, store_ok d0 ->
            store_ok (fold_left (fun acc '(title, description, deadline) =>
               or_ignore (insert_assignment title description deadline) skip_assignment acc) l d0)) as HA.
  { induction l as [|[[t ds] dl] l IH]; simpl; intros d0 H0; auto.
    apply IH. apply or_ignore_ok; [|now apply skip_assignment_ok].
    intros d'. now apply insert_assignment_ok. }
  assert (forall (l : list (string * string * string * string)) d0, store_ok d0 ->
            store_ok (fold_left (fun acc '(name, email, password, role) =>
               or_ignore (insert_user name email (hash_password salt password) role) skip_user acc)
               l d0)) as HU.
  { induction l as [|[[[n em] pw] ro] l IH]; simpl; intros d0 H0; auto.
    apply IH. apply or_ignore_ok; [|now apply skip_user_ok].
    intros d'. now apply insert_user_ok. }
  apply HA, HU, Hd.
Qed.

Lemma empty_db_ok : store_ok empty_db.
Proof.
  constructor; simpl; [constructor | constructor | constructor |].
  intros stu asg. unfold pending_count. simpl. lia.
Qed.

Lemma update_password_ok (i : Z) (password : string) (d : database) :
  store_ok d -> store_ok (update_password i password d).
Proof.
  intros [H1 H2 H3 H4]. constructor; simpl; auto.
  rewrite map_map.
  erewrite map_ext; [exact H3|]. intros u. simpl. now destruct (user_id u =? i).
Qed.

Lemma insert_login_log_ok (uid : Z) (t : string) (d : database) :
  store_ok d -> store_ok (insert_login_log uid t d).
Proof. intros [H1 H2 H3 H4]. constructor; simpl; auto. Qed.

Lemma delete_submission_row_ok (i : Z) (d : database) :
  store_ok d -> store_ok (delete_submission_row i d).
Proof.
  intros [H1 H2 H3 H4]. constructor; simpl; auto.
  - now apply NoDup_map_filter.
  - apply List.Forall_forall. intros r Hr. apply List.filter_In in Hr as [Hr _].
    rewrite List.Forall_forall in H2. now apply H2.
  - intros stu asg. unfold pending_count. simpl.
    etransitivity; [apply filter_filter_le|apply H4].
Qed.

Lemma filter_snoc {A : Type} (p : A -> bool) (l : list A) (x : A) :
  List.filter p (l ++ [x]) = List.filter p l ++ (if p x then [x] else []).
Proof. rewrite List.filter_app. reflexivity. Qed.

Lemma insert_submission_ok (stu asg : Z) (name t : string) (d : database) :
  store_ok d -> pending_count stu asg d = 0%nat ->
  store_ok (insert_submission stu asg name t d).
Proof.
  intros [H1 H2 H3 H4] H0. constructor; simpl; auto.
  - apply NoDup_map_snoc; auto. simpl. intros Hin.
    apply in_map_iff in Hin as (r & Hr & Hin).
    rewrite List.Forall_forall in H2. specialize (H2 r Hin). lia.
  - apply List.Forall_app. split.
    + eapply List.Forall_impl; [|exact H2]. simpl. intros r Hr. lia.
    + constructor; [simpl; lia|constructor].
  - intros stu' asg'. unfold pending_count. simpl. rewrite filter_snoc.
    rewrite length_app.
    destruct (is_pending_for stu' asg' _) eqn:E; simpl.
    + unfold is_pending_for in E. simpl in E.
      apply andb_true_iff in E as [E _]. apply andb_true_iff in E as [Es Ea].
      apply Z.eqb_eq in Es, Ea. subst stu' asg'.
      unfold pending_count in H0. rewrite H0. lia.
    + specialize (H4 stu' asg'). unfold pending_count in H4. lia.
Qed.

Lemma filter_map_le {A : Type} (p : A -> bool) (f : A -> A) (l : list A) :
  (forall r, p (f r) = true -> p r = true) ->
  (length (List.filter p (map f l)) <= length (List.filter p l))%nat.
Proof.
  intros H. induction l as [|x l IH]; simpl; [lia|].
  destruct (p (f x)) eqn:E; simpl.
  - rewrite (H x E). simpl. lia.
  - destruct (p x); simpl; lia.
Qed.

Lemma update_review_ok (cond : submission -> bool) (status comment t : string)
    (who : Z) (d : database) :
  status <> "Pending" -> store_ok d ->
  store_ok (update_review cond status comment t who d).
Proof.
  intros Hs [H1 H2 H3 H4]. constructor; simpl; auto.
  - rewrite map_map. erewrite map_ext; [exact H1|].
    intros r. simpl. now destruct (cond r).
  - apply List.Forall_forall. intros r Hr. apply in_map_iff in Hr as (r0 & <- & Hr0).
    rewrite List.Forall_forall in H2. specialize (H2 r0 Hr0).
    now destruct (cond r0).
  - intros stu asg. unfold pending_count. simpl.
    etransitivity; [apply filter_map_le|apply H4].
    intros r. destruct (cond r); auto. unfold is_pending_for. simpl.
    intros E. apply andb_true_iff in E as [_ E]. apply String.eqb_eq in E.
    contradiction.
Qed.

(** Removing, from a list with at most one row that satisfies [p], a row
    that satisfies [p] leaves none. *)
Lemma filter_remove_unique {A : Type} (p q : A -> bool) (l : list A) (x : A) :
  (length (List.filter p l) <= 1)%nat -> In x l -> p x = true -> q x = false ->
  length (List.filter p (List.filter q l)) = 0%nat.
Proof.
  induction l as [|y l IH]; simpl; intros Hle Hin Hp Hq; [reflexivity|].
  destruct (p y) eqn:Epy; simpl in Hle.
  - assert (length (List.filter p l) = 0%nat) as Hz by lia.
    destruct Hin as [->|Hin].
    + rewrite Hq. pose proof (filter_filter_le p q l). lia.
    + exfalso. assert (In x (List.filter p l)) as Hx by (apply List.filter_In; auto).
      destruct (List.filter p l); [inversion Hx|discriminate].
  - destruct Hin as [->|Hin]; [congruence|].
    destruct (q y); simpl; [rewrite Epy|]; auto.
Qed.

Lemma int_eq_text_spec (text : string) (n column : Z) :
  sql_integer text = Some n -> int_eq_text column text = (column =? n).
Proof. unfold int_eq_text. now intros ->. Qed.

Lemma int_eq_text_true (text : string) (column : Z) :
  int_eq_text column text = true -> sql_integer text = Some column.
Proof.
  unfold int_eq_text. destruct (sql_integer text) as [n|]; [|discriminate].
  intros H. apply Z.eqb_eq in H. congruence.
Qed.

(** The query for the old Pending row is the test [is_pending_for]. *)
Lemma pending_query (stu asg : Z) (text : string) (rows : list submission) :
  sql_integer text = Some asg ->
  fetchone (fun r => (sub_student_id r =? stu)
                     && int_eq_text (sub_assignment_id r) text
                     && String.eqb (sub_status r) "Pending") rows
  = fetchone (is_pending_for stu asg) rows.
Proof.
  intros H. unfold fetchone. induction rows as [|r rows IH]; simpl; auto.
  rewrite (int_eq_text_spec text asg _ H). fold (is_pending_for stu asg r).
  now rewrite IH.
Qed.

Lemma replace_pending_ok (stu asg : Z) (text : string) (st : state) :
  sql_integer text = Some asg -> store_ok (db st) ->
  store_ok (db (replace_pending stu text st))
  /\ pending_count stu asg (db (replace_pending stu text st)) = 0%nat.
Proof.
  intros Ht Hok. unfold replace_pending.
  rewrite (pending_query stu asg text _ Ht).
  destruct (fetchone (is_pending_for stu asg) (submissions (db st))) as [old|] eqn:E.
  - simpl. split; [now apply delete_submission_row_ok|].
    unfold fetchone in E. apply find_some in E as [Hin Hp].
    unfold pending_count. simpl.
    apply (filter_remove_unique _ _ _ old); auto.
    + apply (ok_pending _ Hok).
    + rewrite Z.eqb_refl. reflexivity.
  - split; auto. unfold pending_count.
    destruct (List.filter _ _) as [|r l] eqn:F; [reflexivity|].
    assert (In r (List.filter (is_pending_for stu asg) (submissions (db st)))) as Hr
      by (rewrite F; now left).
    apply List.filter_In in Hr as [Hr Hp].
    apply fetchone_none with (r := r) in E; auto. congruence.
Qed.

Lemma student_post_ok (e : env) (stu : Z) (req : request) (st : state) :
  store_ok (db st) -> store_ok (db (snd (student_post e stu req st))).
Proof.
  intros Hok. pose proof (student_post_outcome e stu req st) as Ho.
  inversion Ho as [| | | | |f a Hw Hq Heq]; simpl; auto.
  unfold fetchone in Hq. apply find_some in Hq as [_ Hq].
  apply int_eq_text_true in Hq.
  destruct (replace_pending_ok stu (asg_id a) _ st Hq Hok) as [Hok' Hz].
  now apply insert_submission_ok.
Qed.

Lemma login_required_ok {A : Type} (role : option string) (sess : session)
    (deny : response -> A) (view : session_data -> A) (P : A -> Prop) :
  (forall r, P (deny r)) -> (forall sd, P (view sd)) ->
  P (login_required role sess deny view).
Proof.
  intros Hd Hv. unfold login_required. destruct sess as [sd|]; auto.
  destruct role as [r|]; auto.
  destruct (PyStr.truthy r && negb (String.eqb (s_role sd) r)); auto.
Qed.

Lemma handle_ok (e : env) (sess : session) (c : call) (st : state) :
  store_ok (db st) -> store_ok (db (snd (handle e sess c st))).
Proof.
  intros Hok. destruct c as [req|req| |req|i|req|name]; simpl.
  - unfold register. destruct (method req); simpl; auto.
    destruct (_ || _); simpl; auto.
    destruct (insert_user _ _ _ _ (db st)) as [d|] eqn:E; simpl; auto.
    eapply insert_user_ok; eauto.
  - unfold login. destruct (method req); simpl; auto.
    destruct (fetchone _ (users (db st))) as [u|]; simpl; auto.
    destruct (verify_password _ _) as [[|] up]; simpl; auto.
    apply insert_login_log_ok. destruct up; auto. now apply update_password_ok.
  - exact Hok.
  - destruct (student_dashboard e sess req st) as [r st'] eqn:E. simpl.
    change st' with (snd (r, st')). rewrite <- E. unfold student_dashboard.
    apply (login_required_ok _ _ _ _ (fun x => store_ok (db (snd x)))); auto.
    intros sd. destruct (method req); simpl; auto. now apply student_post_ok.
  - destruct (delete_submission sess i st) as [r st'] eqn:E. simpl.
    change st' with (snd (r, st')). rewrite <- E. unfold delete_submission.
    apply (login_required_ok _ _ _ _ (fun x => store_ok (db (snd x)))); auto.
    intros sd. destruct (fetchone _ _) as [row|]; simpl; auto.
    destruct (negb _); simpl; auto. now apply delete_submission_row_ok.
  - destruct (faculty_dashboard e sess req st) as [r st'] eqn:E. simpl.
    change st' with (snd (r, st')). rewrite <- E. unfold faculty_dashboard.
    apply (login_required_ok _ _ _ _ (fun x => store_ok (db (snd x)))); auto.
    intros sd. destruct (method req); simpl; auto.
    destruct (String.eqb _ "review").
    + unfold faculty_review.
      destruct (existsb _ _) eqn:Ex; simpl; auto.
      destruct (fetchone _ (submissions (db st))); simpl; auto.
      apply update_review_ok; auto.
      intros Heq. rewrite Heq in Ex. discriminate.
    + destruct (String.eqb _ "assignment"); simpl; auto.
      unfold faculty_create. destruct (_ || _); simpl; auto.
      destruct (DateTime.strptime _ _); simpl; auto.
      destruct (insert_assignment _ _ _ (db st)) eqn:Ei; simpl; auto.
      eapply insert_assignment_ok; eauto.
  - exact Hok.
Qed.

(** Every reachable store satisfies [store_ok]. *)
Lemma reachable_ok (st : state) : reachable st -> store_ok (db st).
Proof.
  induction 1 as [salt|e sess c st _ IH|salt st _ IH].
  - simpl. apply seed_data_ok, empty_db_ok.
  - now apply handle_ok.
  - simpl. now apply seed_data_ok.
Qed.

(** Every stored deadline is canonical: the seed rows have such deadlines,
    and a created assignment gets the parsed time printed to the minute. *)
Lemma insert_assignment_canonical (title description deadline : string)
    (d d' : database) :
  deadlines_canonical d -> canonical_deadline deadline ->
  insert_assignment title description deadline d = Some d' ->
  deadlines_canonical d'.
Proof.
  unfold deadlines_canonical, insert_assignment. intros Hd Hc.
  destruct (existsb _ (assignments d)); [discriminate|].
  intros [= <-]. simpl. apply List.Forall_app. split; [exact Hd|].
  constructor; [exact Hc|constructor].
Qed.

Lemma seed_data_canonical (salt : string) (d : database) :
  deadlines_canonical d -> deadlines_canonical (seed_data salt d).
Proof.
  intros Hd. unfold seed_data.
  assert (forall (l : list (string * string * string * string)) d0,
            deadlines_canonical d0 ->
            deadlines_canonical
              (fold_left (fun acc '(name, email, password, role) =>
                 or_ignore (insert_user name email (hash_password salt password) role) skip_user acc)
                 l d0)) as HU.
  { induction l as [|[[[n em] pw] ro] l IH]; simpl; intros d0 H0; auto.
    apply IH. unfold or_ignore, insert_user.
    destruct (existsb _ (users d0)); auto. }
  assert (forall (l : list (string * string * string)) d0,
            Forall (fun x => canonical_deadline (snd x)) l ->
            deadlines_canonical d0 ->
            deadlines_canonical
              (fold_left (fun acc '(title, description, deadline) =>
                 or_ignore (insert_assignment title description deadline) skip_assignment acc) l d0))
    as HA.
  { induction l as [|[[t ds] dl] l IH]; simpl; intros d0 Hl H0; auto.
    apply List.Forall_cons_iff in Hl as [Hx Hl]. apply IH; auto.
    unfold or_ignore.
    destruct (insert_assignment t ds dl d0) as [d1|] eqn:E; auto.
    eapply insert_assignment_canonical; eauto. }
  apply HA; [|apply HU, Hd].
  unfold SEED_ASSIGNMENTS. repeat constructor; simpl.
  - exists (DateTime.mkDT 2026 3 5 23 59 0). repeat split; reflexivity.
  - exists (DateTime.mkDT 2026 3 10 23 59 0). repeat split; reflexivity.
  - exists (DateTime.mkDT 2026 3 14 23 59 0). repeat split; reflexivity.
Qed.

Lemma handle_canonical (e : env) (sess : session) (c : call) (st : state) :
  deadlines_canonical (db st) -> deadlines_canonical (db (snd (handle e sess c st))).
Proof.
  intros Hok. destruct c as [req|req| |req|i|req|name]; simpl.
  - unfold register. destruct (method req); simpl; auto.
    destruct (_ || _); simpl; auto.
    unfold insert_user. destruct (existsb _ (users (db st))); simpl; auto.
  - unfold login. destruct (method req); simpl; auto.
    destruct (fetchone _ (users (db st))) as [u|]; simpl; auto.
    destruct (verify_password _ _) as [[|] [|]]; simpl; auto.
  - exact Hok.
  - destruct (student_dashboard e sess req st) as [r st'] eqn:E. simpl.
    change st' with (snd (r, st')). rewrite <- E. unfold student_dashboard.
    apply (login_required_ok _ _ _ _ (fun x => deadlines_canonical (db (snd x)))); auto.
    intros sd. destruct (method req); simpl; auto.
    pose proof (student_post_outcome e (s_user_id sd) req st) as Ho.
    inversion Ho; simpl; auto.
    unfold deadlines_canonical, replace_pending. simpl.
    destruct (fetchone _ (submissions (db st))); simpl; exact Hok.
  - destruct (delete_submission sess i st) as [r st'] eqn:E. simpl.
    change st' with (snd (r, st')). rewrite <- E. unfold delete_submission.
    apply (login_required_ok _ _ _ _ (fun x => deadlines_canonical (db (snd x)))); auto.
    intros sd. destruct (fetchone _ _) as [row|]; simpl; auto.
    destruct (negb _); simpl; auto.
  - destruct (faculty_dashboard e sess req st) as [r st'] eqn:E. simpl.
    change st' with (snd (r, st')). rewrite <- E. unfold faculty_dashboard.
    apply (login_required_ok _ _ _ _ (fun x => deadlines_canonical (db (snd x)))); auto.
    intros sd. destruct (method req); simpl; auto.
    destruct (String.eqb _ "review").
    + unfold faculty_review.
      destruct (negb _); simpl; auto.
      destruct (fetchone _ (submissions (db st))); simpl; auto.
    + destruct (String.eqb _ "assignment"); simpl; auto.
      unfold faculty_create. destruct (_ || _); simpl; auto.
      destruct (DateTime.strptime _ _) as [t|] eqn:Et; simpl; auto.
      destruct (insert_assignment _ _ _ (db st)) eqn:Ei; simpl; auto.
      eapply insert_assignment_canonical; eauto.
      exists t. split; [exact (strptime_valid _ _ _ Et)|].
      split; [exact (strptime_local_second _ _ Et)|reflexivity].
  - exact Hok.
Qed.

Lemma reachable_canonical (st : state) : reachable st -> deadlines_canonical (db st).
Proof.
  induction 1 as [salt|e sess c st _ IH|salt st _ IH].
  - simpl. apply seed_data_canonical. constructor.
  - now apply handle_canonical.
  - simpl. now apply seed_data_canonical.
Qed.

(** ** C1: one Pending submission per student and assignment *)

Lemma find_unique {A : Type} (p : A -> bool) (l : list A) (x : A) :
  (length (List.filter p l) <= 1)%nat -> In x l -> p x = true ->
  List.find p l = Some x.
Proof.
  induction l as [|y l IH]; simpl; intros Hle Hin Hp; [contradiction|].
  destruct (p y) eqn:Epy; simpl in Hle.
  - destruct Hin as [->|Hin]; [reflexivity|]. exfalso.
    assert (In x (List.filter p l)) as Hx by (apply List.filter_In; auto).
    destruct (List.filter p l); [inversion Hx|simpl in Hle; lia].
  - destruct Hin as [->|Hin]; [congruence|]. auto.
Qed.

Lemma NoDup_map_eq {A B : Type} (f : A -> B) (l : list A) (x y : A) :
  List.NoDup (map f l) -> In x l -> In y l -> f x = f y -> x = y.
Proof.
  induction l as [|z l IH]; simpl; intros Hnd Hx Hy Hf; [contradiction|].
  apply List.NoDup_cons_iff in Hnd as [Hz Hnd].
  destruct Hx as [->|Hx], Hy as [->|Hy]; auto.
  - exfalso. apply Hz. rewrite Hf. now apply in_map.
  - exfalso. apply Hz. rewrite <- Hf. now apply in_map.
Qed.


Lemma remove_if_present_gone (name : string) (fs : uploads) :
  remove_if_present name fs !! name = None.
Proof.
  unfold remove_if_present, os_remove.
  destruct (fs !! name) eqn:E; [apply lookup_delete_eq|exact E].
Qed.

Lemma remove_if_present_other (name name' : string) (fs : uploads) :
  name <> name' -> remove_if_present name fs !! name' = fs !! name'.
Proof.
  intros Hne. unfold remove_if_present, os_remove.
  destruct (fs !! name); [now apply lookup_delete_ne|reflexivity].
Qed.

(** The row and the file that an upload adds. *)
Lemma store_new_rows (e : env) (stu asg : Z) (text : string) (f : file_storage)
    (st : state) :
  submissions (db (store_new e stu asg text f st))
  = submissions (db st)
    ++ [mkSubmission (seq_submissions (db st) + 1) stu asg
          (final_name e stu text f) (now_text e) "Pending" "" "" None].
Proof. reflexivity. Qed.

(** The replacement step, when a Pending row [old] of the pair exists. *)
Lemma replace_pending_some (stu asg : Z) (text : string) (st : state)
    (old : submission) :
  sql_integer text = Some asg -> store_ok (db st) ->
  In old (submissions (db st)) -> is_pending_for stu asg old = true ->
  replace_pending stu text st
  = mkState (delete_submission_row (sub_id old) (db st))
            (remove_if_present (sub_file_name old) (files st)).
Proof.
  intros Ht Hok Hin Hp. unfold replace_pending.
  rewrite (pending_query stu asg text _ Ht). unfold fetchone.
  rewrite (find_unique _ _ old); auto. apply (ok_pending _ Hok).
Qed.

Lemma replace_pending_none (stu asg : Z) (text : string) (st : state) :
  sql_integer text = Some asg ->
  (forall r, In r (submissions (db st)) -> is_pending_for stu asg r = false) ->
  replace_pending stu text st = st.
Proof.
  intros Ht Hnone. unfold replace_pending.
  rewrite (pending_query stu asg text _ Ht).
  apply fetchone_none in Hnone. now rewrite Hnone.
Qed.


Lemma replace_pending_seq (stu : Z) (text : string) (st : state) :
  seq_submissions (db (replace_pending stu text st)) = seq_submissions (db st).
Proof.
  unfold replace_pending. now destruct (fetchone _ (submissions (db st))).
Qed.

Lemma submitted_inv (e : env) (stu : Z) (req : request) (st : state) :
  fst (student_post e stu req st) = SUBMITTED ->
  exists (f : file_storage) (a : assignment),
    well_formed_upload req f
    /\ fetchone (fun a => int_eq_text (asg_id a) (field "assignment_id" req))
                (assignments (db st)) = Some a
    /\ sql_integer (field "assignment_id" req) = Some (asg_id a)
    /\ snd (student_post e stu req st)
       = store_new e stu (asg_id a) (field "assignment_id" req) f
           (replace_pending stu (field "assignment_id" req) st).
Proof.
  pose proof (student_post_outcome e stu req st) as Ho.
  inversion Ho as [| | | | |f a Hw Hq Heq]; simpl; try discriminate.
  intros _. exists f, a. split; [exact Hw|]. split; [exact Hq|].
  split; [|reflexivity].
  unfold fetchone in Hq. apply find_some in Hq as [_ Hq].
  now apply int_eq_text_true.
Qed.



(** ** C4: deleting a submission *)

Lemma find_by_key {A B : Type} (f : A -> B) (p : A -> bool) (l : list A) (x : A) :
  List.NoDup (map f l) -> In x l -> p x = true ->
  (forall y, p y = true -> f y = f x) ->
  List.find p l = Some x.
Proof.
  induction l as [|y l IH]; simpl; intros Hnd Hin Hp Hk; [contradiction|].
  apply List.NoDup_cons_iff in Hnd as [Hy Hnd].
  destruct (p y) eqn:Epy.
  - destruct Hin as [->|Hin]; [reflexivity|].
    exfalso. apply Hy. rewrite (Hk y Epy). now apply in_map.
  - destruct Hin as [->|Hin]; [congruence|]. auto.
Qed.

(** C4. For a student session, a table whose ids are distinct (they are
    the primary key) and an id that SQLite can bind (a signed 64-bit
    integer), deleting submission [submission_id]: is
    refused as not found when no row has both that id and that student
    (so also when the row with that id belongs to someone else); is
    refused as forbidden, with a message of its own, when the student's
    row is not Pending; and otherwise succeeds, whether or not the file
    is still there: afterwards the file is absent, the other files are
    as before, and the table has lost exactly the rows with that id. *)
Theorem delete_submission_outcomes (sd : session_data) (submission_id : Z)
    (st : state) :
  s_role sd = "student" -> List.NoDup (map sub_id (submissions (db st))) ->
  sqlite_int submission_id ->
  let out := delete_submission (Some sd) submission_id st in
  ((forall r, In r (submissions (db st)) ->
              ~ (sub_id r = submission_id /\ sub_student_id r = s_user_id sd)) ->
   fst out = flash_redirect "Submission not found." "error" ep_student_dashboard
   /\ error_of (fst out) = Some NotFoundError
   /\ snd out = st)
  /\ (forall row, In row (submissions (db st)) ->
        sub_id row = submission_id -> sub_student_id row = s_user_id sd ->
        (sub_status row <> "Pending" ->
         fst out = flash_redirect "You can delete only pending submissions." "error"
                                  ep_student_dashboard
         /\ error_of (fst out) = Some AuthorizationError
         /\ fst out <> flash_redirect "Submission not found." "error"
                                      ep_student_dashboard
         /\ snd out = st)
        /\ (sub_status row = "Pending" ->
            fst out = flash_redirect "Submission deleted." "success"
                                     ep_student_dashboard
            /\ (forall r, In r (submissions (db (snd out))) <->
                          In r (submissions (db st)) /\ sub_id r <> submission_id)
            /\ ~ In row (submissions (db (snd out)))
            /\ files (snd out) !! sub_file_name row = None
            /\ (forall name, name <> sub_file_name row ->
                             files (snd out) !! name = files st !! name))).
Proof.
  intros Hr Hok _ out. subst out. unfold delete_submission, login_required.
  rewrite Hr. simpl. split.
  - intros Hnone.
    assert (fetchone (fun r => (sub_id r =? submission_id)
                               && (sub_student_id r =? s_user_id sd))
                     (submissions (db st)) = None) as ->.
    { apply fetchone_none. intros r Hin. specialize (Hnone r Hin).
      apply not_true_is_false. intros H. apply Hnone.
      apply andb_true_iff in H as [H1 H2]. apply Z.eqb_eq in H1, H2. auto. }
    simpl. auto.
  - intros row Hin Hid Hst.
    assert (fetchone (fun r => (sub_id r =? submission_id)
                               && (sub_student_id r =? s_user_id sd))
                     (submissions (db st)) = Some row) as ->.
    { unfold fetchone. apply (find_by_key sub_id); auto.
      - rewrite Hid, Hst, !Z.eqb_refl. reflexivity.
      - intros y Hy. apply andb_true_iff in Hy as [Hy _].
        apply Z.eqb_eq in Hy. congruence. }
    split.
    + intros Hs. apply String.eqb_neq in Hs. rewrite Hs. simpl.
      repeat split; auto; discriminate.
    + intros Hs. rewrite Hs. simpl. split; [reflexivity|].
      assert (forall r, In r (List.filter
                                (fun r => negb (sub_id r =? submission_id))
                                (submissions (db st))) <->
                        In r (submissions (db st)) /\ sub_id r <> submission_id) as Hrows.
      { intros r. rewrite List.filter_In, negb_true_iff, Z.eqb_neq. tauto. }
      split; [exact Hrows|]. split.
      * intros H. apply Hrows in H. tauto.
      * split; [apply remove_if_present_gone|].
        intros name Hne. apply remove_if_present_other. congruence.
Qed.

(** ** C5: downloading a file *)

(** C5. For a logged-in requester, a download of [filename]: is refused
    as not found when no submission records that name; and when the
    lookup by name yields the submission [row], is refused as forbidden
    for a student who is not [row]'s student, and goes on to
    [send_from_directory] for that student and for any faculty member,
    which serves the file when it is in the upload directory. *)
Theorem download_file_outcomes (sd : session_data) (filename : string) (st : state) :
  let out := download_file (Some sd) filename st in
  ((forall r, In r (submissions (db st)) -> sub_file_name r <> filename) ->
   out = flash_redirect "File not found." "error" ep_dashboard
   /\ error_of out = Some NotFoundError)
  /\ (forall row,
        fetchone (fun r => String.eqb (sub_file_name r) filename)
                 (submissions (db st)) = Some row ->
        (s_role sd = "student" -> sub_student_id row <> s_user_id sd ->
         out = flash_redirect "You are not allowed to access this file." "error"
                              ep_student_dashboard
         /\ error_of out = Some AuthorizationError)
        /\ (s_role sd = "student" -> sub_student_id row = s_user_id sd ->
            out = send_from_directory (files st) filename)
        /\ (s_role sd = "faculty" ->
            out = send_from_directory (files st) filename)
        /\ (forall content, files st !! filename = Some content ->
              send_from_directory (files st) filename = SendFile filename content
              /\ succeeded (SendFile filename content) = true)).
Proof.
  intros out. subst out. unfold download_file, login_required. split.
  - intros Hnone.
    assert (fetchone (fun r => String.eqb (sub_file_name r) filename)
                     (submissions (db st)) = None) as ->.
    { apply fetchone_none. intros r Hin. apply String.eqb_neq. auto. }
    auto.
  - intros row ->. split; [|split; [|split]].
    + intros Hs Hne. rewrite Hs. simpl. apply Z.eqb_neq in Hne. rewrite Hne.
      simpl. auto.
    + intros Hs Heq. rewrite Hs. simpl. apply Z.eqb_eq in Heq. now rewrite Heq.
    + intros Hs. rewrite Hs. reflexivity.
    + intros content Hc. unfold send_from_directory. rewrite Hc. auto.
Qed.

(** ** C2 and C8: reviewing a submission *)


Lemma valid_action (action : string) :
  existsb (String.eqb action) ["Approved"; "Rejected"] = true
  <-> action = "Approved" \/ action = "Rejected".
Proof.
  simpl. rewrite orb_false_r, orb_true_iff, !String.eqb_eq. tauto.
Qed.


Lemma now_text_nonempty (e : env) : now_text e <> "".
Proof.
  unfold now_text, DateTime.strftime_seconds.
  destruct (DateTime.strftime_minutes (clock e)); discriminate.
Qed.





(** ** C7: the late flag *)

Lemma parse_dt_spec (s : string) (t : DateTime.datetime) :
  parse_dt s = Some t <->
  DateTime.strptime s DateTime.FMT_SECONDS = Some t
  \/ (DateTime.strptime s DateTime.FMT_SECONDS = None
      /\ DateTime.strptime s DateTime.FMT_MINUTES = Some t).
Proof.
  unfold parse_dt. simpl.
  destruct (DateTime.strptime s DateTime.FMT_SECONDS) as [t1|];
    destruct (DateTime.strptime s DateTime.FMT_MINUTES) as [t2|];
    split; intros H; try tauto; try discriminate;
    try (destruct H as [H|[H H']]; congruence);
    try (right; split; [reflexivity|exact H]).
Qed.

Lemma ltb_irrefl (t : DateTime.datetime) : DateTime.ltb t t = false.
Proof. unfold DateTime.ltb. rewrite !Z.compare_refl. apply Z.ltb_irrefl. Qed.

Lemma late_flag_spec (deadline submitted_at : string) :
  late_flag deadline submitted_at = true <->
  exists dead sub : DateTime.datetime,
    parse_dt deadline = Some dead /\ parse_dt submitted_at = Some sub
    /\ DateTime.gtb sub dead = true.
Proof.
  unfold late_flag. split.
  - destruct (parse_dt deadline) as [dead|]; [|discriminate].
    destruct (parse_dt submitted_at) as [sub|]; [|discriminate]. eauto.
  - intros (dead & sub & -> & -> & H). exact H.
Qed.

Lemma in_insert_desc {A : Type} (key : A -> string) (x y : A) (l : list A) :
  In y (insert_desc key x l) <-> y = x \/ In y l.
Proof.
  induction l as [|z l IH]; simpl; [intuition congruence|].
  destruct (String.leb (key x) (key z)); simpl; rewrite ?IH; intuition congruence.
Qed.

Lemma in_order_by_desc {A : Type} (key : A -> string) (y : A) (l : list A) :
  In y (order_by_desc key l) <-> In y l.
Proof.
  unfold order_by_desc.
  assert (forall acc, In y (fold_left (fun acc x => insert_desc key x acc) l acc)
                      <-> In y acc \/ In y l) as H.
  { induction l as [|x l IH]; simpl; intros acc; [tauto|].
    rewrite IH, in_insert_desc. intuition congruence. }
  rewrite H. simpl. tauto.
Qed.

(** The rows of the student dashboard: the student's submissions, each
    with its assignment. *)
Lemma in_submissions_view (student_id : Z) (d : database) (v : view_row) :
  In v (submissions_view student_id d) <->
  exists (s : submission) (a : assignment),
    In s (submissions d) /\ In a (assignments d)
    /\ sub_student_id s = student_id /\ asg_id a = sub_assignment_id s
    /\ v = view_of (s, a).
Proof.
  unfold submissions_view, student_rows. rewrite in_map_iff. split.
  - intros ([s a] & <- & Hin). apply in_order_by_desc in Hin.
    apply in_flat_map in Hin as (s0 & Hs0 & Hin).
    destruct (sub_student_id s0 =? student_id) eqn:E; [|contradiction].
    apply in_map_iff in Hin as (a0 & Heq & Ha0). injection Heq as -> ->.
    apply List.filter_In in Ha0 as [Ha0 Hid].
    apply Z.eqb_eq in E, Hid. exists s, a. auto.
  - intros (s & a & Hs & Ha & Hst & Hid & ->). exists (s, a). split; auto.
    apply in_order_by_desc. apply in_flat_map. exists s. split; auto.
    rewrite Hst, Z.eqb_refl. apply in_map. apply List.filter_In.
    rewrite Hid, Z.eqb_refl. auto.
Qed.

(** C7. Every row [v] of the submissions shown on a student's dashboard
    is flagged late exactly when its deadline and its submission time
    both parse, each by the first of the formats [%Y-%m-%d %H:%M:%S] and
    [%Y-%m-%d %H:%M] that accepts it, and the time is strictly after the
    deadline.  What parses is a valid datetime, and on valid datetimes
    "after" is the order of the instants, so equal instants are not late.
    On the texts the portal writes (a deadline printed to the minute, the
    time of an upload printed to the second), of years from 1000 on, which
    are printed with four digits, both parse and the flag compares the two
    instants.  A submission at 2026-03-05 23:59:00 for the
    deadline 2026-03-05 23:59 is not late, one a second later is. *)
Theorem late_flag_of_view_rows (student_id : Z) (d : database) (v : view_row) :
  In v (submissions_view student_id d) ->
  (v_late v = true <->
   exists dead sub : DateTime.datetime,
     parse_dt (v_deadline v) = Some dead
     /\ parse_dt (v_submitted_at v) = Some sub
     /\ DateTime.gtb sub dead = true)
  /\ (forall (s : string) (t : DateTime.datetime),
        parse_dt s = Some t <->
        DateTime.strptime s DateTime.FMT_SECONDS = Some t
        \/ (DateTime.strptime s DateTime.FMT_SECONDS = None
            /\ DateTime.strptime s DateTime.FMT_MINUTES = Some t))
  /\ (forall (s : string) (t : DateTime.datetime),
        parse_dt s = Some t -> DateTime.valid t = true)
  /\ (forall a b : DateTime.datetime,
        DateTime.valid a = true -> DateTime.valid b = true ->
        (DateTime.gtb a b = true <-> timestamp b < timestamp a))
  /\ (forall t : DateTime.datetime, DateTime.gtb t t = false)
  /\ (forall dead sub : DateTime.datetime,
        DateTime.valid dead = true -> DateTime.second dead = 0 ->
        1000 <= DateTime.year dead ->
        DateTime.valid sub = true -> 1000 <= DateTime.year sub ->
        (late_flag (DateTime.strftime_minutes dead) (DateTime.strftime_seconds sub)
         = true
         <-> timestamp dead < timestamp sub))
  /\ late_flag "2026-03-05 23:59" "2026-03-05 23:59:00" = false
  /\ late_flag "2026-03-05 23:59" "2026-03-05 23:59:01" = true.
Proof.
  intros Hin. apply in_submissions_view in Hin as (s & a & _ & _ & _ & _ & ->).
  simpl. split; [apply late_flag_spec|]. split; [apply parse_dt_spec|].
  split; [apply parse_dt_valid|].
  split; [intros a0 b Ha Hb; unfold DateTime.gtb; now apply ltb_timestamp|].
  split; [intros t; apply ltb_irrefl|].
  split; [apply late_flag_stored|]. split; vm_compute; reflexivity.
Qed.

(** ** C9: creating and listing assignments *)

Lemma faculty_dashboard_create (e : env) (sd : session_data) (req : request)
    (st : state) :
  s_role sd = "faculty" -> method req = POST ->
  field "form_type" req = "assignment" ->
  faculty_dashboard e (Some sd) req st = faculty_create req st.
Proof.
  intros Hr Hm Hf. unfold faculty_dashboard, login_required.
  rewrite Hr, Hm, Hf. reflexivity.
Qed.





Lemma leb_trans (a b c : string) :
  String.leb a b = true -> String.leb b c = true -> String.leb a c = true.
Proof.
  intros H1 H2. apply Is_true_true. apply Is_true_true in H1, H2.
  change (String.le a c). change (String.le a b) in H1. change (String.le b c) in H2.
  etransitivity; eauto.
Qed.






(** ** C6: logging in *)




(** ** Further properties of the handlers *)

(** X1. [parse_dt] reads back the two forms in which the portal writes
    times exactly for the years from 1000 on: a valid datetime of such a
    year printed to the second is read back, and so is one without seconds
    printed to the minute; a valid datetime of an earlier year is printed
    with fewer than four digits for the year, and [parse_dt] reads neither
    of its printed forms. *)
Theorem printed_times_parse_back (t : DateTime.datetime) :
  DateTime.valid t = true ->
  (1000 <= DateTime.year t ->
   parse_dt (DateTime.strftime_seconds t) = Some t
   /\ (DateTime.second t = 0 -> parse_dt (DateTime.strftime_minutes t) = Some t))
  /\ (DateTime.year t < 1000 ->
      parse_dt (DateTime.strftime_seconds t) = None
      /\ parse_dt (DateTime.strftime_minutes t) = None).
Proof.
  intros Hv. split.
  - intros Hy. split; [now apply parse_dt_strftime_seconds|].
    intros Hs. now apply parse_dt_strftime_minutes.
  - intros Hy. destruct (parse_dt_strftime_short t Hv Hy). auto.
Qed.

(** X2. In every reachable state the ids of the submissions are distinct
    and not above the counter of the table, the emails of the users are
    distinct, no student has two Pending submissions for an assignment, and
    every deadline is a valid time without seconds as [strftime] prints it
    to the minute (so with fewer than four digits for a year below
    1000). *)
Theorem reachable_store_invariants (st : state) :
  reachable st -> store_ok (db st) /\ deadlines_canonical (db st).
Proof.
  intros H. split; [now apply reachable_ok|now apply reachable_canonical].
Qed.



(** X4. The role gate: without a session the student and faculty
    dashboards, the deletion and the download redirect to the login page;
    with a session of another role the dashboards and the deletion are
    refused with "Access denied for your role."; in all these cases the
    state is left as it was. *)
Theorem role_gate (e : env) (req : request) (i : Z) (name : string) (st : state) :
  student_dashboard e None req st = (Redirect None ep_login, st)
  /\ faculty_dashboard e None req st = (Redirect None ep_login, st)
  /\ delete_submission None i st = (Redirect None ep_login, st)
  /\ download_file None name st = Redirect None ep_login
  /\ (forall sd : session_data,
        let denied := flash_redirect "Access denied for your role." "error"
                                     ep_dashboard in
        error_of denied = Some AuthorizationError
        /\ (s_role sd <> "student" ->
            student_dashboard e (Some sd) req st = (denied, st)
            /\ delete_submission (Some sd) i st = (denied, st))
        /\ (s_role sd <> "faculty" ->
            faculty_dashboard e (Some sd) req st = (denied, st))).
Proof.
  split; [reflexivity|]. split; [reflexivity|]. split; [reflexivity|].
  split; [reflexivity|]. intros sd denied. split; [reflexivity|]. split.
  - intros Hne. apply String.eqb_neq in Hne.
    unfold student_dashboard, delete_submission, login_required.
    rewrite Hne. split; reflexivity.
  - intros Hne. apply String.eqb_neq in Hne.
    unfold faculty_dashboard, login_required. now rewrite Hne.
Qed.

(** ** What a request can and cannot change *)

Lemma gate_role (r : string) (sd : session_data) :
  PyStr.truthy r && negb (String.eqb (s_role sd) r) = false -> r <> "" -> s_role sd = r.
Proof.
  intros H Hr. apply truthy_true in Hr. rewrite Hr in H. simpl in H.
  apply negb_false_iff in H. now apply String.eqb_eq.
Qed.

Lemma handle_effect (e : env) (sess : session) (c : call) (st : state) :
  effect e sess st c (snd (fst (handle e sess c st))) (snd (handle e sess c st)).
Proof.
  destruct c as [req|req| |req|i|req|name]; simpl.
  - unfold register. destruct (method req); simpl; try apply eff_none.
    destruct (_ || _); simpl; try apply eff_none.
    destruct (insert_user _ _ _ _ (db st)) as [d|] eqn:E; simpl; try apply eff_none.
    now apply eff_register.
  - unfold login. destruct (method req); simpl; try apply eff_none.
    destruct (fetchone _ (users (db st))) as [u|] eqn:Eu; simpl; try apply eff_none.
    destruct (verify_password _ _) as [[|] up] eqn:Ev; simpl; try apply eff_none.
    now apply eff_login.
  - apply eff_none.
  - unfold student_dashboard, login_required.
    destruct sess as [sd|]; simpl; try apply eff_none.
    destruct (negb (String.eqb (s_role sd) "student")) eqn:Er; simpl; try apply eff_none.
    apply negb_false_iff, String.eqb_eq in Er.
    destruct (method req); simpl; try apply eff_none.
    pose proof (student_post_outcome e (s_user_id sd) req st) as Ho.
    inversion Ho as [| | | | |f a Hw Hq Heq]; simpl; try apply eff_none.
    now apply (eff_upload _ _ _ sd req f a).
  - unfold delete_submission, login_required.
    destruct sess as [sd|]; simpl; try apply eff_none.
    destruct (negb (String.eqb (s_role sd) "student")) eqn:Er; simpl; try apply eff_none.
    apply negb_false_iff, String.eqb_eq in Er.
    destruct (fetchone _ _) as [row|] eqn:Eq; simpl; try apply eff_none.
    destruct (String.eqb_spec (sub_status row) "Pending") as [Hp|Hp]; simpl;
      try apply eff_none.
    now apply (eff_delete _ _ _ sd i row).
  - unfold faculty_dashboard, login_required.
    destruct sess as [sd|]; simpl; try apply eff_none.
    destruct (negb (String.eqb (s_role sd) "faculty")) eqn:Er; simpl; try apply eff_none.
    apply negb_false_iff, String.eqb_eq in Er.
    destruct (method req); simpl; try apply eff_none.
    destruct (String.eqb _ "review").
    + unfold faculty_review.
      destruct (existsb _ _) eqn:Ex; simpl; try apply eff_none.
      apply valid_action in Ex.
      destruct (fetchone _ (submissions (db st))) as [row|] eqn:Eq; simpl;
        try apply eff_none.
      now apply (eff_review _ _ _ sd req row).
    + destruct (String.eqb _ "assignment"); simpl; try apply eff_none.
      unfold faculty_create. destruct (_ || _); simpl; try apply eff_none.
      destruct (DateTime.strptime _ _) as [t|] eqn:Et; simpl; try apply eff_none.
      destruct (insert_assignment _ _ _ (db st)) eqn:Ei; simpl; try apply eff_none.
      now apply (eff_create _ _ _ sd req t).
  - apply eff_none.
Qed.

Lemma insert_user_tables (name email password role : string) (d d' : database) :
  insert_user name email password role d = Some d' ->
  users d' = users d ++ [mkUser (seq_users d + 1) name email password role]
  /\ seq_users d' = seq_users d + 1
  /\ assignments d' = assignments d /\ seq_assignments d' = seq_assignments d
  /\ submissions d' = submissions d /\ seq_submissions d' = seq_submissions d
  /\ login_logs d' = login_logs d /\ seq_login_logs d' = seq_login_logs d.
Proof.
  unfold insert_user. destruct (existsb _ _); [discriminate|].
  intros H. injection H as <-. simpl. tauto.
Qed.

Lemma insert_assignment_tables (title description deadline : string)
    (d d' : database) :
  insert_assignment title description deadline d = Some d' ->
  assignments d' = assignments d
                   ++ [mkAssignment (seq_assignments d + 1) title description deadline]
  /\ seq_assignments d' = seq_assignments d + 1
  /\ users d' = users d /\ seq_users d' = seq_users d
  /\ submissions d' = submissions d /\ seq_submissions d' = seq_submissions d
  /\ login_logs d' = login_logs d /\ seq_login_logs d' = seq_login_logs d.
Proof.
  unfold insert_assignment. destruct (existsb _ _); [discriminate|].
  intros H. injection H as <-. simpl. tauto.
Qed.

Lemma replace_pending_tables (stu : Z) (text : string) (st : state) :
  users (db (replace_pending stu text st)) = users (db st)
  /\ assignments (db (replace_pending stu text st)) = assignments (db st)
  /\ login_logs (db (replace_pending stu text st)) = login_logs (db st)
  /\ seq_users (db (replace_pending stu text st)) = seq_users (db st)
  /\ seq_assignments (db (replace_pending stu text st)) = seq_assignments (db st)
  /\ seq_login_logs (db (replace_pending stu text st)) = seq_login_logs (db st).
Proof.
  unfold replace_pending. destruct (fetchone _ _); simpl; tauto.
Qed.

(** The rows that [seed_data] adds come after the rows that were there. *)
Lemma seed_users_grow (salt : string) (l : list (string * string * string * string))
    (d : database) :
  let d' := fold_left (fun acc '(name, email, password, role) =>
                         or_ignore (insert_user name email (hash_password salt password)
                                                role) skip_user acc) l d in
  (exists more, users d' = users d ++ more)
  /\ assignments d' = assignments d /\ seq_assignments d' = seq_assignments d
  /\ submissions d' = submissions d /\ seq_submissions d' = seq_submissions d
  /\ login_logs d' = login_logs d /\ seq_login_logs d' = seq_login_logs d.
Proof.
  revert d. induction l as [|[[[n m] p] r] l IH]; intros d; simpl.
  - split; [exists []; now rewrite app_nil_r|tauto].
  - specialize (IH (or_ignore (insert_user n m (hash_password salt p) r) skip_user d)).
    simpl in IH. destruct IH as ([more Hm] & H2 & H3 & H4 & H5 & H6 & H7).
    unfold or_ignore in *.
    destruct (insert_user n m (hash_password salt p) r d) as [d1|] eqn:E.
    + apply insert_user_tables in E as (E1 & _ & E2 & E3 & E4 & E5 & E6 & E7).
      split; [|rewrite H2, H3, H4, H5, H6, H7; tauto].
      rewrite Hm, E1, <- app_assoc. eauto.
    + unfold skip_user in *. simpl in *. split; [eauto|tauto].
Qed.

Lemma seed_assignments_grow (l : list (string * string * string)) (d : database) :
  let d' := fold_left (fun acc '(title, description, deadline) =>
                         or_ignore (insert_assignment title description deadline) skip_assignment acc)
                      l d in
  (exists more, assignments d' = assignments d ++ more)
  /\ users d' = users d /\ seq_users d' = seq_users d
  /\ submissions d' = submissions d /\ seq_submissions d' = seq_submissions d
  /\ login_logs d' = login_logs d /\ seq_login_logs d' = seq_login_logs d.
Proof.
  revert d. induction l as [|[[n m] p] l IH]; intros d; simpl.
  - split; [exists []; now rewrite app_nil_r|tauto].
  - specialize (IH (or_ignore (insert_assignment n m p) skip_assignment d)).
    simpl in IH. destruct IH as ([more Hm] & H2 & H3 & H4 & H5 & H6 & H7).
    unfold or_ignore in *.
    destruct (insert_assignment n m p d) as [d1|] eqn:E.
    + apply insert_assignment_tables in E as (E1 & _ & E2 & E3 & E4 & E5 & E6 & E7).
      split; [|rewrite H2, H3, H4, H5, H6, H7; tauto].
      rewrite Hm, E1, <- app_assoc. eauto.
    + unfold skip_assignment in *. simpl in *. split; [eauto|tauto].
Qed.

Lemma seed_data_grows (salt : string) (d : database) :
  (exists more, users (seed_data salt d) = users d ++ more)
  /\ (exists more, assignments (seed_data salt d) = assignments d ++ more)
  /\ submissions (seed_data salt d) = submissions d
  /\ seq_submissions (seed_data salt d) = seq_submissions d
  /\ login_logs (seed_data salt d) = login_logs d
  /\ seq_login_logs (seed_data salt d) = seq_login_logs d.
Proof.
  unfold seed_data.
  pose proof (seed_users_grow salt SEED_USERS d) as H1.
  cbv zeta in H1. destruct H1 as (Hu & Ha & _ & Hs & Hq & Hl & Hk).
  match goal with
  | |- context [fold_left _ SEED_ASSIGNMENTS ?x] =>
      pose proof (seed_assignments_grow SEED_ASSIGNMENTS x) as H2
  end.
  cbv zeta in H2. destruct H2 as ([ma Hma] & Hu2 & _ & Hs2 & Hq2 & Hl2 & Hk2).
  rewrite Hu2, Hma, Hs2, Hq2, Hl2, Hk2, Ha, Hs, Hq, Hl, Hk.
  repeat split; eauto.
Qed.

Lemma map_identity_update (i : Z) (password : string) (us : list user) :
  map account_identity
      (map (fun u => if user_id u =? i
                     then mkUser (user_id u) (user_name u) (user_email u) password
                                 (user_role u)
                     else u) us)
  = map account_identity us.
Proof.
  rewrite map_map. apply map_ext. intros u. now destruct (user_id u =? i).
Qed.

Lemma map_columns_review (cond : submission -> bool) (status comment t : string)
    (who : Z) (l : list submission) :
  map upload_columns
      (map (fun r => if cond r
                     then mkSubmission (sub_id r) (sub_student_id r)
                            (sub_assignment_id r) (sub_file_name r)
                            (sub_submitted_at r) status comment t (Some who)
                     else r) l)
  = map upload_columns l.
Proof.
  rewrite map_map. apply map_ext. intros r. now destruct (cond r).
Qed.

Lemma handle_effect_of (e : env) (sess sess' : session) (c : call) (st st' : state)
    (r : response) :
  handle e sess c st = (r, sess', st') -> effect e sess st c sess' st'.
Proof.
  intros H. pose proof (handle_effect e sess c st) as He. now rewrite H in He.
Qed.

(** X5. No request removes or changes an assignment: after any request
    the assignments are the ones before, in order, with at most one row
    appended, and a row is appended only under a session of role faculty.
    A restart ([init_db]) also only appends rows. *)
Theorem assignments_append_only (e : env) (sess : session) (c : call) (st : state) :
  let st' := snd (handle e sess c st) in
  (exists more : list assignment,
     assignments (db st') = assignments (db st) ++ more
     /\ (length more <= 1)%nat
     /\ (more <> [] -> exists sd, sess = Some sd /\ s_role sd = "faculty"))
  /\ forall salt : string, exists more : list assignment,
       assignments (db (init_db salt st)) = assignments (db st) ++ more.
Proof.
  cbv zeta. split.
  - destruct (handle e sess c st) as [[r0 s1] st1] eqn:H.
    apply handle_effect_of in H. simpl.
    inversion H as [c0 s0 Hc Hs Hst|req d Hi|req u up Hq Hv
                   |sd req f a Hs Hr Hw Hq|sd i row Hs Hr Hq Hp
                   |sd req row Hs Hr Ha Hq|sd req t d Hs Hr Ht Hi]; subst; simpl.
    + nothing_added.
    + apply insert_user_tables in Hi as (_ & _ & -> & _).
      nothing_added.
    + destruct up; simpl; nothing_added.
    + destruct (replace_pending_tables (s_user_id sd) (field "assignment_id" req) st)
        as (_ & -> & _).
      nothing_added.
    + nothing_added.
    + nothing_added.
    + apply insert_assignment_tables in Hi as (-> & _).
      eexists; split; [reflexivity|split; [simpl; lia|eauto]].
  - intros salt. simpl. apply seed_data_grows.
Qed.

(** X6. Login-log entries are never removed or changed: a request leaves
    the log as it was, or it is a login that appends one entry, with the
    next id, the id of a user of the store and the current time, and sets
    the session to that user.  A restart leaves the log as it was. *)
Theorem login_logs_append_only (e : env) (sess : session) (c : call) (st : state) :
  let out := handle e sess c st in
  (login_logs (db (snd out)) = login_logs (db st)
   \/ exists (req : request) (u : user),
        c = c_login req /\ In u (users (db st))
        /\ snd (fst out) = Some (mkSession (user_id u) (user_name u) (user_role u))
        /\ login_logs (db (snd out))
           = login_logs (db st)
             ++ [mkLoginLog (seq_login_logs (db st) + 1) (user_id u) (now_text e)])
  /\ forall salt : string,
       login_logs (db (init_db salt st)) = login_logs (db st).
Proof.
  cbv zeta. split.
  - destruct (handle e sess c st) as [[r0 s1] st1] eqn:H.
    apply handle_effect_of in H. simpl.
    inversion H as [c0 s0 Hc Hs Hst|req d Hi|req u up Hq Hv
                   |sd req f a Hs Hr Hw Hq|sd i row Hs Hr Hq Hp
                   |sd req row Hs Hr Ha Hq|sd req t d Hs Hr Ht Hi]; subst; simpl.
    + now left.
    + apply insert_user_tables in Hi. left. tauto.
    + right. exists req, u. unfold fetchone in Hq. apply find_some in Hq as [Hin _].
      repeat split; auto. now destruct up.
    + left. apply replace_pending_tables.
    + now left.
    + now left.
    + apply insert_assignment_tables in Hi. left. tauto.
  - intros salt. simpl. apply seed_data_grows.
Qed.

(** X7. No request removes an account or changes its id, name, email or
    role: these columns are after a request what they were before, with at
    most one account appended, and only by a registration.  A restart only
    appends accounts. *)
Theorem accounts_keep_identity (e : env) (sess : session) (c : call) (st : state) :
  let st' := snd (handle e sess c st) in
  (exists more : list (Z * string * string * string),
     map account_identity (users (db st')) = map account_identity (users (db st)) ++ more
     /\ (length more <= 1)%nat
     /\ (more <> [] -> exists req, c = c_register req))
  /\ forall salt : string, exists more : list user,
       users (db (init_db salt st)) = users (db st) ++ more.
Proof.
  cbv zeta. split.
  - destruct (handle e sess c st) as [[r0 s1] st1] eqn:H.
    apply handle_effect_of in H. simpl.
    inversion H as [c0 s0 Hc Hs Hst|req d Hi|req u up Hq Hv
                   |sd req f a Hs Hr Hw Hq|sd i row Hs Hr Hq Hp
                   |sd req row Hs Hr Ha Hq|sd req t d Hs Hr Ht Hi]; subst; simpl.
    + nothing_added.
    + apply insert_user_tables in Hi as (-> & _). rewrite map_app.
      eexists; split; [reflexivity|split; [simpl; lia|eauto]].
    + destruct up; simpl; [rewrite map_identity_update|]; nothing_added.
    + destruct (replace_pending_tables (s_user_id sd) (field "assignment_id" req) st)
        as (-> & _).
      nothing_added.
    + nothing_added.
    + nothing_added.
    + apply insert_assignment_tables in Hi as (_ & _ & -> & _).
      nothing_added.
  - intros salt. simpl. apply seed_data_grows.
Qed.

Lemma in_replace_pending (stu : Z) (text : string) (st : state) (r : submission) :
  In r (submissions (db (replace_pending stu text st))) -> In r (submissions (db st)).
Proof.
  unfold replace_pending. destruct (fetchone _ _); simpl; auto.
  intros H. now apply List.filter_In in H.
Qed.

(** X8. Only faculty review: under a session that is not of role faculty
    (or under none) every submission row after a request is a row that was
    there before, unchanged, or the new row of the session's user, with the
    next id, the current time, status Pending and the default review
    columns. *)
Theorem only_faculty_reviews (e : env) (sess : session) (c : call) (st : state) :
  (forall sd, sess = Some sd -> s_role sd <> "faculty") ->
  forall r : submission,
    In r (submissions (db (snd (handle e sess c st)))) ->
    In r (submissions (db st))
    \/ exists (sd : session_data) (aid : Z) (name : string),
         sess = Some sd
         /\ r = mkSubmission (seq_submissions (db st) + 1) (s_user_id sd) aid name
                             (now_text e) "Pending" "" "" None.
Proof.
  intros Hrole r.
  destruct (handle e sess c st) as [[r0 s1] st1] eqn:H.
  apply handle_effect_of in H. simpl.
  inversion H as [c0 s0 Hc Hs Hst|req d Hi|req u up Hq Hv
                 |sd req f a Hs Hr Hw Hq|sd i row Hs Hr Hq Hp
                 |sd req row Hs Hr Ha Hq|sd req t d Hs Hr Ht Hi]; subst; simpl.
  - auto.
  - apply insert_user_tables in Hi as (_ & _ & _ & _ & -> & _). auto.
  - destruct up; simpl; auto.
  - rewrite replace_pending_seq. intros Hin. apply in_app_or in Hin as [Hin|Hin].
    + left. eapply in_replace_pending; eauto.
    + right. destruct Hin as [<-|[]]. eauto.
  - intros Hin. apply List.filter_In in Hin. tauto.
  - exfalso. exact (Hrole sd eq_refl Hr).
  - exfalso. exact (Hrole sd eq_refl Hr).
Qed.

(** X9. Only students add and remove submissions: under a session that is
    not of role student (or under none) a request leaves the upload
    directory as it was and keeps the submission rows, in order, with
    their id, student, assignment, file name and submission time. *)
Theorem only_students_remove (e : env) (sess : session) (c : call) (st : state) :
  (forall sd, sess = Some sd -> s_role sd <> "student") ->
  let st' := snd (handle e sess c st) in
  files st' = files st
  /\ map upload_columns (submissions (db st'))
     = map upload_columns (submissions (db st)).
Proof.
  intros Hrole. cbv zeta.
  destruct (handle e sess c st) as [[r0 s1] st1] eqn:H.
  apply handle_effect_of in H. simpl.
  inversion H as [c0 s0 Hc Hs Hst|req d Hi|req u up Hq Hv
                 |sd req f a Hs Hr Hw Hq|sd i row Hs Hr Hq Hp
                 |sd req row Hs Hr Ha Hq|sd req t d Hs Hr Ht Hi]; subst; simpl.
  - auto.
  - apply insert_user_tables in Hi as (_ & _ & _ & _ & -> & _). auto.
  - destruct up; simpl; auto.
  - exfalso. exact (Hrole sd eq_refl Hr).
  - exfalso. exact (Hrole sd eq_refl Hr).
  - split; auto. apply map_columns_review.
  - apply insert_assignment_tables in Hi as (_ & _ & _ & _ & -> & _). auto.
Qed.

(** X10. Students cannot touch each other's submissions: when the ids of
    the submissions are distinct, a row that belongs to another student is in
    the table after a request made under a student session exactly if it
    was there before. *)
Theorem students_isolated (e : env) (sd : session_data) (c : call) (st : state) :
  s_role sd = "student" ->
  List.NoDup (map sub_id (submissions (db st))) ->
  forall r : submission,
    sub_student_id r <> s_user_id sd ->
    (In r (submissions (db (snd (handle e (Some sd) c st))))
     <-> In r (submissions (db st))).
Proof.
  intros Hrole Hnd r Hne.
  destruct (handle e (Some sd) c st) as [[r0 s1] st1] eqn:H.
  apply handle_effect_of in H. simpl.
  inversion H as [c0 s0 Hc Hs Hst|req d Hi|req u up Hq Hv
                 |sd' req f a Hs Hr Hw Hq|sd' i row Hs Hr Hq Hp
                 |sd' req row Hs Hr Ha Hq|sd' req t d Hs Hr Ht Hi]; subst; simpl.
  - tauto.
  - apply insert_user_tables in Hi as (_ & _ & _ & _ & -> & _). tauto.
  - destruct up; simpl; tauto.
  - injection Hs as <-. rewrite in_app_iff. simpl. split.
    + intros [Hin|[<-|[]]]; [eapply in_replace_pending; eauto|].
      simpl in Hne. congruence.
    + intros Hin. left. unfold replace_pending.
      destruct (fetchone _ (submissions (db st))) as [old|] eqn:Eo; simpl; auto.
      unfold fetchone in Eo. apply find_some in Eo as [Hold Hp].
      apply andb_true_iff in Hp as [Hp _]. apply andb_true_iff in Hp as [Hp _].
      apply Z.eqb_eq in Hp.
      apply List.filter_In. split; auto. apply negb_true_iff, Z.eqb_neq.
      intros Heq. apply Hne. rewrite <- Hp. f_equal.
      eapply NoDup_map_eq; eauto.
  - injection Hs as <-. rewrite List.filter_In. split; [tauto|].
    intros Hin. split; auto. apply negb_true_iff, Z.eqb_neq.
    unfold fetchone in Hq. apply find_some in Hq as [Hrow Hq].
    apply andb_true_iff in Hq as [Hq1 Hq2].
    apply Z.eqb_eq in Hq1, Hq2. intros Heq. apply Hne. rewrite <- Hq2. f_equal.
    eapply NoDup_map_eq; eauto. congruence.
  - injection Hs as <-. rewrite Hrole in Hr. discriminate.
  - injection Hs as <-. rewrite Hrole in Hr. discriminate.
Qed.

Lemma fetchone_exists {A : Type} (p : A -> bool) (rows : list A) (x : A) :
  In x rows -> p x = true -> exists y, fetchone p rows = Some y.
Proof.
  intros Hin Hp. destruct (fetchone p rows) as [y|] eqn:E; [eauto|].
  rewrite fetchone_none in E. rewrite (E x Hin) in Hp. discriminate.
Qed.

Lemma fetchone_last {A : Type} (p : A -> bool) (rows : list A) (x : A) :
  (forall r, In r rows -> p r = false) -> p x = true ->
  fetchone p (rows ++ [x]) = Some x.
Proof.
  unfold fetchone. induction rows as [|y rows IH]; simpl; intros H Hp.
  - now rewrite Hp.
  - rewrite (H y) by auto. apply IH; auto.
Qed.


(** X12. After an accepted upload in a reachable state the student's
    dashboard, on GET, renders the listing and the view of the new store,
    and the view has the new submission: its id, stored file name and upload
    time, the status Pending, and the title and deadline of its assignment.
    With a valid clock, and when the years of the deadline and of the
    clock are from 1000 on, it is flagged late exactly when the instant of
    the upload is after the deadline. *)
Theorem upload_then_view (e e2 : env) (sd : session_data) (req req2 : request)
    (st : state) :
  s_role sd = "student" -> method req = POST -> method req2 = GET ->
  reachable st -> DateTime.valid (clock e) = true ->
  let out := student_dashboard e (Some sd) req st in
  let view := submissions_view (s_user_id sd) (db (snd out)) in
  fst out = SUBMITTED ->
  student_dashboard e2 (Some sd) req2 (snd out)
  = (Render (page_student (list_assignments (db (snd out))) view), snd out)
  /\ exists (f : file_storage) (a : assignment) (t : DateTime.datetime),
       upload req !! "pdf_file" = Some f
       /\ In a (assignments (db st))
       /\ sql_integer (field "assignment_id" req) = Some (asg_id a)
       /\ asg_deadline a = DateTime.strftime_minutes t
       /\ DateTime.valid t = true
       /\ In (mkViewRow (seq_submissions (db st) + 1)
                 (final_name e (s_user_id sd) (field "assignment_id" req) f)
                 (now_text e) "Pending" "" "" (asg_title a) (asg_deadline a)
                 (late_flag (asg_deadline a) (now_text e)))
             view
       /\ (1000 <= DateTime.year t -> 1000 <= DateTime.year (clock e) ->
           (late_flag (asg_deadline a) (now_text e) = true
            <-> timestamp t < timestamp (clock e))).
Proof.
  intros Hr Hm Hg Hreach Hclock. cbv zeta.
  rewrite (student_dashboard_post e sd req st Hr Hm). intros Hs.
  split.
  { unfold student_dashboard, login_required. rewrite Hr, Hg. reflexivity. }
  apply submitted_inv in Hs as (f & a & Hw & Hq & Hi & ->).
  apply fetchone_some in Hq as [Hin _].
  pose proof (reachable_canonical st Hreach) as Hcan.
  unfold deadlines_canonical in Hcan. rewrite List.Forall_forall in Hcan.
  destruct (Hcan a Hin) as (t & Hv & Hsec & Hd).
  exists f, a, t. destruct Hw as (_ & W2 & _).
  repeat (split; [assumption|]). split.
  - apply in_submissions_view.
    exists (mkSubmission (seq_submissions (db st) + 1) (s_user_id sd) (asg_id a)
              (final_name e (s_user_id sd) (field "assignment_id" req) f)
              (now_text e) "Pending" "" "" None), a.
    split.
    { rewrite store_new_rows, replace_pending_seq. apply in_or_app. right. now left. }
    split.
    { simpl. now destruct (replace_pending_tables (s_user_id sd)
                             (field "assignment_id" req) st) as (_ & -> & _). }
    simpl. auto.
  - intros Hyt Hyc. rewrite Hd. unfold now_text. now apply late_flag_stored.
Qed.

(** X13. After an accepted upload whose stored file name is the name of
    no earlier row, the uploader and every session that is not a student's
    are sent the uploaded content under that name, and another student is
    refused. *)
Theorem upload_then_download (e : env) (sd : session_data) (req : request)
    (st : state) :
  s_role sd = "student" -> method req = POST ->
  let out := student_dashboard e (Some sd) req st in
  fst out = SUBMITTED ->
  exists f : file_storage,
    upload req !! "pdf_file" = Some f
    /\ let name := final_name e (s_user_id sd) (field "assignment_id" req) f in
       (forall r, In r (submissions (db st)) -> sub_file_name r <> name) ->
       download_file (Some sd) name (snd out) = SendFile name (stream f)
       /\ (forall sd2 : session_data,
             s_role sd2 <> "student" ->
             download_file (Some sd2) name (snd out) = SendFile name (stream f))
       /\ (forall sd2 : session_data,
             s_role sd2 = "student" -> s_user_id sd2 <> s_user_id sd ->
             download_file (Some sd2) name (snd out)
             = flash_redirect "You are not allowed to access this file." "error"
                              ep_student_dashboard).
Proof.
  intros Hr Hm. cbv zeta.
  rewrite (student_dashboard_post e sd req st Hr Hm). intros Hs.
  apply submitted_inv in Hs as (f & a & Hw & Hq & Hi & ->).
  exists f. split; [apply Hw|]. intros Hfresh.
  set (name := final_name e (s_user_id sd) (field "assignment_id" req) f) in *.
  set (mid := replace_pending (s_user_id sd) (field "assignment_id" req) st).
  set (new_row := mkSubmission (seq_submissions (db mid) + 1) (s_user_id sd) (asg_id a)
                    name (now_text e) "Pending" "" "" None).
  assert (fetchone (fun r => String.eqb (sub_file_name r) name)
            (submissions (db (store_new e (s_user_id sd) (asg_id a)
                                (field "assignment_id" req) f mid)))
          = Some new_row) as Hfind.
  { rewrite store_new_rows. apply fetchone_last.
    - intros r Hin. apply String.eqb_neq. apply Hfresh.
      eapply in_replace_pending; eauto.
    - simpl. apply String.eqb_refl. }
  assert (files (store_new e (s_user_id sd) (asg_id a)
                   (field "assignment_id" req) f mid) !! name = Some (stream f))
    as Hfile by (simpl; apply lookup_insert_eq).
  unfold download_file, login_required. rewrite Hfind. simpl sub_student_id.
  unfold send_from_directory. rewrite Hfile.
  split; [|split].
  - rewrite Z.eqb_refl, andb_false_r. reflexivity.
  - intros sd2 Hne. apply String.eqb_neq in Hne. rewrite Hne. reflexivity.
  - intros sd2 Hs2 Hne. rewrite Hs2. simpl.
    assert ((s_user_id sd =? s_user_id sd2) = false) as -> by (apply Z.eqb_neq; congruence).
    reflexivity.
Qed.

Lemma in_faculty_rows (d : database) (s : submission) (u : user) (a : assignment) :
  In (s, u, a) (faculty_rows d) <->
  In s (submissions d) /\ In u (users d) /\ In a (assignments d)
  /\ user_id u = sub_student_id s /\ asg_id a = sub_assignment_id s.
Proof.
  unfold faculty_rows. rewrite in_order_by_desc, in_flat_map. split.
  - intros (s0 & Hs0 & Hin). apply in_flat_map in Hin as (u0 & Hu0 & Hin).
    apply in_map_iff in Hin as (a0 & Heq & Ha0). injection Heq as -> -> ->.
    apply List.filter_In in Hu0 as [Hu0 Hu], Ha0 as [Ha0 Ha].
    apply Z.eqb_eq in Hu, Ha. auto.
  - intros (Hs & Hu & Ha & Hui & Hai). exists s. split; auto.
    apply in_flat_map. exists u. split.
    + apply List.filter_In. split; auto. now apply Z.eqb_eq.
    + apply in_map. apply List.filter_In. split; auto. now apply Z.eqb_eq.
Qed.

(** X14. When a delete is answered by "Submission deleted.", the row was a
    Pending one of the session's student with the given id; afterwards its
    file is absent, no session is sent a file under its name, and no row with
    that id is shown on a student's dashboard or on the faculty's. *)
Theorem deleted_submission_is_gone (sd : session_data) (i : Z) (st : state) :
  let out := delete_submission (Some sd) i st in
  fst out = flash_redirect "Submission deleted." "success" ep_student_dashboard ->
  exists row : submission,
    In row (submissions (db st))
    /\ sub_id row = i /\ sub_student_id row = s_user_id sd
    /\ sub_status row = "Pending"
    /\ files (snd out) !! sub_file_name row = None
    /\ (forall (sess : session) (content : bytes),
          download_file sess (sub_file_name row) (snd out)
          <> SendFile (sub_file_name row) content)
    /\ (forall (student_id : Z) (v : view_row),
          In v (submissions_view student_id (db (snd out))) -> v_id v <> i)
    /\ (forall (s : submission) (u : user) (a : assignment),
          In (s, u, a) (faculty_rows (db (snd out))) -> sub_id s <> i).
Proof.
  cbv zeta. unfold delete_submission, login_required.
  destruct (PyStr.truthy "student" && negb (String.eqb (s_role sd) "student"));
    [discriminate|].
  destruct (fetchone _ (submissions (db st))) as [row|] eqn:Eq; [|discriminate].
  destruct (String.eqb_spec (sub_status row) "Pending") as [Hp|Hp]; simpl;
    [|discriminate].
  intros _. apply fetchone_some in Eq as [Hin Hq].
  apply andb_true_iff in Hq as [H1 H2]. apply Z.eqb_eq in H1, H2.
  exists row. repeat (split; [assumption|]).
  split; [apply remove_if_present_gone|].
  assert (forall s, In s (List.filter (fun r => negb (sub_id r =? i))
                                      (submissions (db st))) -> sub_id s <> i) as Hgone.
  { intros s Hs. apply List.filter_In in Hs as [_ Hs].
    now apply negb_true_iff, Z.eqb_neq in Hs. }
  split; [|split].
  - intros sess content. unfold download_file, login_required.
    destruct sess as [sd2|]; [|discriminate].
    destruct (fetchone _ _); [|discriminate].
    destruct (_ && _); [discriminate|].
    unfold send_from_directory. simpl files.
    rewrite remove_if_present_gone. discriminate.
  - intros student_id v Hv.
    apply in_submissions_view in Hv as (s & a & Hs & _ & _ & _ & ->).
    simpl. apply Hgone. exact Hs.
  - intros s u a Hv. apply in_faculty_rows in Hv as (Hs & _). apply Hgone. exact Hs.
Qed.


(** *** Invariants of the review columns and of the references *)

Lemma handle_reviews (e : env) (sess : session) (c : call) (st : state) :
  reviews_consistent (db st) -> reviews_consistent (db (snd (handle e sess c st))).
Proof.
  unfold reviews_consistent. intros Hok.
  destruct (handle e sess c st) as [[r0 s1] st1] eqn:H.
  apply handle_effect_of in H. simpl.
  inversion H as [c0 s0 Hc Hs Hst|req d Hi|req u up Hq Hv
                 |sd req f a Hs Hr Hw Hq|sd i row Hs Hr Hq Hp
                 |sd req row Hs Hr Ha Hq|sd req t d Hs Hr Ht Hi]; subst; simpl.
  - auto.
  - apply insert_user_tables in Hi as (_ & _ & _ & _ & -> & _). auto.
  - destruct up; simpl; auto.
  - apply List.Forall_app. split.
    + rewrite List.Forall_forall in *. intros r Hin. apply Hok.
      eapply in_replace_pending; eauto.
    + constructor; [|constructor]. left. simpl. auto.
  - rewrite List.Forall_forall in *. intros r Hin. apply Hok.
    apply List.filter_In in Hin. tauto.
  - rewrite List.Forall_forall in *. intros r Hin.
    apply in_map_iff in Hin as (r1 & <- & Hin).
    destruct (int_eq_text (sub_id r1) _); [|auto].
    right. simpl. split; [exact Ha|]. split; [apply now_text_nonempty|eauto].
  - apply insert_assignment_tables in Hi as (_ & _ & _ & _ & -> & _). auto.
Qed.

(** X16. In every reachable store each submission is Pending with an
    empty comment, an empty review time and no reviewer, or it is Approved
    or Rejected with a review time and a reviewer. *)
Theorem reachable_reviews_consistent (st : state) :
  reachable st -> reviews_consistent (db st).
Proof.
  induction 1 as [salt|e sess c st _ IH|salt st _ IH].
  - unfold reviews_consistent.
    change (db (initial_state salt)) with (seed_data salt empty_db).
    destruct (seed_data_grows salt empty_db) as (_ & _ & -> & _). constructor.
  - now apply handle_reviews.
  - unfold reviews_consistent in *.
    change (db (init_db salt st)) with (seed_data salt (db st)).
    now destruct (seed_data_grows salt (db st)) as (_ & _ & -> & _).
Qed.

Lemma NoDup_snoc_seq {A : Type} (key : A -> Z) (l : list A) (x : A) (sq : Z) :
  List.NoDup (map key l) -> Forall (fun y => key y <= sq) l -> key x = sq + 1 ->
  List.NoDup (map key (l ++ [x])).
Proof.
  intros Hnd Hle Hk. apply NoDup_map_snoc; auto.
  intros Hin. apply in_map_iff in Hin as (y & Hy & Hin).
  rewrite List.Forall_forall in Hle. specialize (Hle y Hin). lia.
Qed.

Lemma Forall_snoc_seq {A : Type} (key : A -> Z) (l : list A) (x : A) (sq : Z) :
  Forall (fun y => key y <= sq) l -> key x = sq + 1 ->
  Forall (fun y => key y <= sq + 1) (l ++ [x]).
Proof.
  intros Hle Hk. apply List.Forall_app. split.
  - eapply List.Forall_impl; [|exact Hle]. simpl. intros; lia.
  - constructor; [lia|constructor].
Qed.

Lemma Forall_in_map_app {A B : Type} (key : B -> Z) (ref : A -> Z) (l : list A)
    (rows more : list B) :
  Forall (fun r => In (ref r) (map key rows)) l ->
  Forall (fun r => In (ref r) (map key (rows ++ more))) l.
Proof.
  apply List.Forall_impl. intros r Hin. rewrite map_app. apply in_or_app. now left.
Qed.

Lemma existsb_title_false (l : list assignment) (title : string) :
  existsb (fun a => String.eqb (asg_title a) title) l = false ->
  ~ In title (map asg_title l).
Proof.
  intros H Hin. apply in_map_iff in Hin as (a & Ha & Hin).
  assert (existsb (fun a => String.eqb (asg_title a) title) l = true) as Ht.
  { apply existsb_exists. exists a. split; auto. now apply String.eqb_eq. }
  congruence.
Qed.

Lemma insert_user_refs (name email password role : string) (d d' : database) :
  role = "student" \/ role = "faculty" ->
  store_refs d -> insert_user name email password role d = Some d' -> store_refs d'.
Proof.
  intros Hrole [H1 H2 H3 H4 H5 H6 H7 H8 H9 H10] Hi.
  apply insert_user_tables in Hi as (E1 & E2 & E3 & E4 & E5 & E6 & E7 & E8).
  constructor; rewrite ?E1, ?E2, ?E3, ?E4, ?E5, ?E6, ?E7, ?E8; auto.
  - eapply NoDup_snoc_seq; eauto.
  - now apply (Forall_snoc_seq user_id).
  - apply List.Forall_app. split; auto.
  - now apply Forall_in_map_app.
Qed.

Lemma insert_assignment_refs (title description deadline : string) (d d' : database) :
  store_refs d -> insert_assignment title description deadline d = Some d' ->
  store_refs d'.
Proof.
  intros [H1 H2 H3 H4 H5 H6 H7 H8 H9 H10] Hi.
  assert (~ In title (map asg_title (assignments d))) as Hfresh.
  { apply existsb_title_false. unfold insert_assignment in Hi.
    destruct (existsb _ _); [discriminate|reflexivity]. }
  apply insert_assignment_tables in Hi as (E1 & E2 & E3 & E4 & E5 & E6 & E7 & E8).
  constructor; rewrite ?E1, ?E2, ?E3, ?E4, ?E5, ?E6, ?E7, ?E8; auto.
  - eapply NoDup_snoc_seq; eauto.
  - now apply (Forall_snoc_seq asg_id).
  - now apply NoDup_map_snoc.
  - now apply Forall_in_map_app.
Qed.

Lemma skip_user_refs (d : database) : store_refs d -> store_refs (skip_user d).
Proof.
  intros [H1 H2 H3 H4 H5 H6 H7 H8 H9 H10]. constructor; simpl; auto.
  eapply List.Forall_impl; [|exact H2]. simpl. intros; lia.
Qed.

Lemma skip_assignment_refs (d : database) :
  store_refs d -> store_refs (skip_assignment d).
Proof.
  intros [H1 H2 H3 H4 H5 H6 H7 H8 H9 H10]. constructor; simpl; auto.
  eapply List.Forall_impl; [|exact H5]. simpl. intros; lia.
Qed.

Lemma seed_data_refs (salt : string) (d : database) :
  store_refs d -> store_refs (seed_data salt d).
Proof.
  intros Hd. unfold seed_data.
  assert (forall l d0, store_refs d0 ->
            Forall (fun '(_, _, _, role) => role = "student" \/ role = "faculty") l ->
            store_refs
              (fold_left (fun acc '(name, email, password, role) =>
                            or_ignore (insert_user name email
                                         (hash_password salt password) role)
                                      skip_user acc)
                         l d0)) as Hu.
  { induction l as [|[[[n m] p] r] l IH]; intros d0 H0 Hl; simpl; auto.
    inversion Hl as [|x l' Hr Hl']; subst. apply IH; auto.
    unfold or_ignore.
    destruct (insert_user _ _ _ _ d0) eqn:E; [|now apply skip_user_refs].
    eapply insert_user_refs; eauto. }
  assert (forall l d0, store_refs d0 ->
            store_refs
              (fold_left (fun acc '(title, description, deadline) =>
                            or_ignore (insert_assignment title description deadline)
                                      skip_assignment acc)
                         l d0)) as Ha.
  { induction l as [|[[n m] p] l IH]; intros d0 H0; simpl; auto.
    apply IH. unfold or_ignore.
    destruct (insert_assignment _ _ _ d0) eqn:E; [|now apply skip_assignment_refs].
    eapply insert_assignment_refs; eauto. }
  apply Ha, Hu; auto.
  unfold SEED_USERS.
  repeat (apply List.Forall_cons; [simpl; tauto|]). apply List.Forall_nil.
Qed.

Lemma empty_db_refs : store_refs empty_db.
Proof. constructor; simpl; constructor. Qed.

Lemma handle_refs (e : env) (sess : session) (c : call) (st : state) :
  store_refs (db st) -> store_refs (db (snd (handle e sess c st))).
Proof.
  intros Hok.
  destruct (handle e sess c st) as [[r0 s1] st1] eqn:H.
  apply handle_effect_of in H. simpl.
  inversion H as [c0 s0 Hc Hs Hst|req d Hi|req u up Hq Hv
                 |sd req f a Hs Hr Hw Hq|sd i row Hs Hr Hq Hp
                 |sd req row Hs Hr Ha Hq|sd req t d Hs Hr Ht Hi]; subst; simpl.
  - auto.
  - eapply (insert_user_refs _ _ _ "student"); [now left|exact Hok|exact Hi].
  - apply fetchone_some in Hq as [Hin _].
    destruct Hok as [H1 H2 H3 H4 H5 H6 H7 H8 H9 H10].
    assert (In (user_id u) (map user_id (users (db st)))) as Hu by now apply in_map.
    assert (forall i p,
              map user_id
                  (map (fun u => if user_id u =? i
                                 then mkUser (user_id u) (user_name u) (user_email u) p
                                             (user_role u)
                                 else u) (users (db st)))
              = map user_id (users (db st))) as Hids.
    { intros i p. rewrite map_map. apply map_ext. intros v.
      now destruct (user_id v =? i). }
    destruct up; constructor; simpl; rewrite ?Hids; auto.
    + rewrite List.Forall_forall in *. intros v Hv'.
      apply in_map_iff in Hv' as (v0 & <- & Hv0).
      destruct (user_id v0 =? user_id u); simpl; auto.
    + rewrite List.Forall_forall in *. intros v Hv'.
      apply in_map_iff in Hv' as (v0 & <- & Hv0).
      destruct (user_id v0 =? user_id u); simpl; auto.
    + eapply NoDup_snoc_seq; eauto.
    + now apply (Forall_snoc_seq log_id).
    + apply List.Forall_app. split; auto.
    + eapply NoDup_snoc_seq; eauto.
    + now apply (Forall_snoc_seq log_id).
    + apply List.Forall_app. split; auto.
  - apply fetchone_some in Hq as [Hin _].
    destruct (replace_pending_tables (s_user_id sd) (field "assignment_id" req) st)
      as (E1 & E2 & E3 & E4 & E5 & E6).
    destruct Hok as [H1 H2 H3 H4 H5 H6 H7 H8 H9 H10].
    constructor; simpl; rewrite ?E1, ?E2, ?E3, ?E4, ?E5, ?E6; auto.
    apply List.Forall_app. split.
    + rewrite List.Forall_forall in *. intros r Hr'. apply H7.
      eapply in_replace_pending; eauto.
    + constructor; [|constructor]. simpl. now apply in_map.
  - destruct Hok as [H1 H2 H3 H4 H5 H6 H7 H8 H9 H10].
    constructor; simpl; auto.
    rewrite List.Forall_forall in *. intros r Hr'. apply H7.
    apply List.filter_In in Hr'. tauto.
  - destruct Hok as [H1 H2 H3 H4 H5 H6 H7 H8 H9 H10].
    constructor; simpl; auto.
    rewrite List.Forall_forall in *. intros r Hr'.
    apply in_map_iff in Hr' as (r1 & <- & Hr1).
    destruct (int_eq_text (sub_id r1) _); simpl; auto.
  - eapply insert_assignment_refs; eauto.
Qed.

Lemma reachable_refs (st : state) : reachable st -> store_refs (db st).
Proof.
  induction 1 as [salt|e sess c st _ IH|salt st _ IH].
  - simpl. apply seed_data_refs, empty_db_refs.
  - now apply handle_refs.
  - simpl. now apply seed_data_refs.
Qed.

(** X17. In every reachable store the ids of the users, of the assignments
    and of the login logs are distinct and at most their counters, the titles
    of the assignments are distinct, every role is [student] or [faculty],
    every submission refers to an assignment of the store and every login
    log to a user of the store. *)
Theorem reachable_references_resolve (st : state) :
  reachable st -> store_refs (db st).
Proof. apply reachable_refs. Qed.

(** *** The queries of the two dashboards *)

Lemma insert_desc_perm {A : Type} (key : A -> string) (x : A) (l : list A) :
  Permutation (insert_desc key x l) (x :: l).
Proof.
  induction l as [|y l IH]; simpl; [reflexivity|].
  destruct (String.leb (key x) (key y)); [|reflexivity].
  rewrite IH. apply perm_swap.
Qed.

Lemma order_by_desc_perm {A : Type} (key : A -> string) (l : list A) :
  Permutation (order_by_desc key l) l.
Proof.
  unfold order_by_desc.
  assert (forall acc, Permutation (fold_left (fun acc x => insert_desc key x acc) l acc)
                                  (acc ++ l)) as H.
  { induction l as [|x l IH]; simpl; intros acc.
    - now rewrite app_nil_r.
    - rewrite IH, insert_desc_perm. apply (Permutation_middle acc l x). }
  apply (H []).
Qed.

Lemma insert_desc_sorted {A : Type} (key : A -> string) (x : A) (l : list A) :
  Sorted (fun a b => text_ge (key a) (key b)) l ->
  Sorted (fun a b => text_ge (key a) (key b)) (insert_desc key x l).
Proof.
  unfold text_ge. induction l as [|y l IH]; simpl; intros Hs.
  - repeat constructor.
  - apply Sorted_inv in Hs as [Hs Hhd].
    destruct (String.leb (key x) (key y)) eqn:E.
    + constructor; [auto|].
      destruct l as [|z l]; simpl.
      * constructor. exact E.
      * destruct (String.leb (key x) (key z)); constructor; auto.
        now apply HdRel_inv in Hhd.
    + constructor; [constructor; auto|]. constructor.
      destruct (String.leb_total (key x) (key y)) as [H|H]; [congruence|exact H].
Qed.

Lemma order_by_desc_sorted {A : Type} (key : A -> string) (l : list A) :
  StronglySorted (fun a b => text_ge (key a) (key b)) (order_by_desc key l).
Proof.
  apply Sorted_StronglySorted.
  { intros a b c. unfold text_ge. intros H1 H2. eapply leb_trans; eauto. }
  unfold order_by_desc.
  assert (forall acc, Sorted (fun a b => text_ge (key a) (key b)) acc ->
                      Sorted (fun a b => text_ge (key a) (key b))
                             (fold_left (fun acc x => insert_desc key x acc) l acc)) as H.
  { induction l as [|x l IH]; simpl; intros acc Hacc; auto.
    apply IH. now apply insert_desc_sorted. }
  apply H. constructor.
Qed.

Lemma StronglySorted_map {A B : Type} (f : A -> B) (R : B -> B -> Prop) (l : list A) :
  StronglySorted (fun a b => R (f a) (f b)) l -> StronglySorted R (map f l).
Proof.
  induction 1 as [|x l Hs IH Hx]; simpl; constructor; auto.
  rewrite List.Forall_forall in *. intros y Hy.
  apply in_map_iff in Hy as (z & <- & Hz). auto.
Qed.

Lemma StronglySorted_app {A : Type} (R : A -> A -> Prop) (l1 l2 : list A) :
  StronglySorted R (l1 ++ l2) ->
  StronglySorted R l1 /\ forall x y, In x l1 -> In y l2 -> R x y.
Proof.
  induction l1 as [|a l1 IH]; simpl; intros H.
  - split; [constructor|contradiction].
  - apply StronglySorted_inv in H as [Hs Ha]. destruct (IH Hs) as [H1 H2].
    rewrite List.Forall_forall in Ha. split.
    + constructor; auto. rewrite List.Forall_forall. intros y Hy. apply Ha.
      apply in_or_app. now left.
    + intros x y [<-|Hx] Hy; auto. apply Ha. apply in_or_app. now right.
Qed.

(** X18. The rows of a student's dashboard are exactly the submissions of
    that student, each joined with the assignments that have its assignment
    id, and they come in descending order of the submission time (as
    texts). *)
Theorem student_view_spec (student_id : Z) (d : database) :
  let view := submissions_view student_id d in
  (forall v : view_row,
     In v view <->
     exists (s : submission) (a : assignment),
       In s (submissions d) /\ In a (assignments d)
       /\ sub_student_id s = student_id /\ asg_id a = sub_assignment_id s
       /\ v = view_of (s, a))
  /\ StronglySorted (fun v w => text_ge (v_submitted_at v) (v_submitted_at w)) view.
Proof.
  cbv zeta. split; [intros v; apply in_submissions_view|].
  - unfold submissions_view. apply StronglySorted_map.
    unfold student_rows.
    pose proof (order_by_desc_sorted
                  (fun p : submission * assignment => sub_submitted_at (fst p))) as H.
    eapply StronglySorted_weaken; [|apply H].
    intros [s a] [s' a'] _ _. simpl. auto.
Qed.

Lemma filter_key_none {A : Type} (key : A -> Z) (l : list A) (i : Z) :
  ~ In i (map key l) -> List.filter (fun a => key a =? i) l = [].
Proof.
  induction l as [|x l IH]; simpl; intros H; [reflexivity|].
  destruct (Z.eqb_spec (key x) i) as [Heq|Hne]; [exfalso; auto|].
  apply IH. auto.
Qed.

Lemma filter_key_one {A : Type} (key : A -> Z) (l : list A) (i : Z) :
  List.NoDup (map key l) -> In i (map key l) ->
  exists a, In a l /\ key a = i /\ List.filter (fun a => key a =? i) l = [a].
Proof.
  induction l as [|x l IH]; simpl; intros Hnd Hin; [contradiction|].
  apply List.NoDup_cons_iff in Hnd as [Hx Hnd].
  destruct (Z.eqb_spec (key x) i) as [Heq|Hne].
  - exists x. split; [now left|]. split; [exact Heq|].
    rewrite filter_key_none; [reflexivity|congruence].
  - destruct Hin as [Hin|Hin]; [contradiction|].
    destruct (IH Hnd Hin) as (a & Ha & Hk & Hf). exists a. auto.
Qed.

Lemma existsb_key {A : Type} (key : A -> Z) (l : list A) (i : Z) :
  existsb (fun a => key a =? i) l = true <-> In i (map key l).
Proof.
  rewrite existsb_exists, in_map_iff. split.
  - intros (a & Ha & Hk). apply Z.eqb_eq in Hk. eauto.
  - intros (a & Hk & Ha). exists a. split; auto. now apply Z.eqb_eq.
Qed.

(** X19. In a reachable store the dashboard of a student shows each of the
    student's submissions exactly once: the ids shown are distinct and are,
    up to order, the ids of the student's rows. *)
Theorem view_rows_once (st : state) (student_id : Z) :
  reachable st ->
  let view := submissions_view student_id (db st) in
  let mine := List.filter (fun s => sub_student_id s =? student_id)
                          (submissions (db st)) in
  Permutation (map v_id view) (map sub_id mine)
  /\ List.NoDup (map v_id view)
  /\ length view = length mine.
Proof.
  intros Hreach. cbv zeta.
  pose proof (reachable_refs st Hreach) as Hrefs.
  pose proof (reachable_ok st Hreach) as Hok.
  assert (Permutation (map v_id (submissions_view student_id (db st)))
            (map sub_id (List.filter (fun s => sub_student_id s =? student_id)
                                     (submissions (db st))))) as Hperm.
  { unfold submissions_view, student_rows. rewrite map_map.
    rewrite (Permutation_map _ (order_by_desc_perm _ _)).
    match goal with |- Permutation ?a ?b => assert (a = b) as ->; [|reflexivity] end.
    destruct Hrefs as [_ _ _ Hids _ _ Hsub _ _ _].
    induction (submissions (db st)) as [|s l IH]; simpl; [reflexivity|].
    inversion Hsub as [|s' l' Hs Hl]; subst.
    rewrite map_app, (IH Hl).
    destruct (sub_student_id s =? student_id); simpl; [|reflexivity].
    destruct (filter_key_one asg_id _ _ Hids Hs) as (a & _ & _ & ->).
    reflexivity. }
  split; [exact Hperm|]. split.
  - eapply Permutation_NoDup; [symmetry; exact Hperm|].
    apply NoDup_map_filter. apply Hok.
  - apply Permutation_length in Hperm. now rewrite !length_map in Hperm.
Qed.

(** X20. The rows of the faculty dashboard are exactly the submissions
    joined with the users that have their student id and the assignments
    that have their assignment id, in descending order of the submission
    time (as texts); in a reachable store each submission whose student id is
    the id of an account is listed exactly once. *)
Theorem faculty_rows_spec (d : database) :
  (forall (s : submission) (u : user) (a : assignment),
     In (s, u, a) (faculty_rows d) <->
     In s (submissions d) /\ In u (users d) /\ In a (assignments d)
     /\ user_id u = sub_student_id s /\ asg_id a = sub_assignment_id s)
  /\ StronglySorted
       (fun p q => text_ge (sub_submitted_at (fst (fst p)))
                           (sub_submitted_at (fst (fst q))))
       (faculty_rows d)
  /\ forall st : state,
       reachable st ->
       Permutation
         (map (fun p => sub_id (fst (fst p))) (faculty_rows (db st)))
         (map sub_id
              (List.filter
                 (fun s => existsb (fun u => user_id u =? sub_student_id s)
                                   (users (db st)))
                 (submissions (db st)))).
Proof.
  split; [apply in_faculty_rows|]. split.
  - unfold faculty_rows.
    apply (order_by_desc_sorted
             (fun p : submission * user * assignment => sub_submitted_at (fst (fst p)))).
  - intros st Hreach.
    pose proof (reachable_refs st Hreach) as Hrefs.
    unfold faculty_rows. rewrite (Permutation_map _ (order_by_desc_perm _ _)).
    match goal with |- Permutation ?a ?b => assert (a = b) as ->; [|reflexivity] end.
    destruct Hrefs as [Huids _ _ Hids _ _ Hsub _ _ _].
    induction (submissions (db st)) as [|s l IH]; simpl; [reflexivity|].
    inversion Hsub as [|s' l' Hs Hl]; subst.
    rewrite map_app, (IH Hl).
    destruct (filter_key_one asg_id _ _ Hids Hs) as (a & _ & _ & ->).
    destruct (existsb (fun u => user_id u =? sub_student_id s) (users (db st)))
      eqn:Ex.
    + apply (existsb_key user_id) in Ex.
      destruct (filter_key_one user_id _ _ Huids Ex) as (u & _ & _ & ->).
      reflexivity.
    + rewrite (filter_key_none user_id); [reflexivity|].
      intros Hin. apply (existsb_key user_id) in Hin. congruence.
Qed.

Lemma in_log_join (d : database) (l : login_log) (u : user) :
  In (l, u)
     (flat_map (fun l => map (fun u => (l, u))
                             (List.filter (fun u => user_id u =? log_user_id l) (users d)))
               (login_logs d))
  <-> In l (login_logs d) /\ In u (users d) /\ user_id u = log_user_id l.
Proof.
  rewrite in_flat_map. split.
  - intros (l0 & Hl0 & Hin). apply in_map_iff in Hin as (u0 & Heq & Hu0).
    injection Heq as -> ->. apply List.filter_In in Hu0 as [Hu0 Hu].
    apply Z.eqb_eq in Hu. auto.
  - intros (Hl & Hu & Hi). exists l. split; auto. apply in_map.
    apply List.filter_In. split; auto. now apply Z.eqb_eq.
Qed.

(** X21. The login activity shown to the faculty has at most 50 entries,
    in descending order of the login time (as texts).  It is a head of the
    login logs joined with their users: the entries left out are not more
    recent than those shown, and entries are left out only when 50 are
    shown.  In a reachable store it has 50 entries, or as many as there are
    login logs if these are fewer. *)
Theorem recent_logs_spec (d : database) :
  let recent := recent_logs d in
  let time := fun p : login_log * user => log_login_time (fst p) in
  (length recent <= 50)%nat
  /\ StronglySorted (fun p q => text_ge (time p) (time q)) recent
  /\ (exists rest : list (login_log * user),
        (forall (l : login_log) (u : user),
           In (l, u) (recent ++ rest) <->
           In l (login_logs d) /\ In u (users d) /\ user_id u = log_user_id l)
        /\ (forall p q, In p recent -> In q rest -> text_ge (time p) (time q))
        /\ (rest <> [] -> length recent = 50%nat))
  /\ forall st : state,
       reachable st ->
       length (recent_logs (db st))
       = Nat.min 50 (length (login_logs (db st))).
Proof.
  cbv zeta. unfold recent_logs.
  set (time := fun p : login_log * user => log_login_time (fst p)).
  set (joined := flat_map _ (login_logs d)).
  pose proof (order_by_desc_sorted time joined) as Hsorted.
  rewrite <- (firstn_skipn 50 (order_by_desc time joined)) in Hsorted.
  apply StronglySorted_app in Hsorted as [Hs Hcross].
  split; [apply firstn_le_length|]. split; [exact Hs|]. split.
  - exists (skipn 50 (order_by_desc time joined)). split; [|split].
    + intros l u. rewrite firstn_skipn, in_order_by_desc. apply in_log_join.
    + exact Hcross.
    + intros Hne. rewrite length_firstn. apply Nat.min_l.
      destruct (Nat.le_gt_cases 50 (length (order_by_desc time joined)))
        as [Hle|Hgt]; [exact Hle|].
      exfalso. apply Hne. apply skipn_all2. lia.
  - intros st Hreach.
    pose proof (reachable_refs st Hreach) as Hrefs.
    rewrite length_firstn. f_equal.
    rewrite (Permutation_length (order_by_desc_perm _ _)).
    destruct Hrefs as [Huids _ _ _ _ _ _ _ _ Hlog].
    induction (login_logs (db st)) as [|l ls IH]; simpl; [reflexivity|].
    inversion Hlog as [|l' ls' Hl Hls]; subst.
    rewrite length_app, (IH Hls).
    destruct (filter_key_one user_id _ _ Huids Hl) as (u & _ & _ & ->).
    reflexivity.
Qed.

(** *** Logging in with a hashed credential, registering, restarting *)



Lemma or_ignore_user_present (name email password role : string) (d : database) :
  In email (map user_email
                (users (or_ignore (insert_user name email password role) skip_user d))).
Proof.
  unfold or_ignore, insert_user.
  destruct (existsb _ (users d)) eqn:Ex; simpl.
  - apply existsb_exists in Ex as (u & Hu & Heq). apply String.eqb_eq in Heq.
    rewrite <- Heq. now apply in_map.
  - rewrite map_app. apply in_or_app. right. now left.
Qed.

Lemma or_ignore_user_skip (name email password role : string) (d : database) :
  In email (map user_email (users d)) ->
  or_ignore (insert_user name email password role) skip_user d = skip_user d.
Proof.
  intros Hin. unfold or_ignore, insert_user.
  destruct (existsb _ (users d)) eqn:Ex; [reflexivity|].
  apply existsb_false_not_in in Ex. contradiction.
Qed.

Lemma or_ignore_assignment_present (title description deadline : string)
    (d : database) :
  In title (map asg_title
                (assignments (or_ignore (insert_assignment title description deadline)
                                        skip_assignment d))).
Proof.
  unfold or_ignore, insert_assignment.
  destruct (existsb _ (assignments d)) eqn:Ex; simpl.
  - apply existsb_exists in Ex as (u & Hu & Heq). apply String.eqb_eq in Heq.
    rewrite <- Heq. now apply in_map.
  - rewrite map_app. apply in_or_app. right. now left.
Qed.

Lemma or_ignore_assignment_skip (title description deadline : string) (d : database) :
  In title (map asg_title (assignments d)) ->
  or_ignore (insert_assignment title description deadline) skip_assignment d
  = skip_assignment d.
Proof.
  intros Hin. unfold or_ignore, insert_assignment.
  destruct (existsb _ (assignments d)) eqn:Ex; [reflexivity|].
  apply existsb_title_false in Ex. contradiction.
Qed.

Lemma seed_users_present (salt : string) (l : list (string * string * string * string))
    (d : database) :
  let d' := fold_left (fun acc '(name, email, password, role) =>
                         or_ignore (insert_user name email (hash_password salt password)
                                                role) skip_user acc) l d in
  forall email,
    In email (map user_email (users d))
    \/ In email (map (fun '(_, email, _, _) => email) l) ->
    In email (map user_email (users d')).
Proof.
  revert d. induction l as [|[[[n m] p] r] l IH]; intros d; simpl.
  - intros email [H|[]]. exact H.
  - intros email H. apply IH.
    destruct H as [H|[<-|H]]; auto.
    + left. unfold or_ignore.
      destruct (insert_user n m (hash_password salt p) r d) as [d1|] eqn:E; auto.
      apply insert_user_tables in E as (-> & _). rewrite map_app.
      apply in_or_app. now left.
    + left. apply or_ignore_user_present.
Qed.

(** Seed rows that are all in the store already leave its rows as they
    are. *)
Lemma seed_users_skip (salt : string) (l : list (string * string * string * string))
    (d : database) :
  (forall email, In email (map (fun '(_, email, _, _) => email) l) ->
                 In email (map user_email (users d))) ->
  users (fold_left (fun acc '(name, email, password, role) =>
                      or_ignore (insert_user name email (hash_password salt password)
                                             role) skip_user acc) l d)
  = users d.
Proof.
  revert d. induction l as [|[[[n m] p] r] l IH]; simpl; intros d H; [reflexivity|].
  rewrite or_ignore_user_skip by auto. now rewrite IH by (simpl; auto).
Qed.

Lemma seed_assignments_present (l : list (string * string * string)) (d : database) :
  let d' := fold_left (fun acc '(title, description, deadline) =>
                         or_ignore (insert_assignment title description deadline)
                                   skip_assignment acc)
                      l d in
  forall title,
    In title (map asg_title (assignments d))
    \/ In title (map (fun '(title, _, _) => title) l) ->
    In title (map asg_title (assignments d')).
Proof.
  revert d. induction l as [|[[n m] p] l IH]; intros d; simpl.
  - intros title [H|[]]. exact H.
  - intros title H. apply IH.
    destruct H as [H|[<-|H]]; auto.
    + left. unfold or_ignore.
      destruct (insert_assignment n m p d) as [d1|] eqn:E; auto.
      apply insert_assignment_tables in E as (-> & _). rewrite map_app.
      apply in_or_app. now left.
    + left. apply or_ignore_assignment_present.
Qed.

Lemma seed_assignments_skip (l : list (string * string * string)) (d : database) :
  (forall title, In title (map (fun '(title, _, _) => title) l) ->
                 In title (map asg_title (assignments d))) ->
  assignments (fold_left (fun acc '(title, description, deadline) =>
                            or_ignore (insert_assignment title description deadline)
                                      skip_assignment acc) l d)
  = assignments d.
Proof.
  revert d. induction l as [|[[n m] p] l IH]; simpl; intros d H; [reflexivity|].
  rewrite or_ignore_assignment_skip by auto. now rewrite IH by (simpl; auto).
Qed.

(** X24. Starting again changes nothing: after [init_db] the emails and the
    titles of the seed rows are in the store, so a second [init_db] leaves
    the users and the assignments as they are; [init_db] keeps every
    account that was there and never touches the submissions, the login logs
    or the files. *)
Theorem init_db_idempotent (salt salt' : string) (st : state) :
  let st1 := init_db salt st in
  let st2 := init_db salt' st1 in
  users (db st2) = users (db st1)
  /\ assignments (db st2) = assignments (db st1)
  /\ submissions (db st2) = submissions (db st)
  /\ login_logs (db st2) = login_logs (db st)
  /\ files st2 = files st
  /\ (forall u, In u (users (db st)) -> In u (users (db st1)))
  /\ (forall email, In email (map (fun '(_, email, _, _) => email) SEED_USERS) ->
                    In email (map user_email (users (db st1))))
  /\ (forall title, In title (map (fun '(title, _, _) => title) SEED_ASSIGNMENTS) ->
                    In title (map asg_title (assignments (db st1)))).
Proof.
  cbv zeta.
  assert (forall email, In email (map (fun '(_, email, _, _) => email) SEED_USERS) ->
                        In email (map user_email (users (seed_data salt (db st)))))
    as Hemails.
  { intros email Hin. unfold seed_data.
    match goal with
    | |- context [fold_left _ SEED_ASSIGNMENTS ?x] =>
        destruct (seed_assignments_grow SEED_ASSIGNMENTS x) as (_ & Hu & _)
    end.
    cbv zeta in Hu. rewrite Hu.
    apply (seed_users_present salt SEED_USERS (db st)). now right. }
  assert (forall title, In title (map (fun '(title, _, _) => title) SEED_ASSIGNMENTS) ->
                        In title (map asg_title (assignments (seed_data salt (db st)))))
    as Htitles.
  { intros title Hin. unfold seed_data.
    match goal with
    | |- context [fold_left _ SEED_ASSIGNMENTS ?x] =>
        apply (seed_assignments_present SEED_ASSIGNMENTS x)
    end.
    now right. }
  destruct (seed_data_grows salt (db st)) as ([mu Hu] & _ & Hs & _ & Hl & _).
  destruct (seed_data_grows salt' (seed_data salt (db st)))
    as (_ & _ & Hs' & _ & Hl' & _).
  assert (users (seed_data salt' (seed_data salt (db st)))
          = users (seed_data salt (db st))) as Husers.
  { unfold seed_data at 1.
    match goal with
    | |- context [fold_left _ SEED_ASSIGNMENTS ?x] =>
        destruct (seed_assignments_grow SEED_ASSIGNMENTS x) as (_ & Hx & _)
    end.
    cbv zeta in Hx. rewrite Hx.
    apply (seed_users_skip salt' SEED_USERS _ Hemails). }
  assert (assignments (seed_data salt' (seed_data salt (db st)))
          = assignments (seed_data salt (db st))) as Hasgs.
  { unfold seed_data at 1.
    destruct (seed_users_grow salt' SEED_USERS (seed_data salt (db st)))
      as (_ & Hx & _).
    cbv zeta in Hx.
    etransitivity; [apply (seed_assignments_skip SEED_ASSIGNMENTS)|exact Hx].
    intros title Hin. rewrite Hx. now apply Htitles. }
  unfold init_db. cbn [db files].
  split; [exact Husers|]. split; [exact Hasgs|].
  split; [now rewrite Hs'|]. split; [now rewrite Hl'|]. split; [reflexivity|].
  split; [|split]; auto.
  intros u Hin. rewrite Hu. apply in_or_app. now left.
Qed.

(** X25. [allowed_file] looks only at the text after the last dot: a name
    without a dot is refused, and [base.ext], with no dot in [ext], is
    accepted exactly when [ext] reads [pdf] in lower case.  So [base.pdf] and
    [base.PDF] are accepted, [base.pdf.] and [base.pdf.exe] are not. *)
Theorem allowed_file_by_last_extension (name base ext : string) :
  (PyStr.contains "." name = false -> allowed_file name = false)
  /\ (PyStr.contains "." ext = false ->
      allowed_file (base +:+ String "." ext) = String.eqb (PyStr.lower ext) "pdf")
  /\ allowed_file (base +:+ ".pdf") = true
  /\ allowed_file (base +:+ ".PDF") = true
  /\ allowed_file (base +:+ ".pdf.") = false
  /\ allowed_file (base +:+ ".pdf.exe") = false.
Proof.
  assert (forall b x, PyStr.contains "." x = false ->
            allowed_file (b +:+ String "." x) = String.eqb (PyStr.lower x) "pdf") as H.
  { intros b x Hx. unfold allowed_file.
    assert (PyStr.rsplit1 "." (b +:+ String "." x) = Some (b, x)) as E
      by (apply rsplit1_some; auto).
    rewrite E.
    destruct (PyStr.contains "." (b +:+ String "." x)) eqn:C.
    - simpl. apply orb_false_r.
    - apply rsplit1_none in C. congruence. }
  split.
  { intros Hn. unfold allowed_file. now rewrite Hn. }
  split; [apply H|].
  split; [apply (H base "pdf"); reflexivity|].
  split; [apply (H base "PDF"); reflexivity|].
  split.
  - replace (base +:+ ".pdf.") with ((base +:+ ".pdf") +:+ String "." "").
    + rewrite H; reflexivity.
    + now rewrite append_assoc.
  - replace (base +:+ ".pdf.exe") with ((base +:+ ".pdf") +:+ String "." "exe").
    + rewrite H; reflexivity.
    + now rewrite append_assoc.
Qed.

(** X26. An accepted upload, in a store that satisfies the invariants of
    the reachable ones, writes the uploaded content under the new file
    name; when the student had a Pending submission for the assignment,
    the file of that submission is removed (unless the new file has its
    name) and every other file is as it was; when the student had none,
    every file but the new one is as it was. *)
Theorem upload_touches_two_files (e : env) (sd : session_data) (req : request)
    (st : state) :
  s_role sd = "student" -> method req = POST -> store_ok (db st) ->
  let out := student_dashboard e (Some sd) req st in
  let stu := s_user_id sd in
  fst out = SUBMITTED ->
  exists (f : file_storage) (a : assignment),
    upload req !! "pdf_file" = Some f
    /\ In a (assignments (db st))
    /\ sql_integer (field "assignment_id" req) = Some (asg_id a)
    /\ let name := final_name e stu (field "assignment_id" req) f in
       files (snd out) !! name = Some (stream f)
       /\ (forall old : submission,
             In old (submissions (db st)) ->
             is_pending_for stu (asg_id a) old = true ->
             (sub_file_name old <> name ->
              files (snd out) !! sub_file_name old = None)
             /\ forall other : string,
                  other <> name -> other <> sub_file_name old ->
                  files (snd out) !! other = files st !! other)
       /\ ((forall r : submission,
              In r (submissions (db st)) ->
              is_pending_for stu (asg_id a) r = false) ->
           forall other : string,
             other <> name -> files (snd out) !! other = files st !! other).
Proof.
  intros Hr Hm Hok. cbv zeta.
  rewrite (student_dashboard_post e sd req st Hr Hm). intros Hs.
  apply submitted_inv in Hs as (f & a & Hw & Hq & Hi & ->).
  apply fetchone_some in Hq as [Hin _].
  exists f, a. split; [apply Hw|]. split; [exact Hin|]. split; [exact Hi|].
  split; [simpl; apply lookup_insert_eq|]. split.
  - intros old Ho Hp.
    rewrite (replace_pending_some (s_user_id sd) (asg_id a) _ st old Hi Hok Ho Hp).
    simpl. split.
    + intros Hne. rewrite lookup_insert_ne by congruence.
      apply remove_if_present_gone.
    + intros other Hn1 Hn2. rewrite lookup_insert_ne by congruence.
      apply remove_if_present_other. congruence.
  - intros Hnone other Hne.
    rewrite (replace_pending_none (s_user_id sd) (asg_id a) _ st Hi Hnone).
    simpl. now rewrite lookup_insert_ne by congruence.
Qed.


(** ** No orphan files; texts that are no times *)

Lemma delete_keeps_files_rows (i : Z) (row : submission) (st : state) :
  List.NoDup (map sub_id (submissions (db st))) ->
  In row (submissions (db st)) -> sub_id row = i ->
  files_have_rows st ->
  files_have_rows (mkState (delete_submission_row i (db st))
                           (remove_if_present (sub_file_name row) (files st))).
Proof.
  intros Hnd Hin Hid Hok name content. simpl. intros Hf.
  destruct (String.eqb_spec (sub_file_name row) name) as [Heq|Hne].
  { rewrite <- Heq, remove_if_present_gone in Hf. discriminate. }
  rewrite remove_if_present_other in Hf by exact Hne.
  destruct (Hok name content Hf) as (r & Hr & Hname).
  exists r. split; [|exact Hname]. apply List.filter_In. split; [exact Hr|].
  apply negb_true_iff, Z.eqb_neq. intros Hri. apply Hne. rewrite <- Hname. f_equal.
  eapply NoDup_map_eq; eauto. congruence.
Qed.

Lemma handle_files_rows (e : env) (sess : session) (c : call) (st : state) :
  store_ok (db st) -> files_have_rows st ->
  files_have_rows (snd (handle e sess c st)).
Proof.
  intros Hok Hfiles.
  destruct (handle e sess c st) as [[r0 s1] st1] eqn:H.
  apply handle_effect_of in H. simpl.
  inversion H as [c0 s0 Hc Hs Hst|req d Hi|req u up Hq Hv
                 |sd req f a Hs Hr Hw Hq|sd i row Hs Hr Hq Hp
                 |sd req row Hs Hr Ha Hq|sd req t d Hs Hr Ht Hi]; subst.
  - exact Hfiles.
  - apply insert_user_tables in Hi as (_ & _ & _ & _ & Hsub & _).
    intros name content Hf. simpl in *. rewrite Hsub. eauto.
  - intros name content Hf. simpl in *.
    destruct up; simpl; eauto.
  - assert (files_have_rows
              (replace_pending (s_user_id sd) (field "assignment_id" req) st)) as Hmid.
    { unfold replace_pending.
      destruct (fetchone _ (submissions (db st))) as [old|] eqn:Eo; [|exact Hfiles].
      apply fetchone_some in Eo as [Hold _].
      apply delete_keeps_files_rows; auto. apply Hok. }
    intros name content Hf. rewrite store_new_rows.
    simpl in Hf.
    destruct (String.eqb_spec
                (final_name e (s_user_id sd) (field "assignment_id" req) f) name)
      as [Heq|Hne].
    + eexists. split; [apply in_or_app; right; left; reflexivity|exact Heq].
    + rewrite lookup_insert_ne in Hf by exact Hne.
      destruct (Hmid name content Hf) as (r & Hr' & Hname).
      exists r. split; [apply in_or_app; now left|exact Hname].
  - apply fetchone_some in Hq as [Hrow Hq].
    apply andb_true_iff in Hq as [Hq _]. apply Z.eqb_eq in Hq.
    apply delete_keeps_files_rows; auto. apply Hok.
  - intros name content Hf. simpl in *.
    destruct (Hfiles name content Hf) as (r & Hr' & Hname).
    eexists. split; [apply in_map; exact Hr'|].
    destruct (int_eq_text (sub_id r) _); exact Hname.
  - apply insert_assignment_tables in Hi as (_ & _ & _ & _ & Hsub & _).
    intros name content Hf. simpl in *. rewrite Hsub. eauto.
Qed.

(** X28. No orphan files: from a first start with an empty upload
    directory, every file of the directory is at all times the file of a
    submission row; uploads, replacements, deletions and restarts leave no
    file behind. *)
Theorem reachable_no_orphan_files (st : state) :
  reachable st -> files_have_rows st.
Proof.
  intros Hreach. induction Hreach as [salt|e sess c st Hr IH|salt st Hr IH].
  - intros name content Hf. simpl in Hf. rewrite lookup_empty in Hf. discriminate.
  - apply handle_files_rows; [now apply reachable_ok|exact IH].
  - intros name content Hf. simpl in Hf.
    destruct (IH name content Hf) as (r & Hin & Hname).
    exists r. split; [|exact Hname].
    change (db (init_db salt st)) with (seed_data salt (db st)).
    now destruct (seed_data_grows salt (db st)) as (_ & _ & -> & _).
Qed.

(** X29. A text without a colon is not a time: [%Y-%m-%d %H:%M:%S] needs
    two colons, and a text with none is read by neither format of
    [parse_dt] nor by the format of the deadline field, so it never makes a
    submission late, and a deadline typed without a colon is refused with
    "Deadline format is invalid.", the store staying as it was. *)
Theorem texts_without_colon_do_not_parse (s : string) :
  ((colons s < 2)%nat -> DateTime.strptime s DateTime.FMT_SECONDS = None)
  /\ (colons s = 0%nat ->
      parse_dt s = None
      /\ DateTime.strptime s DateTime.FMT_LOCAL = None
      /\ (forall other : string,
            late_flag s other = false /\ late_flag other s = false)
      /\ forall (e : env) (sd : session_data) (req : request) (st : state),
           s_role sd = "faculty" -> method req = POST ->
           field "form_type" req = "assignment" ->
           field "title" req <> "" -> field "description" req <> "" ->
           field "deadline" req = s -> s <> "" ->
           faculty_dashboard e (Some sd) req st
           = (flash_redirect "Deadline format is invalid." "error" ep_faculty_dashboard,
              st)).
Proof.
  assert (forall fmt n,
            length (List.filter is_colon fmt) = n -> (colons s < n)%nat ->
            DateTime.strptime s fmt = None) as Hnone.
  { intros fmt n Hn Hlt. unfold DateTime.strptime.
    destruct (DateTime.re_match fmt s DateTime.DEFAULTS) as [[t rest]|] eqn:E;
      [|reflexivity].
    apply re_match_colons in E. lia. }
  split; [intros Hlt; now apply (Hnone DateTime.FMT_SECONDS 2%nat)|].
  intros Hz.
  assert (DateTime.strptime s DateTime.FMT_SECONDS = None) as H1
    by (apply (Hnone _ 2%nat); [reflexivity|lia]).
  assert (DateTime.strptime s DateTime.FMT_MINUTES = None) as H2
    by (apply (Hnone _ 1%nat); [reflexivity|lia]).
  assert (DateTime.strptime s DateTime.FMT_LOCAL = None) as H3
    by (apply (Hnone _ 1%nat); [reflexivity|lia]).
  assert (parse_dt s = None) as Hp
    by (unfold parse_dt; simpl; now rewrite H1, H2).
  split; [exact Hp|]. split; [exact H3|]. split.
  - intros other. unfold late_flag. rewrite Hp.
    split; [reflexivity|now destruct (parse_dt other)].
  - intros e sd req st Hr Hm Hf Ht Hd Hs Hne.
    rewrite (faculty_dashboard_create e sd req st Hr Hm Hf).
    unfold faculty_create. rewrite Hs.
    apply truthy_true in Ht, Hd, Hne. rewrite Ht, Hd, Hne. simpl.
    now rewrite H3.
Qed.

End Properties.

(** * The properties at work on concrete requests *)

Import Demo.

Lemma st1_reachable : reachable st1.
Proof. exact (reach_step demo_env (Some arun) (c_student up1) st0 (reach_init "na")). Qed.

Lemma st1_rows : submissions (db st1) = [row1] /\ files st1 !! name1 = Some pdf_bytes.
Proof. split; vm_compute; reflexivity. Qed.




(** C3 at work: a text file named [notes.pdf] is refused as invalid, and a
    PDF for assignment 99 as not found; the store stays as it was. *)
Lemma submit_refusals_witness :
  (error_of (fst (student_dashboard demo_env (Some arun) up_text st1))
   = Some ValidationError
   /\ snd (student_dashboard demo_env (Some arun) up_text st1) = st1)
  /\ (error_of (fst (student_dashboard demo_env (Some arun) up_unknown st1))
      = Some NotFoundError
      /\ snd (student_dashboard demo_env (Some arun) up_unknown st1) = st1).
Proof.
  split.
  - destruct (submit_refusals demo_env arun up_text st1 eq_refl eq_refl) as [H _].
    apply H. right. right.
    exists (mkFile "notes.pdf" [Byte.x68; Byte.x69; Byte.x21; Byte.x0a; Byte.x2e]).
    split; [vm_compute; reflexivity|]. right. right. vm_compute. discriminate.
  - destruct (submit_refusals demo_env arun up_unknown st1 eq_refl eq_refl) as [_ H].
    assert (exists f, well_formed_upload up_unknown f) as Hw.
    { exists (mkFile "hw.pdf" pdf_bytes). unfold well_formed_upload.
      split; [vm_compute; discriminate|]. split; [vm_compute; reflexivity|].
      split; [vm_compute; discriminate|]. split; [|vm_compute; reflexivity].
      exists "hw", "pdf". split; [reflexivity|]. split; reflexivity. }
    assert (forall a, In a (assignments (db st1)) ->
                      int_eq_text (asg_id a) (field "assignment_id" up_unknown) = false)
      as Hnone.
    { intros a Ha. vm_compute in Ha.
      destruct Ha as [<-|[<-|[<-|[]]]]; vm_compute; reflexivity. }
    destruct (H Hw Hnone) as (_ & He & Hst). split; [exact He|exact Hst].
Defined.

(** C4 at work: Arun deletes his Pending submission 1; its row and file
    are gone. *)
Lemma delete_submission_outcomes_witness :
  let out := delete_submission (Some arun) 1 st1 in
  fst out = flash_redirect "Submission deleted." "success" ep_student_dashboard
  /\ ~ In row1 (submissions (db (snd out)))
  /\ files (snd out) !! name1 = None.
Proof.
  pose proof (reachable_ok st1 st1_reachable) as Hok.
  assert (sqlite_int 1) as Hid by (unfold sqlite_int; lia).
  destruct (delete_submission_outcomes arun 1 st1 eq_refl (ok_sub_ids _ Hok) Hid)
    as [_ H].
  assert (In row1 (submissions (db st1))) as Hin by (vm_compute; left; reflexivity).
  destruct (H row1 Hin eq_refl eq_refl) as [_ Hp].
  destruct (Hp eq_refl) as (Hr & _ & Hgone & Hfile & _).
  split; [exact Hr|]. split; [exact Hgone|exact Hfile].
Defined.

(** C5 at work: Meena may not download Arun's file; Arun and Dr. Priya
    get it. *)
Lemma download_file_outcomes_witness :
  error_of (download_file (Some meena) name1 st1) = Some AuthorizationError
  /\ download_file (Some arun) name1 st1 = SendFile name1 pdf_bytes
  /\ download_file (Some priya) name1 st1 = SendFile name1 pdf_bytes.
Proof.
  assert (fetchone (fun r => String.eqb (sub_file_name r) name1)
                   (submissions (db st1)) = Some row1) as Hq
    by (vm_compute; reflexivity).
  assert (files st1 !! name1 = Some pdf_bytes) as Hfile by (apply st1_rows).
  split; [|split].
  - destruct (download_file_outcomes meena name1 st1) as [_ H].
    destruct (H row1 Hq) as [H1 _].
    apply H1; [reflexivity|vm_compute; discriminate].
  - destruct (download_file_outcomes arun name1 st1) as [_ H].
    destruct (H row1 Hq) as (_ & H2 & _ & H4).
    rewrite (H2 eq_refl eq_refl). apply (H4 pdf_bytes Hfile).
  - destruct (download_file_outcomes priya name1 st1) as [_ H].
    destruct (H row1 Hq) as (_ & _ & H3 & H4).
    rewrite (H3 eq_refl). apply (H4 pdf_bytes Hfile).
Defined.


(** C7 at work: Arun's submission, made one second after the deadline of
    assignment 1, is shown as late. *)
Lemma late_flag_of_view_rows_witness :
  let v := mkViewRow 1 name1 "2026-03-05 23:59:01" "Pending" "" ""
                     "Data Structures - Week 1" "2026-03-05 23:59" true in
  In v (submissions_view 2 (db st1))
  /\ exists dead sub : DateTime.datetime,
       parse_dt (v_deadline v) = Some dead
       /\ parse_dt (v_submitted_at v) = Some sub
       /\ DateTime.gtb sub dead = true.
Proof.
  intros v.
  assert (In v (submissions_view 2 (db st1))) as Hin by (vm_compute; left; reflexivity).
  split; [exact Hin|].
  destruct (late_flag_of_view_rows 2 (db st1) v Hin) as [H _].
  apply H. reflexivity.
Defined.




(** C10 at work: with Arun's Pending submission in the store, his upload
    of a text file is refused and the row and its file stay. *)
Lemma failed_submit_keeps_state_witness :
  let out := student_dashboard demo_env (Some arun) up_text st1 in
  snd out = st1
  /\ In row1 (submissions (db (snd out)))
  /\ files (snd out) !! name1 = files st1 !! name1.
Proof.
  intros out.
  destruct (failed_submit_keeps_state demo_env (Some arun) up_text st1) as (H1 & H2 & _).
  assert (fst out <> SUBMITTED) as Hne by (vm_compute; discriminate).
  assert (In row1 (submissions (db st1))) as Hin by (vm_compute; left; reflexivity).
  split; [exact (H1 Hne)|]. exact (H2 Hne row1 Hin).
Defined.

(** X1 at work: the time of the demo requests, printed and read back, and
    the first minute of the year 999, whose printed form is not read. *)
Lemma printed_times_parse_back_witness :
  parse_dt "2026-03-05 23:59:01" = Some (DateTime.mkDT 2026 3 5 23 59 1)
  /\ DateTime.strftime_minutes (DateTime.mkDT 999 1 1 0 0 0) = "999-01-01 00:00"
  /\ parse_dt "999-01-01 00:00" = None.
Proof.
  destruct (printed_times_parse_back (DateTime.mkDT 2026 3 5 23 59 1) eq_refl) as [H _].
  assert (1000 <= DateTime.year (DateTime.mkDT 2026 3 5 23 59 1)) as Hy by (simpl; lia).
  destruct (H Hy) as [Hs _].
  destruct (printed_times_parse_back (DateTime.mkDT 999 1 1 0 0 0) eq_refl) as [_ H'].
  assert (DateTime.year (DateTime.mkDT 999 1 1 0 0 0) < 1000) as Hy' by (simpl; lia).
  destruct (H' Hy') as [_ Hm].
  split; [exact Hs|]. split; [vm_compute; reflexivity|exact Hm].
Defined.

(** X2 at work: the store with the deadline of the year 999, which is
    stored as [strftime] prints it. *)
Lemma reachable_store_invariants_witness :
  store_ok (db st_old) /\ deadlines_canonical (db st_old).
Proof.
  exact (reachable_store_invariants st_old
           (reach_step demo_env (Some priya) (c_faculty create_old) st0
                       (reach_init "na"))).
Defined.


Lemma st_reviewed_reachable : reachable st_reviewed.
Proof.
  exact (reach_step demo_env (Some priya) (c_faculty review1) st1 st1_reachable).
Qed.



(** X8 at work: the row that Arun's second upload adds is a new Pending
    row of his. *)
Lemma only_faculty_reviews_witness :
  let r := mkSubmission 2 2 1 name2 "2026-03-05 23:59:01" "Pending" "" "" None in
  let st' := snd (handle demo_env (Some arun) (c_student up2) st1) in
  In r (submissions (db st')) /\ ~ In r (submissions (db st1))
  /\ exists (sd : session_data) (aid : Z) (name : string),
       Some arun = Some sd
       /\ r = mkSubmission (seq_submissions (db st1) + 1) (s_user_id sd) aid name
                           (now_text demo_env) "Pending" "" "" None.
Proof.
  intros r st'.
  assert (In r (submissions (db st'))) as Hin by (vm_compute; left; reflexivity).
  assert (~ In r (submissions (db st1))) as Hout
    by (vm_compute; intros [H|[]]; discriminate H).
  assert (forall sd, Some arun = Some sd -> s_role sd <> "faculty") as Hrole
    by (intros sd [= <-]; vm_compute; discriminate).
  split; [exact Hin|]. split; [exact Hout|].
  destruct (only_faculty_reviews demo_env (Some arun) (c_student up2) st1 Hrole r Hin)
    as [H|H]; [contradiction|exact H].
Defined.

(** X9 at work: Dr. Priya's review leaves the files and the upload columns
    as they were. *)
Lemma only_students_remove_witness :
  files st_reviewed = files st1
  /\ map upload_columns (submissions (db st_reviewed))
     = map upload_columns (submissions (db st1)).
Proof.
  apply (only_students_remove demo_env (Some priya) (c_faculty review1) st1).
  intros sd [= <-]. vm_compute. discriminate.
Defined.

(** X10 at work: Meena's request to delete submission 1 leaves Arun's row. *)
Lemma students_isolated_witness :
  In row1 (submissions (db (snd (handle demo_env (Some meena) (c_delete 1) st1)))).
Proof.
  pose proof (reachable_ok st1 st1_reachable) as Hok.
  assert (sub_student_id row1 <> s_user_id meena) as Hne by (vm_compute; discriminate).
  apply (students_isolated demo_env meena (c_delete 1) st1 eq_refl (ok_sub_ids _ Hok)
           row1 Hne).
  vm_compute. left. reflexivity.
Defined.


(** X12 at work: after the upload, made one second after the deadline,
    Arun's dashboard shows the submission, as late. *)
Lemma upload_then_view_witness :
  let out := student_dashboard demo_env (Some arun) up1 st0 in
  fst (student_dashboard demo_env (Some arun) get_page (snd out))
  = Render (page_student (list_assignments (db (snd out)))
                         (submissions_view 2 (db (snd out))))
  /\ In (mkViewRow 1 name1 "2026-03-05 23:59:01" "Pending" "" ""
                   "Data Structures - Week 1" "2026-03-05 23:59" true)
        (submissions_view 2 (db (snd out))).
Proof.
  intros out.
  assert (fst out = SUBMITTED) as Hs by (vm_compute; reflexivity).
  destruct (upload_then_view demo_env demo_env arun up1 get_page st0
              eq_refl eq_refl eq_refl (reach_init "na") eq_refl Hs)
    as (Hpage & f & a & t & Hf & Ha & Hi & Hd & Hv & Hin & Hlate).
  split; [fold out in Hpage; now rewrite Hpage|].
  vm_compute in Hf. injection Hf as <-.
  assert (a = mkAssignment 1 "Data Structures - Week 1"
                "Implement stack and queue operations with test cases."
                "2026-03-05 23:59") as ->.
  { vm_compute in Ha. destruct Ha as [<-|[<-|[<-|[]]]];
      [reflexivity|vm_compute in Hi; discriminate Hi|vm_compute in Hi; discriminate Hi]. }
  vm_compute in Hin. vm_compute. exact Hin.
Defined.

(** X13 at work: Arun and Dr. Priya can download the file of his second
    upload; Meena cannot. *)
Lemma upload_then_download_witness :
  let st' := snd (student_dashboard demo_env (Some arun) up2 st1) in
  download_file (Some arun) name2 st' = SendFile name2 pdf_bytes
  /\ download_file (Some priya) name2 st' = SendFile name2 pdf_bytes
  /\ download_file (Some meena) name2 st'
     = flash_redirect "You are not allowed to access this file." "error"
                      ep_student_dashboard.
Proof.
  intros st'.
  assert (fst (student_dashboard demo_env (Some arun) up2 st1) = SUBMITTED) as Hs
    by (vm_compute; reflexivity).
  destruct (upload_then_download demo_env arun up2 st1 eq_refl eq_refl Hs)
    as (f & Hf & H).
  vm_compute in Hf. injection Hf as <-.
  assert (forall r, In r (submissions (db st1)) ->
                    sub_file_name r
                    <> final_name demo_env (s_user_id arun) (field "assignment_id" up2)
                         (mkFile "hw-final.PDF" pdf_bytes)) as Hfresh.
  { intros r Hr. vm_compute in Hr. destruct Hr as [<-|[]]. vm_compute. discriminate. }
  destruct (H Hfresh) as (H1 & H2 & H3).
  split; [exact H1|]. split.
  - apply (H2 priya). vm_compute. discriminate.
  - apply (H3 meena); [reflexivity|vm_compute; discriminate].
Defined.

(** X14 at work: once Arun has deleted submission 1, nobody is sent its
    file. *)
Lemma deleted_submission_is_gone_witness :
  let st' := snd (delete_submission (Some arun) 1 st1) in
  files st' !! name1 = None
  /\ download_file (Some priya) name1 st' <> SendFile name1 pdf_bytes.
Proof.
  intros st'.
  assert (fst (delete_submission (Some arun) 1 st1)
          = flash_redirect "Submission deleted." "success" ep_student_dashboard) as Hs
    by (vm_compute; reflexivity).
  destruct (deleted_submission_is_gone arun 1 st1 Hs)
    as (row & Hin & _ & _ & _ & Hfile & Hnone & _).
  vm_compute in Hin. destruct Hin as [<-|[]].
  split; [exact Hfile|]. exact (Hnone (Some priya) pdf_bytes).
Defined.


(** X16 and X17 at work: the store after the review. *)
Lemma reachable_reviews_consistent_witness : reviews_consistent (db st_reviewed).
Proof. exact (reachable_reviews_consistent st_reviewed st_reviewed_reachable). Defined.

Lemma reachable_references_resolve_witness : store_refs (db st_reviewed).
Proof. exact (reachable_references_resolve st_reviewed st_reviewed_reachable). Defined.

(** X19 at work: Arun's dashboard shows his one submission once. *)
Lemma view_rows_once_witness :
  let view := submissions_view 2 (db st1) in
  let mine := List.filter (fun s => sub_student_id s =? 2) (submissions (db st1)) in
  Permutation (map v_id view) (map sub_id mine)
  /\ List.NoDup (map v_id view)
  /\ length view = length mine.
Proof. exact (view_rows_once st1 2 st1_reachable). Defined.



(** X26 at work: Arun's second upload removes the file of the first and
    writes its own. *)
Lemma upload_touches_two_files_witness :
  let st' := snd (student_dashboard demo_env (Some arun) up2 st1) in
  files st' !! name2 = Some pdf_bytes /\ files st' !! name1 = None.
Proof.
  intros st'.
  assert (fst (student_dashboard demo_env (Some arun) up2 st1) = SUBMITTED) as Hs
    by (vm_compute; reflexivity).
  destruct (upload_touches_two_files demo_env arun up2 st1 eq_refl eq_refl
              (reachable_ok st1 st1_reachable) Hs)
    as (f & a & Hf & Ha & Hi & Hnew & Hold & _).
  vm_compute in Hf. injection Hf as <-.
  assert (asg_id a = 1) as Hid.
  { assert (sql_integer (field "assignment_id" up2) = Some 1) as H1
      by (vm_compute; reflexivity).
    rewrite H1 in Hi. now injection Hi. }
  split; [exact Hnew|].
  assert (In row1 (submissions (db st1))) as Hin by (vm_compute; left; reflexivity).
  assert (is_pending_for (s_user_id arun) (asg_id a) row1 = true) as Hp
    by (rewrite Hid; vm_compute; reflexivity).
  destruct (Hold row1 Hin Hp) as [Hgone _].
  apply Hgone. vm_compute. discriminate.
Defined.


(** X28 at work: the file of Arun's upload has its row. *)
Lemma reachable_no_orphan_files_witness :
  exists r : submission, In r (submissions (db st1)) /\ sub_file_name r = name1.
Proof.
  apply (reachable_no_orphan_files st1 st1_reachable name1 pdf_bytes).
  vm_compute. reflexivity.
Defined.
